(** * Fraud-detection pipeline: a shallow embedding of the TypeScript service

    The development follows the layout of the service:
    - [types/index.ts]            the data model (risk factors, analysis results),
    - [config/config.ts]          the configuration record and its defaults,
    - [services/CacheService.ts]  the Redis cache (fail-open reads and writes),
    - [models/FraudBlocklist.ts]  the persisted blocklist,
    - [kafka/EventPublisher.ts]   the outbound topics,
    - [services/*Analyzer.ts]     the six rule-based analyzers,
    - [services/MLModelService.ts] the rule-based fallback model,
    - [services/FraudDetectionService.ts] the orchestrator,
    - [kafka/EventConsumer.ts]    the inbound consumer,
    - [middleware/requestLogger.ts] and [middleware/errorHandler.ts]
                                  what reaches the log and the HTTP client,
    - [models/UserRiskProfile.ts] the instance methods of the risk profile.

    Modelling conventions.
    - A JavaScript [number] is an exact rational ([Q]); counters read from
      Redis are integers ([Z]).  The code produces NaN in two places: the
      high-risk lookup of the geographic analyzer, for a country that names
      an inherited member, and the severity of the velocity analyzer, for a
      count of 0 under a limit of 0.  From there it is carried by the flags
      [scoreIsNaN] of a risk factor and [finalScoreIsNaN] of an analysis,
      next to which the [Q] fields hold what the terms that are numbers add
      up to.  The risk level, which is a function of a score
      alone, takes a [Js.number].  The numbers of the configuration and of
      the events are numbers; infinities and rounding are outside the model,
      so divisors taken from the configuration are assumed positive wherever
      a theorem depends on them.
    - A string is a sequence of 8-bit characters; where a function looks
      into text outside ASCII ([toLowerCase]), that text is taken in UTF-8.
    - An ISO timestamp is the number of milliseconds it denotes ([Z]);
      [Date.now()] is a clock reading supplied by the environment.
    - Stateful code (Redis, the database, the Kafka producer, the model
      service) is written in a state-and-exception monad over [World].
    - Human-readable [reason] strings and log lines are not part of the
      model, except in the consumer and the error handler, whose contracts
      are about their log. *)

From Stdlib Require Import QArith Qminmax Qround Lqa ZArith Lia String Ascii List Bool.
From stdpp Require Import base option gmap strings.
Import ListNotations.

Local Open Scope string_scope.
Local Open Scope Q_scope.

(** ** JavaScript numbers *)

Module Js.

(** [a >= b], [a <= b], [a > b], [a < b] and [a === b] on numbers. *)
Definition geb (a b : Q) : bool := Qle_bool b a.
Definition leb (a b : Q) : bool := Qle_bool a b.
Definition gtb (a b : Q) : bool := negb (Qle_bool a b).
Definition ltb (a b : Q) : bool := negb (Qle_bool b a).
Definition eqb (a b : Q) : bool := Qeq_bool a b.

(** [Math.min(a, b)] and [Math.abs(a)]. *)
Definition min (a b : Q) : Q := Qmin a b.

(** [a % m === 0] for a positive modulus: the quotient is an integer. *)
Definition divisible (a m : Q) : bool :=
  Qeq_bool (inject_Z (Qfloor (a / m)) * m) a.

(** [s.includes(pattern)]. *)
Definition includes (s pattern : string) : bool :=
  match String.index 0 pattern s with Some _ => true | None => false end.

Definition lowerAscii (c : ascii) : ascii :=
  let n := nat_of_ascii c in
  if ((65 <=? n)%nat && (n <=? 90)%nat)%bool then ascii_of_nat (n + 32) else c.

(** [s.toLowerCase()], a string being given by its UTF-8 bytes.  ASCII
    letters are lowered, and so are the two characters outside ASCII whose
    lower case contains an ASCII letter: the Kelvin sign U+212A (bytes
    226 132 170) becomes [k], and U+0130 (bytes 196 176) becomes [i]
    followed by U+0307 (bytes 204 135).  Every other character outside
    ASCII lower-cases to characters outside ASCII and is left as it is: a
    search for an ASCII pattern, the only use made of the result, cannot
    tell the difference. *)
Fixpoint toLowerCase (s : string) : string :=
  match s with
  | EmptyString => EmptyString
  | String c r =>
      match c, r with
      | "226"%char, String "132"%char (String "170"%char r') =>
          String "k"%char (toLowerCase r')
      | "196"%char, String "176"%char r' =>
          String "i"%char (String "204"%char (String "135"%char (toLowerCase r')))
      | _, _ => String (lowerAscii c) (toLowerCase r)
      end
  end.

(** [xs.includes(x)] on an array of strings. *)
Definition arrayIncludes (xs : list string) (x : string) : bool :=
  existsb (String.eqb x) xs.

(** [xs.includes(n)] on an array of integers. *)
Definition arrayIncludesZ (xs : list Z) (n : Z) : bool :=
  existsb (Z.eqb n) xs.

(** Truthiness of a string: the empty string is falsy. *)
Definition truthy (s : string) : bool := negb (String.eqb s "").

(** The names every object literal inherits from [Object.prototype].  For
    such a name [o[name]] is a function, or the prototype itself for
    [__proto__]: a truthy value that has none of the fields of the
    literal's own entries. *)
Definition objectPrototypeKeys : list string :=
  ["constructor"; "__defineGetter__"; "__defineSetter__"; "hasOwnProperty";
   "__lookupGetter__"; "__lookupSetter__"; "isPrototypeOf"; "propertyIsEnumerable";
   "toString"; "valueOf"; "__proto__"; "toLocaleString"].

Definition inherited (key : string) : bool := arrayIncludes objectPrototypeKeys key.

(** A number that may be NaN, and [a < b] on it: every comparison with
    NaN is false. *)
Inductive number := Num (q : Q) | NaN.

Definition numberLtb (a : number) (b : Q) : bool :=
  match a with
  | Num q => negb (Qle_bool b q)
  | NaN => false
  end.

(** [Math.max(a, b)]. *)
Definition max (a b : Q) : Q := Qmax a b.

(** [c.repeat(n)] for a one-character string [c]. *)
Fixpoint repeat (c : ascii) (n : nat) : string :=
  match n with
  | O => EmptyString
  | S k => String c (repeat c k)
  end.

(** [s.slice(-n)] for a non-negative integer [n].  [-0] is [0], so
    [s.slice(-0)] is the whole string; a count beyond the length also
    gives the whole string. *)
Definition sliceLast (s : string) (n : nat) : string :=
  match n with
  | O => s
  | S _ => String.substring (String.length s - n) n s
  end.

(** [s.substring(start)]: from [start] to the end. *)
Definition substringFrom (s : string) (start : nat) : string :=
  String.substring start (String.length s - start) s.

(** [s.split(c)[0]] for a one-character separator: the text before the
    first [c], the whole string when there is none. *)
Fixpoint beforeFirst (c : ascii) (s : string) : string :=
  match s with
  | EmptyString => EmptyString
  | String d r => if Ascii.eqb d c then EmptyString else String d (beforeFirst c r)
  end.

End Js.

Infix ">=?" := Js.geb (at level 70, no associativity) : Q_scope.
Infix "<=?" := Js.leb (at level 70, no associativity) : Q_scope.
Infix ">?" := Js.gtb (at level 70, no associativity) : Q_scope.
Infix "<?" := Js.ltb (at level 70, no associativity) : Q_scope.
Infix "=?" := Js.eqb (at level 70, no associativity) : Q_scope.

(** ** types/index.ts

    Records keep the field names of the interfaces.  Where two interfaces
    share a name the later record prefixes it; the [score] of a
    [FraudAnalysisResult] is [finalScore]. *)

Inductive RiskDecision := APPROVE | SUSPICIOUS | REJECT.

Inductive ConfidenceLevel := HIGH | MEDIUM | LOW.

Inductive AnalysisStatus := PENDING | COMPLETED | FAILED | TIMEOUT.

Inductive FraudDetectionMethod :=
  VELOCITY | GEOGRAPHIC | AMOUNT | RECIPIENT | TIME | DEVICE | ML_MODEL.

Definition method_eqb (a b : FraudDetectionMethod) : bool :=
  match a, b with
  | VELOCITY, VELOCITY | GEOGRAPHIC, GEOGRAPHIC | AMOUNT, AMOUNT
  | RECIPIENT, RECIPIENT | TIME, TIME | DEVICE, DEVICE | ML_MODEL, ML_MODEL => true
  | _, _ => false
  end.

(** The [details] bag of a risk factor.  Only the entries that the service
    reads back, or that a contract mentions, are kept: the velocity counters
    (read by [constructMLFeatures]), the model's confidence and version, and
    the [blocked] and [error] markers. *)
Inductive Details :=
| DetailsVelocity
    (transactionsFiveMin transactionsOneHour transactionsTwentyFourHours : Z)
    (amountFiveMin amountOneHour amountTwentyFourHours : Q)
| DetailsModel (confidence : Q) (modelVersion : string)
| DetailsBlocked
| DetailsError
| DetailsOther.

(** [score] and [contributedScore] are JavaScript numbers.  [scoreIsNaN]
    tells that both are NaN (the contribution is the score times a weight);
    the two fields then hold what the terms that were numbers add up to. *)
Record RiskFactor := {
  method : FraudDetectionMethod;
  score : Q;
  weight : Q;
  contributedScore : Q;
  scoreIsNaN : bool;
  details : Details;
}.

(** [finalScoreIsNaN] tells that the score is NaN; [finalScore] then holds
    what the contributions that were numbers give. *)
Record FraudAnalysisResult := {
  id : string;
  transactionId : string;
  userId : string;
  finalScore : Q;
  finalScoreIsNaN : bool;
  decision : RiskDecision;
  confidence : ConfidenceLevel;
  status : AnalysisStatus;
  riskFactors : list RiskFactor;
  modelVersion : string;
  analysisTimeMs : Z;
  requiresManualReview : bool;
}.

Inductive Priority := PriorityHIGH | PriorityMEDIUM | PriorityLOW.

Record ManualReviewRequest := {
  review_analysisId : string;
  review_transactionId : string;
  review_userId : string;
  fraudScore : Q;
  review_riskFactors : list RiskFactor;
  priority : Priority;
}.

Record HistoryTransaction := {
  tx_transactionId : string;
  tx_amount : Q;
  tx_recipientId : string;
  tx_timestamp : Z;
  tx_country : option string;
  tx_deviceFingerprint : option string;
}.

Record Statistics := {
  totalTransactions : Z;
  averageAmount : Q;
  maxAmount : Q;
  minAmount : Q;
  standardDeviation : Q;
  uniqueRecipients : Z;
  uniqueCountries : Z;
  uniqueDevices : Z;
  accountCreatedAt : Z;
}.

Record UserTransactionHistory := {
  history_userId : string;
  transactions : list HistoryTransaction;
  statistics : Statistics;
}.

Record DeviceInfo := {
  device_fingerprint : string;
  device_userId : string;
  isKnown : bool;
  device_transactionCount : Z;
  trustScore : Q;
  isFlagged : bool;
}.

Record RecipientInfo := {
  info_recipientId : string;
  isBlocked : bool;
  isNew : bool;
  firstTransactionAt : option Z;
  lastTransactionAt : option Z;
  info_totalTransactions : Z;
  totalAmount : Q;
  riskScore : Q;
  accountAge : option Q;
  isVerified : bool;
  info_country : option string;
}.

Record GeoLocation := {
  ip : option string;
  country : option string;
  city : option string;
  latitude : option Q;
  longitude : option Q;
}.

Record VelocityData := {
  transactionsFiveMin : Z;
  transactionsOneHour : Z;
  transactionsTwentyFourHours : Z;
  amountFiveMin : Q;
  amountOneHour : Q;
  amountTwentyFourHours : Q;
  uniqueRecipientsFiveMin : Z;
  uniqueRecipientsOneHour : Z;
}.

Record MLFeatures := {
  txCountFiveMin : Q;
  txCountOneHour : Q;
  txCountTwentyFourHours : Q;
  f_amountFiveMin : Q;
  f_amountOneHour : Q;
  f_amountTwentyFourHours : Q;
  f_amount : Q;
  amountRatioToAvg : Q;
  amountRatioToMax : Q;
  amountZScore : Q;
  isNewCountry : Q;
  distanceFromLastTx : Q;
  impossibleTravel : Q;
  hourOfDay : Q;
  dayOfWeek : Q;
  isUnusualHour : Q;
  timeSinceLastTx : Q;
  isNewRecipient : Q;
  recipientRiskScore : Q;
  recipientTxCount : Q;
  isNewDevice : Q;
  deviceTrustScore : Q;
  f_accountAge : Q;
  totalTxCount : Q;
  avgTxAmount : Q;
  previousFraudFlags : Q;
}.

Record BlocklistEntry := {
  entry_id : string;
  entry_type : string;
  entry_value : string;
  entry_reason : string;
  entry_isActive : bool;
}.

(** The payload of a [TransactionCreatedEvent], with the [timestamp] the
    orchestrator reads from it. *)
Record Geographic := {
  geo_ip : string;
  geo_latitude : option Q;
  geo_longitude : option Q;
  geo_country : option string;
  geo_city : option string;
}.

Record Device := {
  fingerprint : string;
  userAgent : option string;
  deviceId : option string;
}.

Record Transaction := {
  payload_transactionId : string;
  payload_userId : string;
  sourceAccountId : string;
  destinationAccountId : string;
  recipientId : string;
  amount : Q;
  currency : string;
  timestamp : Z;
  geographic : option Geographic;
  device : option Device;
}.

Record TransactionCreatedEvent := {
  eventId : string;
  correlationId : option string;
  payload : Transaction;
}.

(** ** config/config.ts *)

Record VelocityWeights := {
  fiveMinute : Q;
  oneHour : Q;
  twentyFourHours : Q;
}.

Record Config := {
  (* thresholds *)
  approveMax : Q;
  suspiciousMin : Q;
  suspiciousMax : Q;
  rejectMin : Q;
  velocityWeights : VelocityWeights;
  geographicWeight : Q;
  amountWeight : Q;
  recipientWeight : Q;
  timeWeight : Q;
  deviceWeight : Q;
  (* analysis *)
  processingTimeoutMs : Z;
  maxTransfersPerFiveMin : Z;
  maxTransfersPerHour : Z;
  maxTransfersPerDay : Z;
  unusualMultiplier : Q;
  largeTransferMin : Q;
  impossibleTravelHours : Q;
  maxReasonableSpeedKmH : Q;
  newRecipientDays : Z;
  trustedRecipientMinTransfers : Z;
  (* ml *)
  modelPath : string;
  ml_modelVersion : string;
  inferenceTimeoutMs : Z;
  modelHashValidation : bool;
  expectedModelHash : option string;
  fallbackModelPath : string;
}.

(** The values [config] takes when no environment variable overrides them. *)
Definition defaultConfig : Config := {|
  approveMax := 0.50;
  suspiciousMin := 0.50;
  suspiciousMax := 0.80;
  rejectMin := 0.80;
  velocityWeights := {| fiveMinute := 0.15; oneHour := 0.10; twentyFourHours := 0.08 |};
  geographicWeight := 0.35;
  amountWeight := 0.25;
  recipientWeight := 0.30;
  timeWeight := 0.10;
  deviceWeight := 0.20;
  processingTimeoutMs := 5000;
  maxTransfersPerFiveMin := 3;
  maxTransfersPerHour := 10;
  maxTransfersPerDay := 50;
  unusualMultiplier := 5.0;
  largeTransferMin := 10000;
  impossibleTravelHours := 2.0;
  maxReasonableSpeedKmH := 900;
  newRecipientDays := 30;
  trustedRecipientMinTransfers := 5;
  modelPath := "./models/fraud-model.onnx";
  ml_modelVersion := "v2.5";
  inferenceTimeoutMs := 5000;
  modelHashValidation := true;
  expectedModelHash := None;
  fallbackModelPath := "./models/fraud-model-v2.4.onnx";
|}.

(** The five topics of [config.kafka.topics], named by their configuration key. *)
Inductive Topic :=
  transactionCreated | fraudAnalysis | fraudSuspected | fraudManualReview | fraudReviewComplete.

(** ** Collaborators outside the repository

    [sha256] is the hex digest of [crypto.createHash('sha256')]; [uaParser]
    is the result of [UAParser.getResult()]; the calendar functions are the
    local-time accessors of [Date]; [fileExists] is [fs.existsSync] and
    [modelHashMatches] the comparison made by [validateModelHash].  [isUUID]
    tells which strings PostgreSQL takes for a column of type [uuid], and
    [storesNaN] whether the validators of the ORM and the database take a
    score that is NaN: the repository decides neither. *)

Record UAResult := {
  browser_name : option string;
  browser_majorVersion : option Z;   (* parseInt(version.split('.')[0], 10) *)
  os_name : option string;
}.

Record Externals := {
  sha256 : string -> string;
  uaParser : string -> UAResult;
  getHours : Z -> Z;
  getDay : Z -> Z;
  getMonth : Z -> Z;
  getDate : Z -> Z;
  fileExists : string -> bool;
  modelHashMatches : bool;
  isUUID : string -> bool;
  storesNaN : bool;
}.

(** The clock readings of one run of the orchestrator: [now] is what
    [Date.now()] returns while the analysis runs, [finishedAt] what it
    returns once the marker has been written; [analysisId] and [spareId]
    are the UUIDs drawn by [uuidv4()]. *)
Record Env := {
  now : Z;
  finishedAt : Z;
  analysisId : string;
  spareId : string;
}.

(** ** The state the service works on *)

Inductive Window := W5m | W1h | W24h.

Global Instance Window_eq_dec : EqDecision Window.
Proof. solve_decision. Defined.

Global Instance Window_countable : Countable Window :=
  inj_countable'
    (fun w => match w with W5m => 0%nat | W1h => 1%nat | W24h => 2%nat end)
    (fun n => match n with 0%nat => W5m | 1%nat => W1h | _ => W24h end)
    (fun w => match w with W5m | W1h | W24h => eq_refl end).

(** The memoized result written by [cacheAnalysis].  The marker is JSON,
    in which a score that is NaN is written as [null]: [cached_scoreIsNull]
    tells so. *)
Record CachedAnalysis := {
  cached_decision : RiskDecision;
  cached_score : Q;
  cached_scoreIsNull : bool;
}.

(** A row of [fraud_blocklist]. *)
Record FraudBlocklist := {
  row_id : string;
  row_type : string;
  row_value : string;
  valueHash : string;
  row_reason : string;
  row_isActive : bool;
  matchCount : Z;
  lastMatchAt : option Z;
}.

Inductive FraudEventType :=
| FraudAnalysisComplete
| FraudSuspected
| FraudRejected
| ManualReviewRequired
| ManualReviewComplete
| BlocklistMatch.

Inductive EventPayload :=
| PayloadResult (result : FraudAnalysisResult)
| PayloadReview (request : ManualReviewRequest)
| PayloadBlocklist (transactionId userId blocklistType blocklistId reason : string).

(** One message handed to [producer.send]: the topic, the key and the event
    envelope (its random [eventId] and its timestamp are left out). *)
Record KafkaRecord := {
  topic : Topic;
  key : string;
  eventType : FraudEventType;
  event_correlationId : option string;
  event_payload : EventPayload;
}.

Record World := {
  (* Redis: [this.redis && this.isConnected] and the commands succeed; then
     one map per key family *)
  redisConnected : bool;
  analysisKeys : gmap string CachedAnalysis;
  userHistoryKeys : gmap string UserTransactionHistory;
  recipientKeys : gmap string RecipientInfo;
  deviceKeys : gmap string DeviceInfo;
  blocklistKeys : gmap (string * string) BlocklistEntry;
  velocityCountKeys : gmap (string * Window) Z;
  velocityAmountKeys : gmap (string * Window) Q;
  (* the database: a query throws while it is unreachable *)
  dbReachable : bool;
  fraud_analyses : list FraudAnalysisResult;
  fraud_blocklist : list FraudBlocklist;
  (* the Kafka producer: [this.producer && this.isConnected] and [send]
     succeeds; [sent] lists the messages handed to it, oldest first *)
  producerConnected : bool;
  sent : list KafkaRecord;
  (* MLModelService *)
  isLoaded : bool;
  loadedModelVersion : string;
}.

(** A computation either returns or throws; the state written before a
    throw stays written. *)
Inductive Outcome (A : Type) :=
| Returned (a : A)
| Thrown.
Arguments Returned {A} a.
Arguments Thrown {A}.

Definition M (A : Type) : Type := World -> Outcome A * World.

Definition ret {A} (a : A) : M A := fun w => (Returned a, w).

Definition throw {A} : M A := fun w => (Thrown, w).

Definition bind {A B} (m : M A) (k : A -> M B) : M B :=
  fun w => match m w with
           | (Returned a, w') => k a w'
           | (Thrown, w') => (Thrown, w')
           end.

(** [try { body } catch { handler }]. *)
Definition tryCatch {A} (body handler : M A) : M A :=
  fun w => match body w with
           | (Returned a, w') => (Returned a, w')
           | (Thrown, w') => handler w'
           end.

Definition get : M World := fun w => (Returned w, w).

Definition modify (f : World -> World) : M unit := fun w => (Returned tt, f w).

Notation "x <- m ;; k" := (bind m (fun x => k))
  (at level 100, m at next level, right associativity).
Notation "m ;;; k" := (bind m (fun _ => k))
  (at level 100, right associativity).

(** Field updates of [World]. *)

Definition with_analysisKeys (f : gmap string CachedAnalysis -> gmap string CachedAnalysis) (w : World) : World :=
  {| redisConnected := redisConnected w; analysisKeys := f (analysisKeys w);
     userHistoryKeys := userHistoryKeys w; recipientKeys := recipientKeys w;
     deviceKeys := deviceKeys w; blocklistKeys := blocklistKeys w;
     velocityCountKeys := velocityCountKeys w; velocityAmountKeys := velocityAmountKeys w;
     dbReachable := dbReachable w; fraud_analyses := fraud_analyses w;
     fraud_blocklist := fraud_blocklist w; producerConnected := producerConnected w;
     sent := sent w; isLoaded := isLoaded w; loadedModelVersion := loadedModelVersion w |}.

Definition with_recipientKeys (f : gmap string RecipientInfo -> gmap string RecipientInfo) (w : World) : World :=
  {| redisConnected := redisConnected w; analysisKeys := analysisKeys w;
     userHistoryKeys := userHistoryKeys w; recipientKeys := f (recipientKeys w);
     deviceKeys := deviceKeys w; blocklistKeys := blocklistKeys w;
     velocityCountKeys := velocityCountKeys w; velocityAmountKeys := velocityAmountKeys w;
     dbReachable := dbReachable w; fraud_analyses := fraud_analyses w;
     fraud_blocklist := fraud_blocklist w; producerConnected := producerConnected w;
     sent := sent w; isLoaded := isLoaded w; loadedModelVersion := loadedModelVersion w |}.

Definition with_deviceKeys (f : gmap string DeviceInfo -> gmap string DeviceInfo) (w : World) : World :=
  {| redisConnected := redisConnected w; analysisKeys := analysisKeys w;
     userHistoryKeys := userHistoryKeys w; recipientKeys := recipientKeys w;
     deviceKeys := f (deviceKeys w); blocklistKeys := blocklistKeys w;
     velocityCountKeys := velocityCountKeys w; velocityAmountKeys := velocityAmountKeys w;
     dbReachable := dbReachable w; fraud_analyses := fraud_analyses w;
     fraud_blocklist := fraud_blocklist w; producerConnected := producerConnected w;
     sent := sent w; isLoaded := isLoaded w; loadedModelVersion := loadedModelVersion w |}.

Definition with_blocklistKeys (f : gmap (string * string) BlocklistEntry -> gmap (string * string) BlocklistEntry) (w : World) : World :=
  {| redisConnected := redisConnected w; analysisKeys := analysisKeys w;
     userHistoryKeys := userHistoryKeys w; recipientKeys := recipientKeys w;
     deviceKeys := deviceKeys w; blocklistKeys := f (blocklistKeys w);
     velocityCountKeys := velocityCountKeys w; velocityAmountKeys := velocityAmountKeys w;
     dbReachable := dbReachable w; fraud_analyses := fraud_analyses w;
     fraud_blocklist := fraud_blocklist w; producerConnected := producerConnected w;
     sent := sent w; isLoaded := isLoaded w; loadedModelVersion := loadedModelVersion w |}.

Definition with_velocityKeys
    (f : gmap (string * Window) Z -> gmap (string * Window) Z)
    (g : gmap (string * Window) Q -> gmap (string * Window) Q) (w : World) : World :=
  {| redisConnected := redisConnected w; analysisKeys := analysisKeys w;
     userHistoryKeys := userHistoryKeys w; recipientKeys := recipientKeys w;
     deviceKeys := deviceKeys w; blocklistKeys := blocklistKeys w;
     velocityCountKeys := f (velocityCountKeys w); velocityAmountKeys := g (velocityAmountKeys w);
     dbReachable := dbReachable w; fraud_analyses := fraud_analyses w;
     fraud_blocklist := fraud_blocklist w; producerConnected := producerConnected w;
     sent := sent w; isLoaded := isLoaded w; loadedModelVersion := loadedModelVersion w |}.

Definition with_fraud_analyses (f : list FraudAnalysisResult -> list FraudAnalysisResult) (w : World) : World :=
  {| redisConnected := redisConnected w; analysisKeys := analysisKeys w;
     userHistoryKeys := userHistoryKeys w; recipientKeys := recipientKeys w;
     deviceKeys := deviceKeys w; blocklistKeys := blocklistKeys w;
     velocityCountKeys := velocityCountKeys w; velocityAmountKeys := velocityAmountKeys w;
     dbReachable := dbReachable w; fraud_analyses := f (fraud_analyses w);
     fraud_blocklist := fraud_blocklist w; producerConnected := producerConnected w;
     sent := sent w; isLoaded := isLoaded w; loadedModelVersion := loadedModelVersion w |}.

Definition with_fraud_blocklist (f : list FraudBlocklist -> list FraudBlocklist) (w : World) : World :=
  {| redisConnected := redisConnected w; analysisKeys := analysisKeys w;
     userHistoryKeys := userHistoryKeys w; recipientKeys := recipientKeys w;
     deviceKeys := deviceKeys w; blocklistKeys := blocklistKeys w;
     velocityCountKeys := velocityCountKeys w; velocityAmountKeys := velocityAmountKeys w;
     dbReachable := dbReachable w; fraud_analyses := fraud_analyses w;
     fraud_blocklist := f (fraud_blocklist w); producerConnected := producerConnected w;
     sent := sent w; isLoaded := isLoaded w; loadedModelVersion := loadedModelVersion w |}.

Definition with_sent (f : list KafkaRecord -> list KafkaRecord) (w : World) : World :=
  {| redisConnected := redisConnected w; analysisKeys := analysisKeys w;
     userHistoryKeys := userHistoryKeys w; recipientKeys := recipientKeys w;
     deviceKeys := deviceKeys w; blocklistKeys := blocklistKeys w;
     velocityCountKeys := velocityCountKeys w; velocityAmountKeys := velocityAmountKeys w;
     dbReachable := dbReachable w; fraud_analyses := fraud_analyses w;
     fraud_blocklist := fraud_blocklist w; producerConnected := producerConnected w;
     sent := f (sent w); isLoaded := isLoaded w; loadedModelVersion := loadedModelVersion w |}.

Definition with_model (version : string) (w : World) : World :=
  {| redisConnected := redisConnected w; analysisKeys := analysisKeys w;
     userHistoryKeys := userHistoryKeys w; recipientKeys := recipientKeys w;
     deviceKeys := deviceKeys w; blocklistKeys := blocklistKeys w;
     velocityCountKeys := velocityCountKeys w; velocityAmountKeys := velocityAmountKeys w;
     dbReachable := dbReachable w; fraud_analyses := fraud_analyses w;
     fraud_blocklist := fraud_blocklist w; producerConnected := producerConnected w;
     sent := sent w; isLoaded := true; loadedModelVersion := version |}.

(** [this.isLoaded = false; this.model = null]. *)
Definition with_unloaded (w : World) : World :=
  {| redisConnected := redisConnected w; analysisKeys := analysisKeys w;
     userHistoryKeys := userHistoryKeys w; recipientKeys := recipientKeys w;
     deviceKeys := deviceKeys w; blocklistKeys := blocklistKeys w;
     velocityCountKeys := velocityCountKeys w; velocityAmountKeys := velocityAmountKeys w;
     dbReachable := dbReachable w; fraud_analyses := fraud_analyses w;
     fraud_blocklist := fraud_blocklist w; producerConnected := producerConnected w;
     sent := sent w; isLoaded := false; loadedModelVersion := loadedModelVersion w |}.


(** ** services/CacheService.ts

    Every operation first tests [!this.redis || !this.isConnected] and then
    guards the Redis call with a [try]/[catch] that returns the same value
    as the disconnected case; both are the [redisConnected = false] branch
    here.  Keys expire outside this model: a run of the service sees the
    keys that are alive when it starts. *)

Module CacheService.
Section WithExternals.
Variable X : Externals.

Definition hashValue (value : string) : string :=
  String.substring 0 16 (sha256 X value).

Definition getUserHistory (userId : string) : M (option UserTransactionHistory) :=
  w <- get ;;
  if negb (redisConnected w) then ret None
  else ret (userHistoryKeys w !! userId).

Definition getDeviceInfo (fingerprint : string) : M (option DeviceInfo) :=
  w <- get ;;
  if negb (redisConnected w) then ret None
  else ret (deviceKeys w !! hashValue fingerprint).

Definition setDeviceInfo (fingerprint : string) (info : DeviceInfo) : M unit :=
  w <- get ;;
  if negb (redisConnected w) then ret tt
  else modify (with_deviceKeys (fun m => <[hashValue fingerprint := info]> m)).

Definition getRecipientInfo (recipientId : string) : M (option RecipientInfo) :=
  w <- get ;;
  if negb (redisConnected w) then ret None
  else ret (recipientKeys w !! recipientId).

Definition setRecipientInfo (recipientId : string) (info : RecipientInfo) : M unit :=
  w <- get ;;
  if negb (redisConnected w) then ret tt
  else modify (with_recipientKeys (fun m => <[recipientId := info]> m)).

Definition isInBlocklist (type value : string) : M (option BlocklistEntry) :=
  w <- get ;;
  if negb (redisConnected w) then ret None
  else ret (blocklistKeys w !! (type, hashValue value)).

Definition addToBlocklistCache (entry : BlocklistEntry) : M unit :=
  w <- get ;;
  if negb (redisConnected w) then ret tt
  else modify (with_blocklistKeys
                 (fun m => <[(entry_type entry, hashValue (entry_value entry)) := entry]> m)).

(** [INCR] and [INCRBYFLOAT] start from zero on a missing key. *)
Definition incrementVelocity (userId : string) (window : Window) (amount : Q) : M (Z * Q) :=
  w <- get ;;
  if negb (redisConnected w) then ret (0%Z, 0)
  else
    let count := (default 0%Z (velocityCountKeys w !! (userId, window)) + 1)%Z in
    let totalAmount := default 0 (velocityAmountKeys w !! (userId, window)) + amount in
    modify (with_velocityKeys (fun m => <[(userId, window) := count]> m)
                              (fun m => <[(userId, window) := totalAmount]> m)) ;;;
    ret (count, totalAmount).

Definition getVelocity (userId : string) (window : Window) : M (Z * Q) :=
  w <- get ;;
  if negb (redisConnected w) then ret (0%Z, 0)
  else ret (default 0%Z (velocityCountKeys w !! (userId, window)),
            default 0 (velocityAmountKeys w !! (userId, window))).

Definition getCachedAnalysis (transactionId : string) : M (option CachedAnalysis) :=
  w <- get ;;
  if negb (redisConnected w) then ret None
  else ret (analysisKeys w !! transactionId).

Definition cacheAnalysis (transactionId : string) (result : CachedAnalysis) : M unit :=
  w <- get ;;
  if negb (redisConnected w) then ret tt
  else modify (with_analysisKeys (fun m => <[transactionId := result]> m)).

Definition removeFromBlocklistCache (type value : string) : M unit :=
  w <- get ;;
  if negb (redisConnected w) then ret tt
  else modify (with_blocklistKeys (fun m => delete (type, hashValue value) m)).

End WithExternals.
End CacheService.

(** ** models/FraudBlocklist.ts and models/FraudAnalysis.ts

    A query on an unreachable database throws. *)

Module FraudBlocklistModel.

(** [findOne({ where: { valueHash: hashes, isActive: true } })], optionally
    restricted to one [type]. *)
Definition findOne (type : option string) (hashes : list string) : M (option FraudBlocklist) :=
  w <- get ;;
  if negb (dbReachable w) then throw
  else ret (List.find
              (fun row => (match type with
                           | Some t => String.eqb (row_type row) t
                           | None => true
                           end)
                          && Js.arrayIncludes hashes (valueHash row)
                          && row_isActive row)%bool
              (fraud_blocklist w)).

(** [recordMatch()]: [matchCount += 1], [lastMatchAt = new Date()], [save()]. *)
Definition recordMatch (e : Env) (entry : FraudBlocklist) : M unit :=
  w <- get ;;
  if negb (dbReachable w) then throw
  else modify (with_fraud_blocklist
                 (List.map (fun row =>
                    if String.eqb (row_id row) (row_id entry)
                    then {| row_id := row_id row; row_type := row_type row;
                            row_value := row_value row; valueHash := valueHash row;
                            row_reason := row_reason row; row_isActive := row_isActive row;
                            matchCount := (matchCount entry + 1)%Z;
                            lastMatchAt := Some (now e) |}
                    else row))).

End FraudBlocklistModel.

Module FraudAnalysisModel.
Section WithExternals.
Variable X : Externals.

(** The score validator of the model definition, [min: 0.0] and
    [max: 1.0]. *)
Definition validScore (row : FraudAnalysisResult) : bool :=
  if finalScoreIsNaN row then storesNaN X
  else ((0 <=? finalScore row) && (finalScore row <=? 1))%bool.

(** The column types of the model definition: [id], [transactionId] and
    [userId] are [DataTypes.UUID], [modelVersion] is [DataTypes.STRING(50)]. *)
Definition fitsColumns (row : FraudAnalysisResult) : bool :=
  (isUUID X (id row) && isUUID X (transactionId row) && isUUID X (userId row)
   && (String.length (modelVersion row) <=? 50)%nat)%bool.

(** [FraudAnalysis.create(row)]: the validator, the column types and the
    unique index on [transaction_id] reject the row by throwing. *)
Definition create (row : FraudAnalysisResult) : M unit :=
  w <- get ;;
  if negb (dbReachable w) then throw
  else if negb (validScore row) then throw
  else if negb (fitsColumns row) then throw
  else if existsb (fun r => String.eqb (transactionId r) (transactionId row)) (fraud_analyses w)
  then throw
  else modify (with_fraud_analyses (fun rows => (rows ++ [row])%list)).

End WithExternals.
End FraudAnalysisModel.

(** ** kafka/EventPublisher.ts *)

Module EventPublisher.

(** [publish(topic, event, key)]: nothing is sent while the producer is
    offline, and a failed [send] is logged, never rethrown. *)
Definition publish (t : Topic) (ty : FraudEventType) (correlationId : option string)
    (p : EventPayload) (k : string) : M unit :=
  w <- get ;;
  if negb (producerConnected w) then ret tt
  else modify (with_sent (fun l => (l ++ [{| topic := t; key := k; eventType := ty;
                                            event_correlationId := correlationId;
                                            event_payload := p |}])%list)).

Definition publishAnalysisComplete (result : FraudAnalysisResult) (correlationId : option string) : M unit :=
  publish fraudAnalysis FraudAnalysisComplete correlationId (PayloadResult result)
          (transactionId result).

Definition publishFraudSuspected (result : FraudAnalysisResult) (correlationId : option string) : M unit :=
  publish fraudSuspected FraudSuspected correlationId (PayloadResult result)
          (transactionId result).

Definition publishManualReviewRequired (reviewRequest : ManualReviewRequest)
    (correlationId : option string) : M unit :=
  publish fraudManualReview ManualReviewRequired correlationId (PayloadReview reviewRequest)
          (review_transactionId reviewRequest).

Definition publishBlocklistMatch (transactionId userId blocklistType blocklistId reason : string)
    (correlationId : option string) : M unit :=
  publish fraudSuspected BlocklistMatch correlationId
          (PayloadBlocklist transactionId userId blocklistType blocklistId reason)
          transactionId.

End EventPublisher.

(** ** The shape shared by the rule checks *)

Record RuleResult := {
  detected : bool;
  rule_score : Q;
}.

Definition notDetected : RuleResult := {| detected := false; rule_score := 0 |}.

Definition hit (s : Q) : RuleResult := {| detected := true; rule_score := s |}.

(** [if (r.detected) { totalScore += r.score }]. *)
Definition addIfDetected (totalScore : Q) (r : RuleResult) : Q :=
  if detected r then totalScore + rule_score r else totalScore.

(** How much a rule adds to the running total. *)
Definition contribution (r : RuleResult) : Q :=
  if detected r then rule_score r else 0.

Definition msPerDay : Q := 1000 * 60 * 60 * 24.
Definition msPerHour : Q := 1000 * 60 * 60.

(** ** services/AmountAnalyzer.ts *)

Module AmountAnalyzer.
Section WithConfig.
Variable cfg : Config.
Variable e : Env.

Definition getDefaultStats : Statistics := {|
  totalTransactions := 0;
  averageAmount := 0;
  maxAmount := 0;
  minAmount := 0;
  standardDeviation := 0;
  uniqueRecipients := 0;
  uniqueCountries := 0;
  uniqueDevices := 0;
  accountCreatedAt := now e;
|}.

Definition checkUnusualAmount (amount : Q) (stats : Statistics) : RuleResult :=
  if ((totalTransactions stats <? 5)%Z || (averageAmount stats =? 0))%bool then notDetected
  else
    let ratio := amount / averageAmount stats in
    if ratio >=? unusualMultiplier cfg * 2 then hit 0.20
    else if ratio >=? unusualMultiplier cfg then hit 0.12
    else notDetected.

Definition checkExceedsMax (amount : Q) (stats : Statistics) : RuleResult :=
  if ((totalTransactions stats <? 3)%Z || (maxAmount stats =? 0))%bool then notDetected
  else if amount >? maxAmount stats * 2 then hit 0.15
  else if amount >? maxAmount stats * 1.5 then hit 0.08
  else notDetected.

Definition checkAbsoluteLarge (amount : Q) : RuleResult :=
  if amount >=? largeTransferMin cfg * 10 then hit 0.12
  else if amount >=? largeTransferMin cfg * 5 then hit 0.08
  else if amount >=? largeTransferMin cfg then hit 0.04
  else notDetected.

Definition roundThresholds : list Q := [1000; 2000; 5000; 10000; 20000; 50000; 100000].

Definition checkRoundNumber (amount : Q) : RuleResult :=
  if existsb (fun threshold => amount =? threshold) roundThresholds then hit 0.05
  else if ((amount >=? 500) && Js.divisible amount 100)%bool then hit 0.03
  else notDetected.

Definition checkBelowReportingThreshold (amount : Q) : RuleResult :=
  if ((amount >=? 9000) && (amount <? 10000))%bool then hit 0.15
  else if ((amount >=? 4800) && (amount <? 5000))%bool then hit 0.08
  else if ((amount >=? 2900) && (amount <? 3000))%bool then hit 0.05
  else notDetected.

Definition checkZScore (amount : Q) (stats : Statistics) : RuleResult :=
  let zScore := (amount - averageAmount stats) / standardDeviation stats in
  if zScore >=? 4 then hit 0.18
  else if zScore >=? 3 then hit 0.12
  else if zScore >=? 2 then hit 0.06
  else notDetected.

Definition isNewAccount (stats : Statistics) : bool :=
  let daysSinceCreation := inject_Z (now e - accountCreatedAt stats) / msPerDay in
  daysSinceCreation <? 30.

(** The z-score rule as [analyze] guards it. *)
Definition zScoreRule (amount : Q) (stats : Statistics) : RuleResult :=
  if standardDeviation stats >? 0 then checkZScore amount stats else notDetected.

Definition newAccountLarge (amount : Q) (stats : Statistics) : RuleResult :=
  if (isNewAccount stats && (amount >? 1000))%bool then hit 0.08 else notDetected.

(** The running total of [analyze] before the cap. *)
Definition uncappedScore (amount : Q) (stats : Statistics) : Q :=
  let totalScore := 0 in
  let totalScore := addIfDetected totalScore (checkUnusualAmount amount stats) in
  let totalScore := addIfDetected totalScore (checkExceedsMax amount stats) in
  let totalScore := addIfDetected totalScore (checkAbsoluteLarge amount) in
  let totalScore := addIfDetected totalScore (checkRoundNumber amount) in
  let totalScore := addIfDetected totalScore (checkBelowReportingThreshold amount) in
  let totalScore := addIfDetected totalScore (zScoreRule amount stats) in
  let totalScore := addIfDetected totalScore (newAccountLarge amount stats) in
  totalScore.

Definition unavailable : RiskFactor :=
  {| method := AMOUNT; score := 0; weight := amountWeight cfg; contributedScore := 0;
     scoreIsNaN := false; details := DetailsError |}.

Definition analyze (userId transactionId : string) (amount : Q) (currency : string)
    (userHistory : option UserTransactionHistory) : M RiskFactor :=
  tryCatch
    (let stats := match userHistory with
                  | Some h => statistics h
                  | None => getDefaultStats
                  end in
     let totalScore := Js.min (uncappedScore amount stats) 0.40 in
     ret {| method := AMOUNT; score := totalScore; weight := amountWeight cfg;
            contributedScore := totalScore * amountWeight cfg;
            scoreIsNaN := false; details := DetailsOther |})
    (ret unavailable).

Definition calculateZScore (amount average stdDev : Q) : Q :=
  if stdDev =? 0 then 0 else (amount - average) / stdDev.

End WithConfig.
End AmountAnalyzer.

(** ** services/VelocityAnalyzer.ts *)

Module VelocityAnalyzer.
Section WithConfig.
Variable cfg : Config.
Variable X : Externals.

Definition getVelocityData (userId : string) : M VelocityData :=
  fiveMin <- CacheService.getVelocity userId W5m ;;
  oneHour <- CacheService.getVelocity userId W1h ;;
  twentyFourHours <- CacheService.getVelocity userId W24h ;;
  ret {| transactionsFiveMin := fst fiveMin;
         transactionsOneHour := fst oneHour;
         transactionsTwentyFourHours := fst twentyFourHours;
         amountFiveMin := snd fiveMin;
         amountOneHour := snd oneHour;
         amountTwentyFourHours := snd twentyFourHours;
         uniqueRecipientsFiveMin := 0;
         uniqueRecipientsOneHour := 0 |}.

Definition incrementVelocity (userId : string) (amount : Q) : M unit :=
  CacheService.incrementVelocity userId W5m amount ;;;
  CacheService.incrementVelocity userId W1h amount ;;;
  CacheService.incrementVelocity userId W24h amount ;;;
  ret tt.

(** [Math.min(count / max, 2.0)] for [count >= max].  With [max = 0] the
    quotient of a positive count is [Infinity], which the minimum cuts to
    2, and the quotient of a count of 0 is NaN, which [severityIsNaN]
    tells. *)
Definition severity (count max : Z) : Q :=
  if (max =? 0)%Z then 2.0 else Js.min (inject_Z count / inject_Z max) 2.0.

Definition severityIsNaN (count max : Z) : bool := ((max =? 0) && (count =? 0))%Z.

(** One window: [if (count >= max) totalScore += weight * severity]. *)
Definition windowRule (count max : Z) (w : Q) : RuleResult :=
  if (count >=? max)%Z then hit (w * severity count max) else notDetected.

Definition windowIsNaN (count max : Z) : bool :=
  ((count >=? max)%Z && severityIsNaN count max)%bool.

Definition checkAmountSpike (velocityData : VelocityData) (currentAmount : Q) : RuleResult :=
  if (transactionsTwentyFourHours velocityData >? 0)%Z then
    let avgDailyAmount :=
      amountTwentyFourHours velocityData / inject_Z (transactionsTwentyFourHours velocityData) in
    let recentTotalWithCurrent := amountFiveMin velocityData + currentAmount in
    if recentTotalWithCurrent >? avgDailyAmount * 10 then hit 0.12 else notDetected
  else notDetected.

Definition checkRapidDiverseTransfers (recipientId : string) (velocityData : VelocityData) : RuleResult :=
  if ((transactionsFiveMin velocityData >=? 3)%Z
      && (uniqueRecipientsFiveMin velocityData >=? 3)%Z)%bool
  then hit 0.10 else notDetected.

Definition uncappedScore (velocityData : VelocityData) (amount : Q) (recipientId : string) : Q :=
  let totalScore := 0 in
  let totalScore := addIfDetected totalScore
    (windowRule (transactionsFiveMin velocityData) (maxTransfersPerFiveMin cfg)
                (fiveMinute (velocityWeights cfg))) in
  let totalScore := addIfDetected totalScore
    (windowRule (transactionsOneHour velocityData) (maxTransfersPerHour cfg)
                (oneHour (velocityWeights cfg))) in
  let totalScore := addIfDetected totalScore
    (windowRule (transactionsTwentyFourHours velocityData) (maxTransfersPerDay cfg)
                (twentyFourHours (velocityWeights cfg))) in
  let totalScore := addIfDetected totalScore (checkAmountSpike velocityData amount) in
  let totalScore := addIfDetected totalScore (checkRapidDiverseTransfers recipientId velocityData) in
  totalScore.

(** A severity that is NaN makes the total NaN, whatever is added to it
    and whatever it is capped with. *)
Definition scoreUndefined (velocityData : VelocityData) : bool :=
  (windowIsNaN (transactionsFiveMin velocityData) (maxTransfersPerFiveMin cfg)
   || windowIsNaN (transactionsOneHour velocityData) (maxTransfersPerHour cfg)
   || windowIsNaN (transactionsTwentyFourHours velocityData) (maxTransfersPerDay cfg))%bool.

Definition unavailable : RiskFactor :=
  {| method := VELOCITY; score := 0; weight := 1.0; contributedScore := 0;
     scoreIsNaN := false; details := DetailsError |}.

Definition analyze (userId transactionId : string) (amount : Q) (recipientId : string) : M RiskFactor :=
  tryCatch
    (velocityData <- getVelocityData userId ;;
     incrementVelocity userId amount ;;;
     let totalScore := Js.min (uncappedScore velocityData amount recipientId) 0.45 in
     let totalIsNaN := scoreUndefined velocityData in
     ret {| method := VELOCITY; score := totalScore; weight := 1.0;
            contributedScore := totalScore;
            scoreIsNaN := totalIsNaN;
            details := DetailsVelocity
              (transactionsFiveMin velocityData + 1)
              (transactionsOneHour velocityData + 1)
              (transactionsTwentyFourHours velocityData + 1)
              (amountFiveMin velocityData + amount)
              (amountOneHour velocityData + amount)
              (amountTwentyFourHours velocityData + amount) |})
    (ret unavailable).

End WithConfig.
End VelocityAnalyzer.

(** ** services/GeographicAnalyzer.ts *)

Module GeographicAnalyzer.
Section WithConfig.
Variable cfg : Config.
Variable e : Env.

(** [!x] on an optional number: [null] and [0] are falsy. *)
Definition falsyNumber (x : option Q) : bool :=
  match x with
  | None => true
  | Some q => q =? 0
  end.

(** Truthiness of an optional string. *)
Definition truthyString (s : option string) : bool :=
  match s with
  | None => false
  | Some v => Js.truthy v
  end.

Definition checkImpossibleTravel (currentLocation : GeoLocation)
    (userHistory : UserTransactionHistory) : RuleResult :=
  if (falsyNumber (latitude currentLocation) || falsyNumber (longitude currentLocation))%bool
  then notDetected
  else
    match List.find (fun tx => match tx_country tx with Some _ => true | None => false end)
                    (transactions userHistory) with
    | None => notDetected
    | Some recentTx =>
        match tx_country recentTx, country currentLocation with
        | Some previous, Some current =>
            if (Js.truthy previous && Js.truthy current && negb (String.eqb previous current))%bool
            then
              let timeDiff := (now e - tx_timestamp recentTx)%Z in
              let hoursDiff := inject_Z timeDiff / msPerHour in
              if hoursDiff <? impossibleTravelHours cfg then hit 0.35 else notDetected
            else notDetected
        | _, _ => notDetected
        end
    end.

Definition checkNewCountry (currentLocation : GeoLocation) (knownCountries : list string) : RuleResult :=
  match country currentLocation with
  | None => notDetected
  | Some current =>
      if negb (Js.truthy current) then notDetected
      else
        let isNew := negb (Js.arrayIncludes knownCountries current) in
        if (isNew && (0 <? length knownCountries)%nat)%bool then hit 0.15 else notDetected
  end.

Definition highRiskCountries : list (string * Q) :=
  [("NG", 0.12); ("RU", 0.10); ("CN", 0.08); ("VN", 0.08);
   ("IN", 0.05); ("PH", 0.06); ("UA", 0.08); ("RO", 0.07)].

(** [highRiskCountries[country]].  The table is an object literal, so the
    lookup finds the literal's own entry or, for a name the literal inherits
    from [Object.prototype], the inherited member: a truthy value without
    [score] and [level]. *)
Inductive RiskData := OwnEntry (riskScore : Q) | InheritedMember | NoEntry.

Definition lookupHighRisk (current : string) : RiskData :=
  match List.find (fun entry => String.eqb (fst entry) current) highRiskCountries with
  | Some riskData => OwnEntry (snd riskData)
  | None => if Js.inherited current then InheritedMember else NoEntry
  end.

(** [checkHighRiskCountry] reports a hit whenever the lookup is truthy,
    with [riskData.score] as its score.  For an inherited member that score
    is [undefined]: [scoreUndefined] tells so, and the rule result then
    carries 0. *)
Definition checkHighRiskCountry (currentLocation : GeoLocation) : RuleResult :=
  match country currentLocation with
  | None => notDetected
  | Some current =>
      if negb (Js.truthy current) then notDetected
      else match lookupHighRisk current with
           | OwnEntry riskScore => hit riskScore
           | InheritedMember => hit 0
           | NoEntry => notDetected
           end
  end.

Definition scoreUndefined (currentLocation : GeoLocation) : bool :=
  match country currentLocation with
  | None => false
  | Some current =>
      (Js.truthy current
       && match lookupHighRisk current with InheritedMember => true | _ => false end)%bool
  end.

Definition checkVPNIndicators : RuleResult := notDetected.

Definition uncappedScore (currentLocation : GeoLocation)
    (userHistory : option UserTransactionHistory) (knownCountries : list string) : Q :=
  let totalScore := 0 in
  let totalScore :=
    match userHistory with
    | Some h =>
        if (0 <? length (transactions h))%nat
        then addIfDetected totalScore (checkImpossibleTravel currentLocation h)
        else totalScore
    | None => totalScore
    end in
  let totalScore := addIfDetected totalScore (checkNewCountry currentLocation knownCountries) in
  let totalScore := addIfDetected totalScore (checkHighRiskCountry currentLocation) in
  let totalScore :=
    if truthyString (ip currentLocation)
    then addIfDetected totalScore checkVPNIndicators
    else totalScore in
  totalScore.

Definition unavailable : RiskFactor :=
  {| method := GEOGRAPHIC; score := 0; weight := geographicWeight cfg; contributedScore := 0;
     scoreIsNaN := false; details := DetailsError |}.

Definition analyze (userId transactionId : string) (currentLocation : GeoLocation)
    (userHistory : option UserTransactionHistory) (knownCountries : list string) : M RiskFactor :=
  tryCatch
    (let totalScore := Js.min (uncappedScore currentLocation userHistory knownCountries) 0.50 in
     (* [totalScore += undefined] leaves NaN, which the later additions, the
        cap and the product with the weight all keep *)
     let totalIsNaN := scoreUndefined currentLocation in
     ret {| method := GEOGRAPHIC; score := totalScore; weight := geographicWeight cfg;
            contributedScore := totalScore * geographicWeight cfg;
            scoreIsNaN := totalIsNaN; details := DetailsOther |})
    (ret unavailable).

End WithConfig.
End GeographicAnalyzer.

(** ** services/RecipientAnalyzer.ts *)

Module RecipientAnalyzer.
Section WithConfig.
Variable cfg : Config.
Variable X : Externals.
Variable e : Env.

Definition hashValue (value : string) : string := sha256 X value.

(** The outcome of the blocklist lookup: [detected] only. *)
Definition checkBlocklist (recipientId recipientAccountId : string) : M bool :=
  tryCatch
    (cachedBlock <- CacheService.isInBlocklist X "RECIPIENT" recipientId ;;
     if match cachedBlock with Some b => entry_isActive b | None => false end
     then ret true
     else
       cachedAccountBlock <- CacheService.isInBlocklist X "ACCOUNT" recipientAccountId ;;
       if match cachedAccountBlock with Some b => entry_isActive b | None => false end
       then ret true
       else
         let valueHash := hashValue recipientId in
         let accountHash := hashValue recipientAccountId in
         blocklistEntry <- FraudBlocklistModel.findOne None [valueHash; accountHash] ;;
         match blocklistEntry with
         | Some entry =>
             CacheService.addToBlocklistCache X
               {| entry_id := row_id entry; entry_type := row_type entry;
                  entry_value := row_value entry; entry_reason := row_reason entry;
                  entry_isActive := row_isActive entry |} ;;;
             FraudBlocklistModel.recordMatch e entry ;;;
             ret true
         | None => ret false
         end)
    (ret false).

Definition unknownRecipient (recipientId : string) : RecipientInfo :=
  {| info_recipientId := recipientId; isBlocked := false; isNew := true;
     firstTransactionAt := None; lastTransactionAt := None;
     info_totalTransactions := 0; totalAmount := 0; riskScore := 0.2;
     accountAge := None; isVerified := false; info_country := None |}.

Definition computeRecipientInfo (recipientId : string)
    (userHistory : option UserTransactionHistory) : option RecipientInfo :=
  match userHistory with
  | None => Some (unknownRecipient recipientId)
  | Some h =>
      let recipientTx :=
        List.filter (fun tx => String.eqb (tx_recipientId tx) recipientId) (transactions h) in
      match recipientTx with
      | [] => Some (unknownRecipient recipientId)
      | first :: _ =>
          let totalAmount := fold_left (fun sum tx => sum + tx_amount tx) recipientTx 0 in
          let firstTx :=
            fold_left (fun earliest tx =>
                         if (tx_timestamp tx <? tx_timestamp earliest)%Z then tx else earliest)
                      recipientTx first in
          let count := Z.of_nat (length recipientTx) in
          let riskScore :=
            if (count >=? trustedRecipientMinTransfers cfg)%Z then 0.05
            else if (count >=? 2)%Z then 0.10
            else 0.2 in
          Some {| info_recipientId := recipientId; isBlocked := false; isNew := false;
                  firstTransactionAt := Some (tx_timestamp firstTx);
                  lastTransactionAt := Some (tx_timestamp (List.last recipientTx first));
                  info_totalTransactions := count; totalAmount := totalAmount;
                  riskScore := riskScore; accountAge := None; isVerified := true;
                  info_country := None |}
      end
  end.

Definition checkNewRecipient (recipientId : string) (recipientInfo : option RecipientInfo)
    (trustedRecipients : list string) : RuleResult :=
  if Js.arrayIncludes trustedRecipients recipientId then notDetected
  else
    match recipientInfo with
    | None => hit 0.15
    | Some info =>
        if isNew info then hit 0.15
        else
          match firstTransactionAt info with
          | Some first =>
              let daysSinceFirst := inject_Z (now e - first) / msPerDay in
              if ((daysSinceFirst <? inject_Z (newRecipientDays cfg))
                  && (info_totalTransactions info <? 3)%Z)%bool
              then hit 0.10
              else notDetected
          | None => notDetected
          end
    end.

Definition countRecentNewRecipients (userHistory : UserTransactionHistory) : Z :=
  let oneDayAgo := (now e - 24 * 60 * 60 * 1000)%Z in
  let recentTx := List.filter (fun tx => (tx_timestamp tx >? oneDayAgo)%Z) (transactions userHistory) in
  let recentRecipients := remove_dups (List.map tx_recipientId recentTx) in
  let olderTx := List.filter (fun tx => (tx_timestamp tx <=? oneDayAgo)%Z) (transactions userHistory) in
  let establishedRecipients := List.map tx_recipientId olderTx in
  Z.of_nat (length (List.filter (fun recipient => negb (Js.arrayIncludes establishedRecipients recipient))
                                recentRecipients)).

Definition riskScoreRule (recipientInfo : option RecipientInfo) : RuleResult :=
  match recipientInfo with
  | Some info => if riskScore info >? 0.3 then hit (riskScore info * 0.2) else notDetected
  | None => notDetected
  end.

Definition accountAgeRule (recipientInfo : option RecipientInfo) : RuleResult :=
  match recipientInfo with
  | Some info => match accountAge info with
                 | Some age => if age <? 30 then hit 0.10 else notDetected
                 | None => notDetected
                 end
  | None => notDetected
  end.

Definition highRiskCountries : list string := ["NG"; "RU"; "VN"; "UA"; "RO"].

Definition countryRule (recipientInfo : option RecipientInfo) : RuleResult :=
  match recipientInfo with
  | Some info => match info_country info with
                 | Some c => if (Js.truthy c && Js.arrayIncludes highRiskCountries c)%bool
                             then hit 0.08 else notDetected
                 | None => notDetected
                 end
  | None => notDetected
  end.

Definition unverifiedRule (recipientInfo : option RecipientInfo) : RuleResult :=
  match recipientInfo with
  | Some info => if negb (isVerified info) then hit 0.05 else notDetected
  | None => notDetected
  end.

Definition burstRule (isNewRecipient : RuleResult)
    (userHistory : option UserTransactionHistory) : RuleResult :=
  match userHistory with
  | Some h => if (detected isNewRecipient && (countRecentNewRecipients h >=? 3)%Z)%bool
              then hit 0.12 else notDetected
  | None => notDetected
  end.

Definition uncappedScore (recipientId : string) (recipientInfo : option RecipientInfo)
    (userHistory : option UserTransactionHistory) (trustedRecipients : list string) : Q :=
  let totalScore := 0 in
  let isNewRecipient := checkNewRecipient recipientId recipientInfo trustedRecipients in
  let totalScore := addIfDetected totalScore isNewRecipient in
  let totalScore := addIfDetected totalScore (riskScoreRule recipientInfo) in
  let totalScore := addIfDetected totalScore (accountAgeRule recipientInfo) in
  let totalScore := addIfDetected totalScore (countryRule recipientInfo) in
  let totalScore := addIfDetected totalScore (unverifiedRule recipientInfo) in
  let totalScore := addIfDetected totalScore (burstRule isNewRecipient userHistory) in
  totalScore.

Definition blocked : RiskFactor :=
  {| method := RECIPIENT; score := 1.0; weight := recipientWeight cfg; contributedScore := 1.0;
     scoreIsNaN := false; details := DetailsBlocked |}.

Definition unavailable : RiskFactor :=
  {| method := RECIPIENT; score := 0; weight := recipientWeight cfg; contributedScore := 0;
     scoreIsNaN := false; details := DetailsError |}.

Definition analyze (userId transactionId recipientId recipientAccountId : string)
    (userHistory : option UserTransactionHistory) (trustedRecipients : list string) : M RiskFactor :=
  tryCatch
    (blocklistMatch <- checkBlocklist recipientId recipientAccountId ;;
     if (blocklistMatch : bool) then ret blocked
     else
       cachedInfo <- CacheService.getRecipientInfo recipientId ;;
       recipientInfo <-
         match cachedInfo with
         | Some info => ret (Some info)
         | None =>
             let computed := computeRecipientInfo recipientId userHistory in
             match computed with
             | Some info => CacheService.setRecipientInfo recipientId info
             | None => ret tt
             end ;;;
             ret computed
         end ;;
       let totalScore :=
         Js.min (uncappedScore recipientId recipientInfo userHistory trustedRecipients) 0.45 in
       ret {| method := RECIPIENT; score := totalScore; weight := recipientWeight cfg;
              contributedScore := totalScore * recipientWeight cfg;
              scoreIsNaN := false; details := DetailsOther |})
    (ret unavailable).

End WithConfig.
End RecipientAnalyzer.

(** ** services/DeviceAnalyzer.ts

    [analyze] declares [knownDevices: string[]] and
    [userHistory: UserTransactionHistory | null].  The orchestrator's call
    lists seven arguments for the six parameters, so at run time
    [knownDevices] is bound to [transaction.device?.deviceId] (a string or
    [undefined]) and [userHistory] to the orchestrator's empty
    [knownDevices] array.  The two parameters therefore range over the
    values they can hold at run time, and a property access on [undefined]
    throws. *)

Inductive KnownDevices :=
| DevicesArray (xs : list string)
| DevicesString (s : string)
| DevicesUndefined.

Inductive DeviceHistory :=
| HistoryNull
| HistoryObject (h : UserTransactionHistory)
| HistoryArray.

Module DeviceAnalyzer.
Section WithConfig.
Variable cfg : Config.
Variable X : Externals.
Variable e : Env.

Definition hashValue (value : string) : string := sha256 X value.

(** [knownDevices.includes(x)]. *)
Definition includes (knownDevices : KnownDevices) (x : string) : M bool :=
  match knownDevices with
  | DevicesArray xs => ret (Js.arrayIncludes xs x)
  | DevicesString s => ret (Js.includes s x)
  | DevicesUndefined => throw
  end.

(** [knownDevices.length]. *)
Definition lengthOf (knownDevices : KnownDevices) : M Z :=
  match knownDevices with
  | DevicesArray xs => ret (Z.of_nat (length xs))
  | DevicesString s => ret (Z.of_nat (String.length s))
  | DevicesUndefined => throw
  end.

(** [userHistory.statistics.totalTransactions]: an array has no
    [statistics], so reading [totalTransactions] off it throws. *)
Definition totalTransactionsOf (userHistory : DeviceHistory) : M Z :=
  match userHistory with
  | HistoryObject h => ret (totalTransactions (statistics h))
  | HistoryArray | HistoryNull => throw
  end.

Definition truthyOpt (s : option string) : bool :=
  match s with
  | Some v => Js.truthy v
  | None => false
  end.

Definition checkBlocklist (deviceFingerprint : string) : M bool :=
  tryCatch
    (cached <- CacheService.isInBlocklist X "DEVICE" deviceFingerprint ;;
     if match cached with Some b => entry_isActive b | None => false end
     then ret true
     else
       let hash := hashValue deviceFingerprint in
       entry <- FraudBlocklistModel.findOne (Some "DEVICE") [hash] ;;
       match entry with
       | Some row =>
           FraudBlocklistModel.recordMatch e row ;;;
           CacheService.addToBlocklistCache X
             {| entry_id := row_id row; entry_type := "DEVICE";
                entry_value := row_value row; entry_reason := row_reason row;
                entry_isActive := true |} ;;;
           ret true
       | None => ret false
       end)
    (ret false).

Definition checkNewDevice (deviceFingerprint : option string)
    (knownDevices : KnownDevices) : M RuleResult :=
  if negb (truthyOpt deviceFingerprint) then ret notDetected
  else
    isKnown <- includes knownDevices (default "" deviceFingerprint) ;;
    n <- lengthOf knownDevices ;;
    if (negb isKnown && (n >? 0)%Z)%bool then ret (hit 0.12)
    else if (negb isKnown && (n =? 0)%Z)%bool then ret (hit 0.06)
    else ret notDetected.

Definition createDeviceInfo (fingerprint userId : string) : DeviceInfo :=
  {| device_fingerprint := fingerprint; device_userId := userId; isKnown := false;
     device_transactionCount := 0; trustScore := 0.5; isFlagged := false |}.

Definition headlessPatterns : list string :=
  ["HeadlessChrome"; "PhantomJS"; "Selenium"; "puppeteer"; "playwright"; "crawl"; "bot"; "spider"].

Definition analyzeUserAgent (userAgent : string) : RuleResult :=
  let result := uaParser X userAgent in
  let lowerUA := Js.toLowerCase userAgent in
  if existsb (fun pattern => Js.includes lowerUA (Js.toLowerCase pattern)) headlessPatterns
  then hit 0.25
  else
    let browserIs (name : string) :=
      match browser_name result with Some b => String.eqb b name | None => false end in
    let olderThan (limit : Z) :=
      match browser_majorVersion result with Some v => (v <? limit)%Z | None => false end in
    if (browserIs "Chrome" && olderThan 70%Z)%bool then hit 0.08
    else if (browserIs "Firefox" && olderThan 60%Z)%bool then hit 0.08
    else if (match os_name result with Some o => String.eqb o "Linux" | None => false end
             && negb (browserIs "Firefox") && negb (browserIs "Chrome"))%bool then hit 0.05
    else if (String.length userAgent <? 20)%nat then hit 0.15
    else notDetected.

Definition proxyPatterns : list string := ["proxy"; "vpn"; "tor"; "anonymous"].

Definition checkProxyIndicators (userAgent : string) : RuleResult :=
  let lowerUA := Js.toLowerCase userAgent in
  if existsb (fun pattern => Js.includes lowerUA pattern) proxyPatterns then hit 0.10
  else notDetected.

Definition checkDevicePattern (deviceFingerprint : option string)
    (knownDevices : KnownDevices) (userHistory : DeviceHistory) : M RuleResult :=
  if (match userHistory with HistoryNull => true | _ => false end
      || negb (truthyOpt deviceFingerprint))%bool
  then ret notDetected
  else
    n <- lengthOf knownDevices ;;
    if (n <=? 2)%Z then
      total <- totalTransactionsOf userHistory ;;
      if (total >=? 50)%Z then
        isKnown <- includes knownDevices (default "" deviceFingerprint) ;;
        if negb isKnown then ret (hit 0.10) else ret notDetected
      else ret notDetected
    else ret notDetected.

Fixpoint allEqualTo (c : ascii) (s : string) : bool :=
  match s with
  | EmptyString => true
  | String d r => (Ascii.eqb c d && allEqualTo c r)%bool
  end.

(** [/^(.)\1+$/.test(fingerprint) || fingerprint === '0'.repeat(fingerprint.length)]. *)
Definition degenerate (fingerprint : string) : bool :=
  match fingerprint with
  | EmptyString => true
  | String c r =>
      ((negb (Ascii.eqb c "010"%char) && negb (Ascii.eqb c "013"%char)
        && (1 <=? String.length r)%nat && allEqualTo c r)
       || allEqualTo "0"%char fingerprint)%bool
  end.

Definition checkFingerprintQuality (fingerprint : string) : RuleResult :=
  if (String.length fingerprint <? 16)%nat then hit 0.15
  else
    let uniqueChars := length (remove_dups (list_ascii_of_string fingerprint)) in
    if (uniqueChars <? 4)%nat then hit 0.20
    else if degenerate fingerprint then hit 0.25
    else notDetected.

Definition noDeviceInformation : RiskFactor :=
  {| method := DEVICE; score := 0.12; weight := deviceWeight cfg;
     contributedScore := 0.12 * deviceWeight cfg; scoreIsNaN := false; details := DetailsOther |}.

Definition blocked : RiskFactor :=
  {| method := DEVICE; score := 1.0; weight := deviceWeight cfg; contributedScore := 1.0;
     scoreIsNaN := false; details := DetailsBlocked |}.

Definition unavailable : RiskFactor :=
  {| method := DEVICE; score := 0; weight := deviceWeight cfg; contributedScore := 0;
     scoreIsNaN := false; details := DetailsError |}.

(** The part of [analyze] after the blocklist check. *)
Definition scoreDevice (userId : string) (deviceFingerprint userAgent : option string)
    (knownDevices : KnownDevices) (userHistory : DeviceHistory) : M RiskFactor :=
  let totalScore := 0 in
  isNewDevice <- checkNewDevice deviceFingerprint knownDevices ;;
  let totalScore := addIfDetected totalScore isNewDevice in
  deviceInfo <-
    (if truthyOpt deviceFingerprint then
       let fp := default "" deviceFingerprint in
       cached <- CacheService.getDeviceInfo X fp ;;
       match cached with
       | Some info => ret (Some info)
       | None =>
           let info := createDeviceInfo fp userId in
           CacheService.setDeviceInfo X fp info ;;;
           ret (Some info)
       end
     else ret None) ;;
  let totalScore :=
    match deviceInfo with
    | Some info => if trustScore info <? 0.5
                   then totalScore + (1 - trustScore info) * 0.15
                   else totalScore
    | None => totalScore
    end in
  let totalScore :=
    if truthyOpt userAgent
    then addIfDetected totalScore (analyzeUserAgent (default "" userAgent))
    else totalScore in
  let totalScore :=
    if truthyOpt userAgent
    then addIfDetected totalScore (checkProxyIndicators (default "" userAgent))
    else totalScore in
  devicePattern <- checkDevicePattern deviceFingerprint knownDevices userHistory ;;
  let totalScore := addIfDetected totalScore devicePattern in
  let totalScore :=
    if truthyOpt deviceFingerprint
    then addIfDetected totalScore (checkFingerprintQuality (default "" deviceFingerprint))
    else totalScore in
  let totalScore := Js.min totalScore 0.40 in
  (* details: { knownDeviceCount: knownDevices.length, ... } *)
  lengthOf knownDevices ;;;
  ret {| method := DEVICE; score := totalScore; weight := deviceWeight cfg;
         contributedScore := totalScore * deviceWeight cfg; scoreIsNaN := false; details := DetailsOther |}.

Definition analyze (userId transactionId : string) (deviceFingerprint userAgent : option string)
    (knownDevices : KnownDevices) (userHistory : DeviceHistory) : M RiskFactor :=
  tryCatch
    (if (negb (truthyOpt deviceFingerprint) && negb (truthyOpt userAgent))%bool
     then ret noDeviceInformation
     else
       blocklistMatch <-
         (if truthyOpt deviceFingerprint
          then checkBlocklist (default "" deviceFingerprint)
          else ret false) ;;
       if (blocklistMatch : bool) then ret blocked
       else scoreDevice userId deviceFingerprint userAgent knownDevices userHistory)
    (ret unavailable).

(** [maskFingerprint]: what the logs and the [details] bag show of a
    fingerprint. *)
Definition maskFingerprint (fingerprint : string) : string :=
  if (String.length fingerprint <=? 8)%nat then "****"
  else (String.substring 0 4 fingerprint ++ "****"
        ++ Js.substringFrom fingerprint (String.length fingerprint - 4))%string.

(** [updateDeviceTrust]: the cached record is rewritten with the clamped
    trust score and one more transaction ([lastSeen] is not part of the
    record kept here). *)
Definition updateDeviceTrust (fingerprint : string) (trustDelta : Q) : M unit :=
  deviceInfo <- CacheService.getDeviceInfo X fingerprint ;;
  match deviceInfo with
  | Some info =>
      CacheService.setDeviceInfo X fingerprint
        {| device_fingerprint := device_fingerprint info;
           device_userId := device_userId info;
           isKnown := isKnown info;
           device_transactionCount := (device_transactionCount info + 1)%Z;
           trustScore := Js.max 0 (Js.min 1 (trustScore info + trustDelta));
           isFlagged := isFlagged info |}
  | None => ret tt
  end.

End WithConfig.
End DeviceAnalyzer.

(** ** services/TimeAnalyzer.ts *)

Module TimeAnalyzer.
Section WithConfig.
Variable cfg : Config.
Variable X : Externals.
Variable e : Env.

Definition getMinHourDistance (hour : Z) (preferredHours : list Z) : Z :=
  fold_left (fun minDistance prefHour =>
               let distance := Z.min (Z.abs (hour - prefHour)) (24 - Z.abs (hour - prefHour)) in
               Z.min minDistance distance)
            preferredHours 24%Z.

Definition checkUnusualHour (hour : Z) (preferredHours : list Z) : RuleResult :=
  match preferredHours with
  | [] => if ((hour >=? 1) && (hour <=? 5))%Z then hit 0.06 else notDetected
  | _ =>
      if negb (Js.arrayIncludesZ preferredHours hour) then
        let minDistance := getMinHourDistance hour preferredHours in
        if (minDistance >=? 6)%Z then hit 0.10
        else if (minDistance >=? 3)%Z then hit 0.05
        else notDetected
      else notDetected
  end.

Definition checkUnusualDay (day : Z) (preferredDays : list Z) : RuleResult :=
  match preferredDays with
  | [] => notDetected
  | _ =>
      if negb (Js.arrayIncludesZ preferredDays day) then
        let isWeekend := ((day =? 0) || (day =? 6))%Z in
        if (isWeekend && negb (Js.arrayIncludesZ preferredDays 0)
            && negb (Js.arrayIncludesZ preferredDays 6))%bool
        then hit 0.06
        else hit 0.04
      else notDetected
  end.

Definition checkLateNight (hour : Z) : RuleResult :=
  if ((hour >=? 2) && (hour <=? 5))%Z then hit 0.08
  else if ((hour >=? 0) && (hour <=? 1))%Z then hit 0.04
  else notDetected.

Definition checkWeekendPattern (day : Z) (userHistory : option UserTransactionHistory) : RuleResult :=
  match userHistory with
  | None => notDetected
  | Some h =>
      if (length (transactions h) <? 10)%nat then notDetected
      else
        let isWeekend := ((day =? 0) || (day =? 6))%Z in
        if negb isWeekend then notDetected
        else
          let weekendTx :=
            List.filter (fun tx => let txDay := getDay X (tx_timestamp tx) in
                                   ((txDay =? 0) || (txDay =? 6))%Z)
                        (transactions h) in
          if ((totalTransactions (statistics h) >=? 50)%Z && (length weekendTx =? 0)%nat)%bool
          then hit 0.08
          else notDetected
  end.

(** Month (0-indexed) and day of the month of the fixed holidays. *)
Definition holidays : list (Z * Z) := [(0, 1); (6, 4); (11, 25); (11, 31)]%Z.

Definition checkHoliday (timestamp : Z) : RuleResult :=
  let month := getMonth X timestamp in
  let date := getDate X timestamp in
  if existsb (fun holiday => ((month =? fst holiday) && (date =? snd holiday))%Z) holidays
  then hit 0.04
  else notDetected.

Definition checkActivityBurst (hour : Z) (userHistory : option UserTransactionHistory) : RuleResult :=
  match userHistory with
  | None => notDetected
  | Some h =>
      let oneHourAgo := (now e - 60 * 60 * 1000)%Z in
      let recentTx := List.filter (fun tx => (tx_timestamp tx >? oneHourAgo)%Z) (transactions h) in
      if ((hour >=? 1)%Z && (hour <=? 5)%Z && (3 <=? length recentTx)%nat)%bool
      then hit 0.10
      else notDetected
  end.

Definition uncappedScore (timestamp : Z) (userHistory : option UserTransactionHistory)
    (preferredHours preferredDays : list Z) : Q :=
  let hour := getHours X timestamp in
  let day := getDay X timestamp in
  let totalScore := 0 in
  let totalScore := addIfDetected totalScore (checkUnusualHour hour preferredHours) in
  let totalScore := addIfDetected totalScore (checkUnusualDay day preferredDays) in
  let totalScore := addIfDetected totalScore (checkLateNight hour) in
  let totalScore := addIfDetected totalScore (checkWeekendPattern day userHistory) in
  let totalScore := addIfDetected totalScore (checkHoliday timestamp) in
  let totalScore := addIfDetected totalScore (checkActivityBurst hour userHistory) in
  totalScore.

Definition unavailable : RiskFactor :=
  {| method := TIME; score := 0; weight := timeWeight cfg; contributedScore := 0;
     scoreIsNaN := false; details := DetailsError |}.

Definition analyze (userId transactionId : string) (timestamp : Z)
    (userHistory : option UserTransactionHistory) (preferredHours preferredDays : list Z) : M RiskFactor :=
  tryCatch
    (let totalScore := Js.min (uncappedScore timestamp userHistory preferredHours preferredDays) 0.25 in
     ret {| method := TIME; score := totalScore; weight := timeWeight cfg;
            contributedScore := totalScore * timeWeight cfg; scoreIsNaN := false; details := DetailsOther |})
    (ret unavailable).

(** The slots [0 .. n-1] whose count reaches the threshold. *)
Definition preferredSlots (n : nat) (slotOf : Z -> Z) (share : Q)
    (txs : list HistoryTransaction) : list Z :=
  let threshold := inject_Z (Z.of_nat (length txs)) * share in
  List.filter
    (fun slot =>
       let count := length (List.filter (fun tx => (slotOf (tx_timestamp tx) =? slot)%Z) txs) in
       inject_Z (Z.of_nat count) >=? threshold)
    (List.map Z.of_nat (seq 0 n)).

Definition buildPreferredHours (userHistory : option UserTransactionHistory) : list Z :=
  match userHistory with
  | None => []
  | Some h => if (length (transactions h) <? 10)%nat then []
              else preferredSlots 24 (getHours X) 0.1 (transactions h)
  end.

Definition buildPreferredDays (userHistory : option UserTransactionHistory) : list Z :=
  match userHistory with
  | None => []
  | Some h => if (length (transactions h) <? 10)%nat then []
              else preferredSlots 7 (getDay X) 0.05 (transactions h)
  end.

End WithConfig.
End TimeAnalyzer.

(** ** services/MLModelService.ts *)

Module RuleBasedModel.

Definition version : string := "rule-based-v1".

(** [features[i] || 0]. *)
Definition feature (features : list Q) (i : nat) : Q := nth i features 0.

Definition predict (features : list Q) : Q * Q :=
  let velocity5m := feature features 0 in
  let velocity1h := feature features 1 in
  let amountRatio := feature features 7 in
  let impossibleTravel := feature features 12 in
  let isNewRecipient := feature features 15 in
  let isNewDevice := feature features 18 in
  let prevFraudFlags := feature features 23 in
  let score := 0 in
  let score := if velocity5m >? 3 then score + 0.15 else score in
  let score := if velocity1h >? 10 then score + 0.10 else score in
  let score := if amountRatio >? 5 then score + 0.20 else score in
  let score := if impossibleTravel >? 0 then score + 0.30 else score in
  let score := if isNewRecipient >? 0 then score + 0.10 else score in
  let score := if isNewDevice >? 0 then score + 0.10 else score in
  let score := if prevFraudFlags >? 0 then score + 0.15 * Js.min prevFraudFlags 3 else score in
  let score := Js.min score 0.95 in
  (score, 0.7).

Definition getFeatureNames : list string :=
  ["txCountFiveMin"; "txCountOneHour"; "txCountTwentyFourHours";
   "amountFiveMin"; "amountOneHour"; "amountTwentyFourHours";
   "amount"; "amountRatioToAvg"; "amountRatioToMax"; "amountZScore";
   "isNewCountry"; "distanceFromLastTx"; "impossibleTravel";
   "hourOfDay"; "dayOfWeek"; "isUnusualHour"; "timeSinceLastTx";
   "isNewRecipient"; "recipientRiskScore"; "recipientTxCount";
   "isNewDevice"; "deviceTrustScore";
   "accountAge"; "totalTxCount"; "avgTxAmount"; "previousFraudFlags"].

End RuleBasedModel.

Record Prediction := {
  prediction_score : Q;
  prediction_confidence : Q;
  prediction_modelVersion : string;
}.

Module MLModelService.
Section WithConfig.
Variable cfg : Config.
Variable X : Externals.

(** Every branch installs the rule-based model; the branches differ in
    the version they record. *)
Definition loadModel : M unit :=
  tryCatch
    (if negb (fileExists X (modelPath cfg)) then modify (with_model RuleBasedModel.version)
     else
       (if (modelHashValidation cfg
            && match expectedModelHash cfg with Some h => Js.truthy h | None => false end)%bool
        then if negb (modelHashMatches X) then throw else ret tt
        else ret tt) ;;;
       modify (with_model (ml_modelVersion cfg)))
    (if (Js.truthy (fallbackModelPath cfg) && fileExists X (fallbackModelPath cfg))%bool
     then modify (with_model ("fallback-" ++ RuleBasedModel.version)%string)
     else modify (with_model RuleBasedModel.version)).

Definition isModelReady : M bool :=
  w <- get ;; ret (isLoaded w).

Definition featuresToArray (features : MLFeatures) : list Q :=
  [ txCountFiveMin features;
    txCountOneHour features;
    txCountTwentyFourHours features;
    f_amountFiveMin features;
    f_amountOneHour features;
    f_amountTwentyFourHours features;
    f_amount features;
    amountRatioToAvg features;
    amountRatioToMax features;
    amountZScore features;
    isNewCountry features;
    distanceFromLastTx features;
    impossibleTravel features;
    hourOfDay features;
    dayOfWeek features;
    isUnusualHour features;
    timeSinceLastTx features;
    isNewRecipient features;
    recipientRiskScore features;
    recipientTxCount features;
    isNewDevice features;
    deviceTrustScore features;
    f_accountAge features;
    totalTxCount features;
    avgTxAmount features;
    previousFraudFlags features ].

(** The loaded model is always the rule-based one, which answers at once:
    the inference timeout cannot fire. *)
Definition predict (transactionId : string) (features : MLFeatures) : M Prediction :=
  w <- get ;;
  if negb (isLoaded w) then throw
  else
    tryCatch
      (let featureArray := featuresToArray features in
       let prediction := RuleBasedModel.predict featureArray in
       ret {| prediction_score := fst prediction;
              prediction_confidence := snd prediction;
              prediction_modelVersion := loadedModelVersion w |})
      (ret {| prediction_score := 0.5;
              prediction_confidence := 0.1;
              prediction_modelVersion := (loadedModelVersion w ++ "-error")%string |}).

Definition reloadModel : M unit :=
  modify with_unloaded ;;;
  loadModel.

End WithConfig.
End MLModelService.

(** ** services/FraudDetectionService.ts *)

Module FraudDetectionService.
Section WithConfig.
Variable cfg : Config.
Variable X : Externals.
Variable e : Env.

(** [try { return await analyzerCall() } catch { return null }]. *)
Definition safeAnalyze (analyzerCall : M RiskFactor) (methodName : string) : M (option RiskFactor) :=
  tryCatch (r <- analyzerCall ;; ret (Some r)) (ret None).

(** [x || fallback] on a number. *)
Definition orElse (x fallback : Q) : Q := if x =? 0 then fallback else x.

Definition constructMLFeatures (transaction : Transaction) (riskFactors : list RiskFactor)
    (userHistory : option UserTransactionHistory) : MLFeatures :=
  let velocityFactor := List.find (fun r => method_eqb (method r) VELOCITY) riskFactors in
  let velocityDetails :=
    match velocityFactor with
    | Some r => match details r with
                | DetailsVelocity c5 c1 c24 a5 a1 a24 =>
                    Some (inject_Z c5, inject_Z c1, inject_Z c24, a5, a1, a24)
                | _ => None
                end
    | None => None
    end in
  let read (project : Q * Q * Q * Q * Q * Q -> Q) : Q :=
    match velocityDetails with Some d => project d | None => 0 end in
  {| txCountFiveMin := orElse (read (fun '(c5, _, _, _, _, _) => c5)) 0;
     txCountOneHour := orElse (read (fun '(_, c1, _, _, _, _) => c1)) 0;
     txCountTwentyFourHours := orElse (read (fun '(_, _, c24, _, _, _) => c24)) 0;
     f_amount := amount transaction;
     f_amountFiveMin := orElse (read (fun '(_, _, _, a5, _, _) => a5)) (amount transaction);
     f_amountOneHour := orElse (read (fun '(_, _, _, _, a1, _) => a1)) (amount transaction);
     f_amountTwentyFourHours := orElse (read (fun '(_, _, _, _, _, a24) => a24)) (amount transaction);
     amountRatioToAvg := 1;
     amountRatioToMax := 1;
     amountZScore := 0;
     isNewCountry := 0;
     distanceFromLastTx := 0;
     impossibleTravel := 0;
     hourOfDay := inject_Z (getHours X (timestamp transaction));
     dayOfWeek := inject_Z (getDay X (timestamp transaction));
     isUnusualHour := 0;
     timeSinceLastTx := 0;
     isNewRecipient := 0;
     recipientRiskScore := 0;
     recipientTxCount := 0;
     isNewDevice := 0;
     deviceTrustScore := 1;
     f_accountAge := 365;
     totalTxCount :=
       orElse (match userHistory with
               | Some h => inject_Z (totalTransactions (statistics h))
               | None => 0
               end) 0;
     avgTxAmount :=
       orElse (match userHistory with
               | Some h => averageAmount (statistics h)
               | None => 0
               end) 0;
     previousFraudFlags := 0 |}.

Definition calculateFinalDecision (analysisId : string) (transaction : Transaction)
    (riskFactors : list RiskFactor) (modelVersion : string)
    (correlationId : option string) : FraudAnalysisResult :=
  let totalScore := fold_left (fun totalScore factor => totalScore + contributedScore factor)
                              riskFactors 0 in
  (* one NaN contribution makes the total NaN, and [Math.min(NaN, 1.0)] is NaN *)
  let totalIsNaN := existsb scoreIsNaN riskFactors in
  let finalScore := Js.min totalScore 1.0 in
  (* [NaN >= x] is false *)
  let requiresManualReview := (negb totalIsNaN && (finalScore >=? suspiciousMin cfg))%bool in
  let decision :=
    if (negb totalIsNaN && (finalScore >=? rejectMin cfg))%bool then REJECT
    else if requiresManualReview then SUSPICIOUS
    else APPROVE in
  {| id := analysisId;
     transactionId := payload_transactionId transaction;
     userId := payload_userId transaction;
     finalScore := finalScore;
     finalScoreIsNaN := totalIsNaN;
     decision := decision;
     confidence := HIGH;
     status := COMPLETED;
     riskFactors := riskFactors;
     modelVersion := modelVersion;
     analysisTimeMs := 0;
     requiresManualReview := requiresManualReview |}.

Definition saveAnalysis (result : FraudAnalysisResult) : M unit :=
  tryCatch (FraudAnalysisModel.create X result) (ret tt).

Definition decision_eqb (a b : RiskDecision) : bool :=
  match a, b with
  | APPROVE, APPROVE | SUSPICIOUS, SUSPICIOUS | REJECT, REJECT => true
  | _, _ => false
  end.

Definition publishResult (result : FraudAnalysisResult) (correlationId : option string) : M unit :=
  if decision_eqb (decision result) REJECT then
    EventPublisher.publishFraudSuspected result correlationId
  else if (decision_eqb (decision result) SUSPICIOUS || requiresManualReview result)%bool then
    EventPublisher.publishFraudSuspected result correlationId ;;;
    EventPublisher.publishManualReviewRequired
      {| review_analysisId := if Js.truthy (id result) then id result else spareId e;
         review_transactionId := transactionId result;
         review_userId := userId result;
         fraudScore := finalScore result;
         review_riskFactors := riskFactors result;
         priority := if (negb (finalScoreIsNaN result) && (finalScore result >? 0.8))%bool
                     then PriorityHIGH else PriorityMEDIUM |}
      correlationId
  else
    EventPublisher.publishAnalysisComplete result correlationId.

Definition withAnalysisTime (result : FraudAnalysisResult) (duration : Z) : FraudAnalysisResult :=
  {| id := id result; transactionId := transactionId result; userId := userId result;
     finalScore := finalScore result; finalScoreIsNaN := finalScoreIsNaN result;
     decision := decision result;
     confidence := confidence result; status := status result;
     riskFactors := riskFactors result; modelVersion := modelVersion result;
     analysisTimeMs := duration; requiresManualReview := requiresManualReview result |}.

(** [x || null] on an optional number and on an optional string. *)
Definition numberOrNull (x : option Q) : option Q :=
  match x with
  | Some q => if q =? 0 then None else Some q
  | None => None
  end.

Definition stringOrNull (s : option string) : option string :=
  match s with
  | Some v => if Js.truthy v then Some v else None
  | None => None
  end.

(** The factor pushed for the model's prediction. *)
Definition modelFactor (mlResult : Prediction) : RiskFactor :=
  {| method := ML_MODEL;
     score := prediction_score mlResult;
     weight := 0.3;
     contributedScore := prediction_score mlResult * 0.3;
     scoreIsNaN := false;
     details := DetailsModel (prediction_confidence mlResult)
                             (prediction_modelVersion mlResult) |}.

(** The [currentLocation] object built for the geographic analyzer. *)
Definition currentLocationOf (transaction : Transaction) : GeoLocation :=
  {| ip := option_map geo_ip (geographic transaction);
     country := stringOrNull (geographic transaction ≫= geo_country);
     city := stringOrNull (geographic transaction ≫= geo_city);
     latitude := numberOrNull (geographic transaction ≫= geo_latitude);
     longitude := numberOrNull (geographic transaction ≫= geo_longitude) |}.

(** Steps 2 to 5 of [processTransaction]: load the context, run the six
    analyzers and the model, aggregate.  The analyzers are started
    together and awaited with [Promise.allSettled]; they are run here in
    the order of the array, which is also the order of [riskFactors]. *)
Definition analyzeTransaction (transaction : Transaction)
    (correlationId : option string) : M FraudAnalysisResult :=
  userHistory <- CacheService.getUserHistory (payload_userId transaction) ;;
  let knownDevices : list string := [] in
  let knownCountries : list string := [] in
  let trustedRecipients : list string := [] in
  let preferredHours := TimeAnalyzer.buildPreferredHours X userHistory in
  let preferredDays := TimeAnalyzer.buildPreferredDays X userHistory in
  let currentLocation := currentLocationOf transaction in
  r1 <- safeAnalyze (AmountAnalyzer.analyze cfg e
                       (payload_userId transaction) (payload_transactionId transaction)
                       (amount transaction) (currency transaction) userHistory) "AMOUNT" ;;
  r2 <- safeAnalyze (VelocityAnalyzer.analyze cfg
                       (payload_userId transaction) (payload_transactionId transaction)
                       (amount transaction) (recipientId transaction)) "VELOCITY" ;;
  r3 <- safeAnalyze (DeviceAnalyzer.analyze cfg X e
                       (payload_userId transaction) (payload_transactionId transaction)
                       (option_map fingerprint (device transaction))
                       (device transaction ≫= userAgent)
                       (match device transaction ≫= deviceId with
                        | Some deviceId => DevicesString deviceId
                        | None => DevicesUndefined
                        end)
                       HistoryArray) "DEVICE" ;;
  r4 <- safeAnalyze (GeographicAnalyzer.analyze cfg e
                       (payload_userId transaction) (payload_transactionId transaction)
                       currentLocation userHistory knownCountries) "GEOGRAPHIC" ;;
  r5 <- safeAnalyze (RecipientAnalyzer.analyze cfg X e
                       (payload_userId transaction) (payload_transactionId transaction)
                       (recipientId transaction) (destinationAccountId transaction)
                       userHistory trustedRecipients) "RECIPIENT" ;;
  r6 <- safeAnalyze (TimeAnalyzer.analyze cfg X e
                       (payload_userId transaction) (payload_transactionId transaction)
                       (timestamp transaction) userHistory preferredHours preferredDays) "TIME" ;;
  let riskFactors := omap (fun r => r) [r1; r2; r3; r4; r5; r6] in
  let mlFeatures := constructMLFeatures transaction riskFactors userHistory in
  ready <- MLModelService.isModelReady ;;
  (if negb ready then MLModelService.loadModel cfg X else ret tt) ;;;
  mlResult <- MLModelService.predict (payload_transactionId transaction) mlFeatures ;;
  let riskFactors := (riskFactors ++ [modelFactor mlResult])%list in
  ret (calculateFinalDecision (analysisId e) transaction riskFactors
         (if Js.truthy (prediction_modelVersion mlResult)
          then prediction_modelVersion mlResult else "unknown")
         correlationId).

(** [processTransaction] returns nothing; the model hands back the
    analysis the run produced ([None] on an idempotency hit) so that it
    can be observed. *)
Definition processTransaction (event : TransactionCreatedEvent) : M (option FraudAnalysisResult) :=
  let transaction := payload event in
  let startTime := now e in
  tryCatch
    (cachedResult <- CacheService.getCachedAnalysis (payload_transactionId transaction) ;;
     match cachedResult with
     | Some _ => ret None
     | None =>
         finalResult <- analyzeTransaction transaction (correlationId event) ;;
         saveAnalysis finalResult ;;;
         publishResult finalResult (correlationId event) ;;;
         CacheService.cacheAnalysis (payload_transactionId transaction)
           {| cached_decision := decision finalResult; cached_score := finalScore finalResult;
              cached_scoreIsNull := finalScoreIsNaN finalResult |} ;;;
         let duration := (finishedAt e - startTime)%Z in
         ret (Some (withAnalysisTime finalResult duration))
     end)
    throw.

End WithConfig.
End FraudDetectionService.

(** ** kafka/EventConsumer.ts *)

Set Warnings "-register-all".

(** A value produced by [JSON.parse]. *)
Inductive Json :=
| JNull
| JBool (b : bool)
| JNumber (n : Q)
| JString (s : string)
| JArray (items : list Json)
| JObject (fields : list (string * Json)).

Inductive LogLevel := LogDebug | LogInfo | LogWarn | LogError.

(** What one call of [handleMessage] did: the lines it logged, the events
    it handed to the message handler, and whether it returned or threw. *)
Record Handled := {
  logged : list LogLevel;
  dispatched : list Json;
  thrown : bool;
}.

Module EventConsumer.
Section WithHandler.
(** [JSON.parse]: [None] when it throws a [SyntaxError]. *)
Variable JSON_parse : string -> option Json.
(** [this.messageHandler]; the handler answers [true] when its promise
    resolves and [false] when it rejects. *)
Variable messageHandler : option (Json -> bool).

(** [!v]. *)
Definition falsy (v : option Json) : bool :=
  match v with
  | None | Some JNull => true
  | Some (JBool b) => negb b
  | Some (JNumber n) => n =? 0
  | Some (JString s) => negb (Js.truthy s)
  | Some (JArray _) | Some (JObject _) => false
  end.

(** [v.name]: [undefined] unless [v] is an object that has the field. *)
Definition field (v : option Json) (name : string) : option Json :=
  match v with
  | Some (JObject fields) =>
      option_map snd (List.find (fun kv => String.eqb (fst kv) name) fields)
  | _ => None
  end.

Definition isString (v : option Json) : bool :=
  match v with Some (JString _) => true | _ => false end.

(** [message.value] is the raw buffer, or [null].  The second component
    tells whether [parseMessage] logged the parse error. *)
Definition parseMessage (value : option string) : option Json * list LogLevel :=
  match value with
  | None => (None, [])
  | Some rawValue =>
      match JSON_parse rawValue with
      | Some event => (Some event, [])
      | None => (None, [LogError])
      end
  end.

Definition validateEvent (event : Json) : bool :=
  if (falsy (Some event) || falsy (field (Some event) "payload"))%bool then false
  else
    let payload := field (Some event) "payload" in
    if (falsy (field payload "transactionId") || negb (isString (field payload "transactionId")))%bool
    then false
    else if (falsy (field payload "userId") || negb (isString (field payload "userId")))%bool
    then false
    else if match field payload "amount" with
            | Some (JNumber n) => n <=? 0
            | _ => true
            end
    then false
    else if (falsy (field payload "recipientId") || negb (isString (field payload "recipientId")))%bool
    then false
    else true.

Definition handleMessage (value : option string) : Handled :=
  let '(event, parseLog) := parseMessage value in
  if falsy event then
    {| logged := parseLog ++ [LogWarn]; dispatched := []; thrown := false |}
  else
    match event with
    | None => {| logged := parseLog ++ [LogWarn]; dispatched := []; thrown := false |}
    | Some ev =>
        if negb (validateEvent ev) then
          {| logged := parseLog ++ [LogWarn]; dispatched := []; thrown := false |}
        else
          match messageHandler with
          | Some handler =>
              if handler ev
              then {| logged := parseLog ++ [LogInfo; LogDebug]; dispatched := [ev]; thrown := false |}
              else {| logged := parseLog ++ [LogInfo; LogError]; dispatched := [ev]; thrown := true |}
          | None =>
              {| logged := parseLog ++ [LogInfo; LogDebug]; dispatched := []; thrown := false |}
          end
    end.

End WithHandler.
End EventConsumer.

(** ** middleware/requestLogger.ts

    The values handed to the logger are plain data: a [Json] value, an
    object being the list of its entries in the order of
    [Object.entries]. *)

Record RequestLogData := {
  log_method : string;
  log_url : string;
  log_statusCode : Z;
  log_responseTime : Z;   (* rendered as [`${responseTime}ms`] *)
  log_ip : string;
  log_correlationId : string;
}.

(** A value handed to the logger.  An object is given by its own
    enumerable string-keyed properties in the order of [Object.entries],
    which is all that [redactSensitiveData] reads of it.  [ordinary] tells
    an object that is nothing more than these entries (an object literal,
    the result of [JSON.parse]) from an [Error], a [Date] or another
    instance, which has a prototype and hidden properties of its own. *)
Inductive LogValue :=
| LUndefined
| LNull
| LBool (b : bool)
| LNumber (n : Q)
| LString (s : string)
| LArray (items : list LogValue)
| LObject (ordinary : bool) (fields : list (string * LogValue)).

Module RequestLogger.

Definition SENSITIVE_FIELDS : list string :=
  ["password"; "token"; "accessToken"; "refreshToken"; "authorization"; "cookie";
   "apiKey"; "secret"; "ssn"; "socialSecurityNumber"; "cardNumber"; "cvv";
   "encryptionKey"; "privateKey"].

(** [SENSITIVE_FIELDS.some(field => lowerKey.includes(field.toLowerCase()))]
    for [lowerKey = key.toLowerCase()]. *)
Definition isSensitive (key : string) : bool :=
  let lowerKey := Js.toLowerCase key in
  existsb (fun field => Js.includes lowerKey (Js.toLowerCase field)) SENSITIVE_FIELDS.

(** [typeof value === 'object' && value !== null]. *)
Definition isObject (value : LogValue) : bool :=
  match value with
  | LArray _ | LObject _ _ => true
  | _ => false
  end.

(** The result is a fresh object literal filled by [result[key] = ...].
    For the key [__proto__] that assignment goes to the setter inherited
    from [Object.prototype] and creates no property: the entry is not in
    the result.  (The prototype the setter may give to the result is not
    represented.) *)
Fixpoint redactSensitiveData (obj : LogValue) : LogValue :=
  match obj with
  | LArray items => LArray (List.map redactSensitiveData items)
  | LObject _ fields =>
      LObject true
        (List.flat_map
           (fun entry =>
              let '(key, value) := entry in
              if String.eqb key "__proto__" then []
              else if isSensitive key then [(key, LString "[REDACTED]")]
              else if isObject value then [(key, redactSensitiveData value)]
              else [(key, value)])
           fields)
  | _ => obj
  end.

(** [visibleChars] is a non-negative integer; it defaults to 4. *)
Definition maskSensitiveValue (value : string) (visibleChars : nat) : string :=
  if (String.length value <=? visibleChars)%nat then Js.repeat "*" (String.length value)
  else (Js.repeat "*" (String.length value - visibleChars)
        ++ Js.sliceLast value visibleChars)%string.

Definition createRequestLogData (method url : string) (statusCode responseTime : Z)
    (ip correlationId : string) : RequestLogData :=
  {| log_method := method;
     log_url := Js.beforeFirst "?" url;
     log_statusCode := statusCode;
     log_responseTime := responseTime;
     log_ip := ip;
     log_correlationId := correlationId |}.

End RequestLogger.

(** ** middleware/errorHandler.ts

    An error caught by the middleware is an [AppError], with the fields
    its constructor stored, or some other [Error]. *)

Inductive JsError :=
| AppError (message : string) (statusCode : Z) (code : string) (isOperational : bool)
| OtherError (message : string).

Record ErrorResponse := {
  response_status : Z;
  response_code : string;
  response_message : string;
  response_correlationId : option string;
}.

(** The line written by the handler: its level and the message it carries. *)
Record ErrorLog := {
  errorLog_level : LogLevel;
  errorLog_code : string;
  errorLog_message : string;
  errorLog_statusCode : Z;
}.

Module ErrorHandler.

Definition ValidationError (message : string) : JsError :=
  AppError message 400 "VALIDATION_ERROR" true.

Definition AnalysisTimeoutError (transactionId : string) : JsError :=
  AppError ("Analysis timeout for transaction: " ++ transactionId) 408 "ANALYSIS_TIMEOUT" true.

Definition ModelLoadError (message : string) : JsError :=
  AppError message 500 "MODEL_LOAD_ERROR" false.

Definition BlocklistMatchError (type _value : string) : JsError :=
  AppError ("Blocklist match: " ++ type) 403 "BLOCKLIST_MATCH" true.

Definition DatabaseError (message : string) : JsError :=
  AppError message 500 "DATABASE_ERROR" false.

Definition KafkaError (message : string) : JsError :=
  AppError message 500 "KAFKA_ERROR" false.

Definition CacheError (message : string) : JsError :=
  AppError message 500 "CACHE_ERROR" true.

(** [err.message]. *)
Definition messageOf (err : JsError) : string :=
  match err with
  | AppError message _ _ _ => message
  | OtherError message => message
  end.

Definition unexpected : string := "An unexpected error occurred".

(** [errorHandler(err, req, res, _next)]: the line it logs and the
    response it sends.  [NODE_ENV] is [process.env['NODE_ENV']]. *)
Definition errorHandler (NODE_ENV : option string) (err : JsError)
    (correlationId : option string) : ErrorLog * ErrorResponse :=
  let '(statusCode, code, message, isOperational) :=
    match err with
    | AppError message statusCode code isOperational =>
        (statusCode, code, message, isOperational)
    | OtherError _ => (500%Z, "INTERNAL_ERROR", unexpected, false)
    end in
  let log :=
    if (isOperational : bool)
    then {| errorLog_level := LogWarn; errorLog_code := code; errorLog_message := message;
            errorLog_statusCode := statusCode |}
    else {| errorLog_level := LogError; errorLog_code := code; errorLog_message := messageOf err;
            errorLog_statusCode := statusCode |} in
  let message :=
    if ((statusCode =? 500)%Z
        && match NODE_ENV with Some env => String.eqb env "production" | None => false end)%bool
    then unexpected
    else message in
  (log, {| response_status := statusCode; response_code := code; response_message := message;
           response_correlationId := correlationId |}).

(** [notFoundHandler]: the error it passes to [next]. *)
Definition notFoundHandler (method path : string) : JsError :=
  AppError ("Route not found: " ++ method ++ " " ++ path) 404 "NOT_FOUND" true.

End ErrorHandler.

(** ** models/UserRiskProfile.ts

    The attributes the instance methods read or write.  A method returns
    the instance as it leaves it and whether it called [save()]. *)

Inductive RiskLevel := LevelLOW | LevelMEDIUM | LevelHIGH | LevelCRITICAL.

Module UserRiskProfile.

Record t := {
  currentRiskScore : Js.number;
  riskLevel : RiskLevel;
  lastAnalyzedAt : option Z;
  knownDevices : list string;
  uniqueDevices : Z;
  knownCountries : list string;
  uniqueCountries : Z;
  trustedRecipients : list string;
  uniqueRecipients : Z;
  fraudFlagCount : Z;
  lastFraudFlagAt : option Z;
}.

(** The comparisons are all false for NaN, which falls through to the last
    [return]. *)
Definition calculateRiskLevel (score : Js.number) : RiskLevel :=
  if Js.numberLtb score 0.25 then LevelLOW
  else if Js.numberLtb score 0.50 then LevelMEDIUM
  else if Js.numberLtb score 0.80 then LevelHIGH
  else LevelCRITICAL.

Definition updateRiskScore (now : Z) (score : Js.number) (this : t) : t * bool :=
  ({| currentRiskScore := score;
      riskLevel := calculateRiskLevel score;
      lastAnalyzedAt := Some now;
      knownDevices := knownDevices this; uniqueDevices := uniqueDevices this;
      knownCountries := knownCountries this; uniqueCountries := uniqueCountries this;
      trustedRecipients := trustedRecipients this; uniqueRecipients := uniqueRecipients this;
      fraudFlagCount := fraudFlagCount this; lastFraudFlagAt := lastFraudFlagAt this |},
   true).

Definition addKnownDevice (deviceFingerprint : string) (this : t) : t * bool :=
  if negb (Js.arrayIncludes (knownDevices this) deviceFingerprint) then
    let knownDevices' := (knownDevices this ++ [deviceFingerprint])%list in
    ({| currentRiskScore := currentRiskScore this; riskLevel := riskLevel this;
        lastAnalyzedAt := lastAnalyzedAt this;
        knownDevices := knownDevices';
        uniqueDevices := Z.of_nat (length knownDevices');
        knownCountries := knownCountries this; uniqueCountries := uniqueCountries this;
        trustedRecipients := trustedRecipients this; uniqueRecipients := uniqueRecipients this;
        fraudFlagCount := fraudFlagCount this; lastFraudFlagAt := lastFraudFlagAt this |},
     true)
  else (this, false).

Definition addKnownCountry (country : string) (this : t) : t * bool :=
  if negb (Js.arrayIncludes (knownCountries this) country) then
    let knownCountries' := (knownCountries this ++ [country])%list in
    ({| currentRiskScore := currentRiskScore this; riskLevel := riskLevel this;
        lastAnalyzedAt := lastAnalyzedAt this;
        knownDevices := knownDevices this; uniqueDevices := uniqueDevices this;
        knownCountries := knownCountries';
        uniqueCountries := Z.of_nat (length knownCountries');
        trustedRecipients := trustedRecipients this; uniqueRecipients := uniqueRecipients this;
        fraudFlagCount := fraudFlagCount this; lastFraudFlagAt := lastFraudFlagAt this |},
     true)
  else (this, false).

Definition addTrustedRecipient (recipientId : string) (this : t) : t * bool :=
  if negb (Js.arrayIncludes (trustedRecipients this) recipientId) then
    let trustedRecipients' := (trustedRecipients this ++ [recipientId])%list in
    ({| currentRiskScore := currentRiskScore this; riskLevel := riskLevel this;
        lastAnalyzedAt := lastAnalyzedAt this;
        knownDevices := knownDevices this; uniqueDevices := uniqueDevices this;
        knownCountries := knownCountries this; uniqueCountries := uniqueCountries this;
        trustedRecipients := trustedRecipients';
        uniqueRecipients := Z.of_nat (length trustedRecipients');
        fraudFlagCount := fraudFlagCount this; lastFraudFlagAt := lastFraudFlagAt this |},
     true)
  else (this, false).

Definition incrementFraudFlag (now : Z) (this : t) : t * bool :=
  ({| currentRiskScore := currentRiskScore this; riskLevel := riskLevel this;
      lastAnalyzedAt := lastAnalyzedAt this;
      knownDevices := knownDevices this; uniqueDevices := uniqueDevices this;
      knownCountries := knownCountries this; uniqueCountries := uniqueCountries this;
      trustedRecipients := trustedRecipients this; uniqueRecipients := uniqueRecipients this;
      fraudFlagCount := (fraudFlagCount this + 1)%Z; lastFraudFlagAt := Some now |},
   true).

End UserRiskProfile.

(** ** Notions used by the statements *)

(** The sum of the contributed scores of a list of factors. *)
Definition sumContributed (factors : list RiskFactor) : Q :=
  fold_right (fun f acc => contributedScore f + acc) 0 factors.

(** The confidence rule as the specification words it: HIGH when the model
    factor is present with confidence at least 0.8 and at least three
    rule-based factors are non-zero, MEDIUM when the model's confidence is
    at least 0.5, LOW otherwise. *)
Definition modelConfidence (factors : list RiskFactor) : option Q :=
  match List.find (fun f => method_eqb (method f) ML_MODEL) factors with
  | Some f => match details f with
              | DetailsModel c _ => Some c
              | _ => None
              end
  | None => None
  end.

Definition nonZeroRuleFactors (factors : list RiskFactor) : nat :=
  length (List.filter (fun f => (negb (method_eqb (method f) ML_MODEL) && negb (score f =? 0))%bool)
                      factors).

Definition spec_confidence (factors : list RiskFactor) : ConfidenceLevel :=
  match modelConfidence factors with
  | Some c =>
      if ((c >=? 0.8) && (3 <=? nonZeroRuleFactors factors)%nat)%bool then HIGH
      else if c >=? 0.5 then MEDIUM
      else LOW
  | None => LOW
  end.

(** The rule-based fallback as the specification words it, on the named
    features. *)
Definition spec_ruleBasedScore (f : MLFeatures) : Q :=
  let s :=
    (if txCountFiveMin f >? 3 then 0.15 else 0)
    + (if txCountOneHour f >? 10 then 0.10 else 0)
    + (if amountRatioToAvg f >? 5 then 0.20 else 0)
    + (if impossibleTravel f >? 0 then 0.30 else 0)
    + (if isNewRecipient f >? 0 then 0.10 else 0)
    + (if isNewDevice f >? 0 then 0.10 else 0)
    + 0.15 * Js.min (previousFraudFlags f) 3 in
  Js.min 0.95 s.

(** A configuration whose weights are non-negative and whose velocity
    limits are positive. *)
Record config_wf (cfg : Config) : Prop := {
  wf_fiveMinute : 0 <= fiveMinute (velocityWeights cfg);
  wf_oneHour : 0 <= oneHour (velocityWeights cfg);
  wf_twentyFourHours : 0 <= twentyFourHours (velocityWeights cfg);
  wf_geographic : 0 <= geographicWeight cfg;
  wf_amount : 0 <= amountWeight cfg;
  wf_recipient : 0 <= recipientWeight cfg;
  wf_time : 0 <= timeWeight cfg;
  wf_device : 0 <= deviceWeight cfg;
  wf_maxFiveMin : (0 < maxTransfersPerFiveMin cfg)%Z;
  wf_maxHour : (0 < maxTransfersPerHour cfg)%Z;
  wf_maxDay : (0 < maxTransfersPerDay cfg)%Z;
}.

(** [contributedScore = score * weight]. *)
Definition productForm (f : RiskFactor) : Prop :=
  contributedScore f == score f * weight f.

(** The factor of a blocklist short-circuit: score and contribution are
    both 1, whatever the weight. *)
Definition shortCircuit (f : RiskFactor) : Prop :=
  (method f = RECIPIENT \/ method f = DEVICE)
  /\ details f = DetailsBlocked /\ score f == 1 /\ contributedScore f == 1.

Definition factor_ok (f : RiskFactor) : Prop :=
  0 <= score f /\ 0 <= weight f /\ 0 <= contributedScore f
  /\ (productForm f \/ shortCircuit f).

(** [factor_ok] under a well-formed configuration. *)
Definition factor_sound (cfg : Config) (f : RiskFactor) : Prop :=
  config_wf cfg -> factor_ok f.

(** The final score of an analysis and the score of a factor as the
    JavaScript numbers they are. *)
Definition scoreOf (r : FraudAnalysisResult) : Js.number :=
  if finalScoreIsNaN r then Js.NaN else Js.Num (finalScore r).

Definition rawScoreOf (f : RiskFactor) : Js.number :=
  if scoreIsNaN f then Js.NaN else Js.Num (score f).

(** The country a transaction reports is the name of a member that every
    object inherits from [Object.prototype]. *)
Definition inheritedCountry (transaction : Transaction) : bool :=
  match geographic transaction ≫= geo_country with
  | Some c => Js.inherited c
  | None => false
  end.

(** The risk factors the orchestrator collects for a transaction, from the
    state [w] on: the results of the six analyzers in the order of the
    array, each run in the state its predecessor left, and then the factor
    of the prediction the model makes from them. *)
Inductive collected (cfg : Config) (X : Externals) (e : Env) (transaction : Transaction)
    (w : World) : list RiskFactor -> Prediction -> World -> Prop :=
| collected_all userHistory w0 f1 w1 f2 w2 f3 w3 f4 w4 f5 w5 f6 w6 w7 mlResult w8 :
    CacheService.getUserHistory (payload_userId transaction) w = (Returned userHistory, w0) ->
    AmountAnalyzer.analyze cfg e
      (payload_userId transaction) (payload_transactionId transaction)
      (amount transaction) (currency transaction) userHistory w0 = (Returned f1, w1) ->
    VelocityAnalyzer.analyze cfg
      (payload_userId transaction) (payload_transactionId transaction)
      (amount transaction) (recipientId transaction) w1 = (Returned f2, w2) ->
    DeviceAnalyzer.analyze cfg X e
      (payload_userId transaction) (payload_transactionId transaction)
      (option_map fingerprint (device transaction))
      (device transaction ≫= userAgent)
      (match device transaction ≫= deviceId with
       | Some deviceId => DevicesString deviceId
       | None => DevicesUndefined
       end)
      HistoryArray w2 = (Returned f3, w3) ->
    GeographicAnalyzer.analyze cfg e
      (payload_userId transaction) (payload_transactionId transaction)
      (FraudDetectionService.currentLocationOf transaction) userHistory [] w3
    = (Returned f4, w4) ->
    RecipientAnalyzer.analyze cfg X e
      (payload_userId transaction) (payload_transactionId transaction)
      (recipientId transaction) (destinationAccountId transaction)
      userHistory [] w4 = (Returned f5, w5) ->
    TimeAnalyzer.analyze cfg X e
      (payload_userId transaction) (payload_transactionId transaction)
      (timestamp transaction) userHistory
      (TimeAnalyzer.buildPreferredHours X userHistory)
      (TimeAnalyzer.buildPreferredDays X userHistory) w5 = (Returned f6, w6) ->
    (if isLoaded w6 then ret tt else MLModelService.loadModel cfg X) w6 = (Returned tt, w7) ->
    MLModelService.predict (payload_transactionId transaction)
      (FraudDetectionService.constructMLFeatures X transaction [f1; f2; f3; f4; f5; f6]
         userHistory) w7 = (Returned mlResult, w8) ->
    collected cfg X e transaction w
      [f1; f2; f3; f4; f5; f6; FraudDetectionService.modelFactor mlResult] mlResult w8.

(** The factors the seven scorers can hand to the orchestrator. *)
Inductive produced (cfg : Config) (X : Externals) (e : Env) : RiskFactor -> Prop :=
| produced_amount u t a c h w f w' :
    AmountAnalyzer.analyze cfg e u t a c h w = (Returned f, w') -> produced cfg X e f
| produced_velocity u t a r w f w' :
    VelocityAnalyzer.analyze cfg u t a r w = (Returned f, w') -> produced cfg X e f
| produced_geographic u t l h k w f w' :
    GeographicAnalyzer.analyze cfg e u t l h k w = (Returned f, w') -> produced cfg X e f
| produced_recipient u t r a h k w f w' :
    RecipientAnalyzer.analyze cfg X e u t r a h k w = (Returned f, w') -> produced cfg X e f
| produced_device u t fp ua k h w f w' :
    DeviceAnalyzer.analyze cfg X e u t fp ua k h w = (Returned f, w') -> produced cfg X e f
| produced_time u t ts h ph pd w f w' :
    TimeAnalyzer.analyze cfg X e u t ts h ph pd w = (Returned f, w') -> produced cfg X e f
| produced_model t features w p w' :
    MLModelService.predict t features w = (Returned p, w') ->
    produced cfg X e (FraudDetectionService.modelFactor p).

(** The recipient or the destination account has an active blocklist entry
    that the lookup can see: in the cache under its own type, or in the
    reachable database under either hash. *)
Definition activeInCache (X : Externals) (w : World) (type value : string) : Prop :=
  redisConnected w = true
  /\ exists b, blocklistKeys w !! (type, CacheService.hashValue X value) = Some b
               /\ entry_isActive b = true.

Definition activeInDatabase (X : Externals) (w : World) (recipientId accountId : string) : Prop :=
  dbReachable w = true
  /\ exists row, In row (fraud_blocklist w) /\ row_isActive row = true
                 /\ (valueHash row = sha256 X recipientId \/ valueHash row = sha256 X accountId).

Definition blocklisted (X : Externals) (w : World) (recipientId accountId : string) : Prop :=
  activeInCache X w "RECIPIENT" recipientId
  \/ activeInCache X w "ACCOUNT" accountId
  \/ activeInDatabase X w recipientId accountId.

(** The messages [publishResult] hands to a connected producer. *)
Definition outbound (e : Env) (result : FraudAnalysisResult)
    (correlationId : option string) : list KafkaRecord :=
  let suspected :=
    {| topic := fraudSuspected; key := transactionId result; eventType := FraudSuspected;
       event_correlationId := correlationId; event_payload := PayloadResult result |} in
  match decision result with
  | REJECT => [suspected]
  | SUSPICIOUS =>
      [suspected;
       {| topic := fraudManualReview; key := transactionId result;
          eventType := ManualReviewRequired; event_correlationId := correlationId;
          event_payload := PayloadReview
            {| review_analysisId := if Js.truthy (id result) then id result else spareId e;
               review_transactionId := transactionId result;
               review_userId := userId result;
               fraudScore := finalScore result;
               review_riskFactors := riskFactors result;
               priority := if (negb (finalScoreIsNaN result) && (finalScore result >? 0.8))%bool
                           then PriorityHIGH else PriorityMEDIUM |} |}]
  | APPROVE =>
      [{| topic := fraudAnalysis; key := transactionId result; eventType := FraudAnalysisComplete;
          event_correlationId := correlationId; event_payload := PayloadResult result |}]
  end.

(** What may differ between the state before and after the scoring steps:
    only the recipient, device, blocklist-cache and velocity keys, the
    match counters of the blocklist rows, and the loaded model. *)
Record stable (X : Externals) (w w' : World) : Prop := {
  stable_redis : redisConnected w' = redisConnected w;
  stable_db : dbReachable w' = dbReachable w;
  stable_producer : producerConnected w' = producerConnected w;
  stable_analysisKeys : analysisKeys w' = analysisKeys w;
  stable_userHistoryKeys : userHistoryKeys w' = userHistoryKeys w;
  stable_analyses : fraud_analyses w' = fraud_analyses w;
  stable_sent : sent w' = sent w;
  stable_blocklisted : forall r a, blocklisted X w r a -> blocklisted X w' r a;
}.

(** The idempotency marker of a transaction is visible to the service. *)
Definition marked (w : World) (transactionId : string) : Prop :=
  redisConnected w = true /\ exists m, analysisKeys w !! transactionId = Some m.

(** No marker is visible: the key is absent or Redis is not connected. *)
Definition unmarked (w : World) (transactionId : string) : Prop :=
  redisConnected w = false \/ analysisKeys w !! transactionId = None.

(** ** Judgements on computations *)

(** [P] survives every stable step. *)
Definition invariant (X : Externals) (P : World -> Prop) : Prop :=
  forall w w', stable X w w' -> P w -> P w'.

(** From a state in [P], [m] returns, changes the state stably and its
    result satisfies [Q]. *)
Definition safe {A} (X : Externals) (P : World -> Prop) (m : M A) (Q : A -> Prop) : Prop :=
  forall w, P w -> exists a w', m w = (Returned a, w') /\ stable X w w' /\ Q a.

(** From a state in [P], [m] changes the state stably and, when it returns,
    its result satisfies [Q]. *)
Definition guarded {A} (X : Externals) (P : World -> Prop) (m : M A) (Q : A -> Prop) : Prop :=
  forall w, P w -> exists o w', m w = (o, w') /\ stable X w w'
                                /\ match o with Returned a => Q a | Thrown => True end.

Definition anyWorld : World -> Prop := fun _ => True.

(** A rule result whose score is not negative. *)
Definition rule_ok (r : RuleResult) : Prop := 0 <= rule_score r.

(** An approval never asks for a manual review. *)
Definition coherent (r : FraudAnalysisResult) : Prop :=
  decision r = APPROVE -> requiresManualReview r = false.

(** ** Example collaborators and states, for evaluating the model *)

(** The canonical form of a UUID: 8-4-4-4-12 hexadecimal digits. *)
Definition isHexDigit (c : ascii) : bool :=
  let n := nat_of_ascii c in
  ((48 <=? n) && (n <=? 57) || (65 <=? n) && (n <=? 70) || (97 <=? n) && (n <=? 102))%nat.

Fixpoint matchesGroups (groups : list nat) (cs : list ascii) : bool :=
  match groups with
  | [] => match cs with [] => true | _ => false end
  | g :: rest =>
      (forallb isHexDigit (firstn g cs) && (List.length (firstn g cs) =? g)%nat
       && match rest, skipn g cs with
          | [], [] => true
          | _ :: _, "-"%char :: cs' => matchesGroups rest cs'
          | _, _ => false
          end)%bool
  end.

Definition canonicalUUID (s : string) : bool :=
  matchesGroups [8; 4; 4; 4; 12]%nat (list_ascii_of_string s).

Definition exampleExternals : Externals := {|
  sha256 := fun s => ("sha256:" ++ s)%string;
  uaParser := fun _ => {| browser_name := None; browser_majorVersion := None; os_name := None |};
  getHours := fun t => ((t / 3600000) mod 24)%Z;
  getDay := fun t => ((t / 86400000 + 4) mod 7)%Z;
  getMonth := fun _ => 2%Z;
  getDate := fun _ => 15%Z;
  fileExists := fun _ => false;
  modelHashMatches := true;
  isUUID := canonicalUUID;
  storesNaN := true;
|}.

Definition emptyWorld : World := {|
  redisConnected := true;
  analysisKeys := ∅;
  userHistoryKeys := ∅;
  recipientKeys := ∅;
  deviceKeys := ∅;
  blocklistKeys := ∅;
  velocityCountKeys := ∅;
  velocityAmountKeys := ∅;
  dbReachable := true;
  fraud_analyses := [];
  fraud_blocklist := [];
  producerConnected := true;
  sent := [];
  isLoaded := false;
  loadedModelVersion := "";
|}.

(** Noon UTC on a Wednesday; the analysis takes 6 seconds. *)
Definition exampleEnv : Env := {|
  now := 1700049600000;
  finishedAt := 1700049606000;
  analysisId := "analysis-1";
  spareId := "analysis-2";
|}.

Definition exampleTransaction : Transaction := {|
  payload_transactionId := "tx-1";
  payload_userId := "user-1";
  sourceAccountId := "acct-src";
  destinationAccountId := "acct-dst";
  recipientId := "recipient-1";
  amount := 110;
  currency := "USD";
  timestamp := 1700049600000;
  geographic := None;
  device := None;
|}.

Definition exampleEvent : TransactionCreatedEvent := {|
  eventId := "event-1";
  correlationId := Some "corr-1";
  payload := exampleTransaction;
|}.

(** A state whose blocklist cache holds an active entry for the recipient. *)
Definition blockedEntry : BlocklistEntry := {|
  entry_id := "block-1";
  entry_type := "RECIPIENT";
  entry_value := "recipient-1";
  entry_reason := "confirmed mule account";
  entry_isActive := true;
|}.

Definition exampleRun : M (option FraudAnalysisResult) :=
  FraudDetectionService.processTransaction defaultConfig exampleExternals exampleEnv exampleEvent.

(** The same event with identifiers that are UUIDs, as the columns of
    [fraud_analyses] require. *)
Definition storableEnv : Env := {|
  now := 1700049600000;
  finishedAt := 1700049606000;
  analysisId := "3f2b8c1e-5d4a-4e6f-9a7b-0c1d2e3f4a5b";
  spareId := "6ec0bd7f-11c0-43da-975e-2a8ad9ebae0b";
|}.

Definition storableTransaction : Transaction := {|
  payload_transactionId := "9b1deb4d-3b7d-4bad-9bdd-2b0d7b3dcb6d";
  payload_userId := "1b9d6bcd-bbfd-4b2d-9b5d-ab8dfbbd4bed";
  sourceAccountId := "acct-src";
  destinationAccountId := "acct-dst";
  recipientId := "recipient-1";
  amount := 110;
  currency := "USD";
  timestamp := 1700049600000;
  geographic := None;
  device := None;
|}.

Definition storableEvent : TransactionCreatedEvent := {|
  eventId := "event-1";
  correlationId := Some "corr-1";
  payload := storableTransaction;
|}.

(** The event sent by a client that reports [constructor] as its
    country. *)
Definition memberCountryEvent : TransactionCreatedEvent := {|
  eventId := "event-3";
  correlationId := Some "corr-3";
  payload := {|
    payload_transactionId := "tx-3";
    payload_userId := "user-1";
    sourceAccountId := "acct-src";
    destinationAccountId := "acct-dst";
    recipientId := "recipient-1";
    amount := 110;
    currency := "USD";
    timestamp := 1700049600000;
    geographic := Some {| geo_ip := "203.0.113.7"; geo_latitude := None; geo_longitude := None;
                          geo_country := Some "constructor"; geo_city := None |};
    device := None;
  |};
|}.




Definition storableRun : M (option FraudAnalysisResult) :=
  FraudDetectionService.processTransaction defaultConfig exampleExternals storableEnv
    storableEvent.

Definition blockedWorld : World :=
  with_blocklistKeys
    (fun m => <[("RECIPIENT", CacheService.hashValue exampleExternals "recipient-1") := blockedEntry]> m)
    emptyWorld.

(** A state in which the user has already sent six transfers in the last
    five minutes and twenty in the last hour. *)
Definition busyWorld : World :=
  with_velocityKeys
    (fun m => <[("user-1", W5m) := 6%Z]> (<[("user-1", W1h) := 20%Z]>
                (<[("user-1", W24h) := 20%Z]> m)))
    (fun m => <[("user-1", W5m) := 600]> (<[("user-1", W1h) := 2000]>
                (<[("user-1", W24h) := 2000]> m)))
    emptyWorld.

(** The history used by the unit tests of the amount analyzer: ten
    transactions, average 100, maximum 200, standard deviation 20, on an
    account created at the time of the test. *)
Definition testHistory : UserTransactionHistory := {|
  history_userId := "user-123";
  transactions := [];
  statistics := {| totalTransactions := 10; averageAmount := 100; maxAmount := 200;
                   minAmount := 10; standardDeviation := 20; uniqueRecipients := 1;
                   uniqueCountries := 1; uniqueDevices := 1;
                   accountCreatedAt := now exampleEnv |};
|}.

Definition testAmount (amount : Q) (history : option UserTransactionHistory) : Outcome RiskFactor :=
  fst (AmountAnalyzer.analyze defaultConfig exampleEnv "user-123" "tx-123" amount "USD"
         history emptyWorld).

(** The empty state with Redis disconnected. *)
Definition cachelessWorld : World := {|
  redisConnected := false;
  analysisKeys := ∅;
  userHistoryKeys := ∅;
  recipientKeys := ∅;
  deviceKeys := ∅;
  blocklistKeys := ∅;
  velocityCountKeys := ∅;
  velocityAmountKeys := ∅;
  dbReachable := true;
  fraud_analyses := [];
  fraud_blocklist := [];
  producerConnected := true;
  sent := [];
  isLoaded := false;
  loadedModelVersion := "";
|}.

(** A user with ten past transactions and no fraud flag. *)
Definition veteranHistory : UserTransactionHistory := {|
  history_userId := "user-1";
  transactions := [];
  statistics := {| totalTransactions := 10; averageAmount := 100; maxAmount := 200;
                   minAmount := 10; standardDeviation := 20; uniqueRecipients := 1;
                   uniqueCountries := 1; uniqueDevices := 1;
                   accountCreatedAt := 1600000000000 |};
|}.

(** The features the orchestrator builds for that user's transaction. *)
Definition veteranFeatures : MLFeatures :=
  FraudDetectionService.constructMLFeatures exampleExternals exampleTransaction []
    (Some veteranHistory).

(** A young account: four transactions, none above 100. *)
Definition youngStatistics : Statistics := {|
  totalTransactions := 4; averageAmount := 50; maxAmount := 100; minAmount := 10;
  standardDeviation := 0; uniqueRecipients := 1; uniqueCountries := 1; uniqueDevices := 1;
  accountCreatedAt := 1600000000000;
|}.

(** The inbound messages the consumer must skip: the buffer is absent or is
    not JSON, or the parsed payload lacks an identifier or carries a
    non-positive amount. *)
Definition malformed (JSON_parse : string -> option Json) (value : option string) : Prop :=
  value = None \/ exists rawValue, value = Some rawValue /\ JSON_parse rawValue = None.

Definition invalidPayload (event : Json) : Prop :=
  let payload := EventConsumer.field (Some event) "payload" in
  EventConsumer.field payload "transactionId" = None
  \/ EventConsumer.field payload "userId" = None
  \/ EventConsumer.field payload "recipientId" = None
  \/ exists n, EventConsumer.field payload "amount" = Some (JNumber n) /\ n <= 0.

Definition invalid (JSON_parse : string -> option Json) (value : option string) : Prop :=
  exists rawValue event,
    value = Some rawValue /\ JSON_parse rawValue = Some event /\ invalidPayload event.

(** A parser and a message for evaluating the consumer: the text stands
    for an event whose amount is negative. *)
Definition exampleParse (rawValue : string) : option Json :=
  if String.eqb rawValue "negative amount" then
    Some (JObject [("payload",
                    JObject [("transactionId", JString "tx-1"); ("userId", JString "user-1");
                             ("recipientId", JString "recipient-1"); ("amount", JNumber (-5))])])
  else None.

(** ** Notions used by the further properties *)

(** Some sensitive key of the value, at any depth, holds something other
    than the redaction mark. *)
Fixpoint exposesSensitive (v : LogValue) : bool :=
  match v with
  | LArray items => existsb exposesSensitive items
  | LObject _ fields =>
      existsb (fun entry =>
                 let '(key, value) := entry in
                 if RequestLogger.isSensitive key
                 then negb match value with
                           | LString s => String.eqb s "[REDACTED]"
                           | _ => false
                           end
                 else exposesSensitive value)
              fields
  | _ => false
  end.

(** The value has a sensitive key at some depth. *)
Fixpoint hasSensitiveKey (v : LogValue) : bool :=
  match v with
  | LArray items => existsb hasSensitiveKey items
  | LObject _ fields =>
      existsb (fun entry =>
                 let '(key, value) := entry in
                 (RequestLogger.isSensitive key || hasSensitiveKey value)%bool)
              fields
  | _ => false
  end.

(** The value is plain data: at every depth its objects are ordinary ones
    and none has an own property named [__proto__]. *)
Fixpoint plainData (v : LogValue) : bool :=
  match v with
  | LArray items => forallb plainData items
  | LObject ordinary fields =>
      (ordinary
       && forallb (fun entry =>
                     let '(key, value) := entry in
                     (negb (String.eqb key "__proto__") && plainData value)%bool)
                  fields)%bool
  | _ => true
  end.

(** The distance between two hours on the 24-hour clock. *)
Definition hourDistance (hour prefHour : Z) : Z :=
  Z.min (Z.abs (hour - prefHour)) (24 - Z.abs (hour - prefHour)).

(** The event carries a payload with the three identifiers as non-empty
    strings and a positive amount. *)
Definition validPayload (event : Json) : Prop :=
  exists payload transactionId userId recipientId amount,
    EventConsumer.field (Some event) "payload" = Some payload
    /\ EventConsumer.field (Some payload) "transactionId" = Some (JString transactionId)
    /\ transactionId <> ""
    /\ EventConsumer.field (Some payload) "userId" = Some (JString userId)
    /\ userId <> ""
    /\ EventConsumer.field (Some payload) "recipientId" = Some (JString recipientId)
    /\ recipientId <> ""
    /\ EventConsumer.field (Some payload) "amount" = Some (JNumber amount)
    /\ 0 < amount.

(** The cap each scorer puts on its own score. *)
Definition cap (m : FraudDetectionMethod) : Q :=
  match m with
  | VELOCITY => 0.45
  | GEOGRAPHIC => 0.50
  | AMOUNT => 0.40
  | RECIPIENT => 0.45
  | TIME => 0.25
  | DEVICE => 0.40
  | ML_MODEL => 0.95
  end.

Definition capped (f : RiskFactor) : Prop :=
  score f <= cap (method f) \/ (details f = DetailsBlocked /\ score f == 1).

(** [FraudAnalysis.create] accepts the row: the database answers, the
    score passes the validator, the values fit their columns and no row has
    the transaction yet. *)
Definition accepted (X : Externals) (w : World) (row : FraudAnalysisResult) : bool :=
  (dbReachable w
   && FraudAnalysisModel.validScore X row
   && FraudAnalysisModel.fitsColumns X row
   && negb (existsb (fun r => String.eqb (transactionId r) (transactionId row))
                    (fraud_analyses w)))%bool.

(** The marker written for an analysis. *)
Definition markerOf (result : FraudAnalysisResult) : CachedAnalysis :=
  {| cached_decision := decision result; cached_score := finalScore result;
     cached_scoreIsNull := finalScoreIsNaN result |}.

(** What one run of the pipeline leaves behind, for an analysis [r]. *)
Record trace (X : Externals) (e : Env) (correlationId : option string) (r : FraudAnalysisResult)
    (w w' : World) : Prop := {
  trace_redis : redisConnected w' = redisConnected w;
  trace_db : dbReachable w' = dbReachable w;
  trace_producer : producerConnected w' = producerConnected w;
  trace_analyses :
    fraud_analyses w' = (fraud_analyses w ++ (if accepted X w r then [r] else []))%list;
  trace_sent :
    sent w' = (sent w ++ (if producerConnected w then outbound e r correlationId else []))%list;
  trace_marker :
    analysisKeys w' = if redisConnected w
                      then <[transactionId r := markerOf r]> (analysisKeys w)
                      else analysisKeys w;
}.


(** What a blocklist lookup can see is the same in both states. *)
Definition sameBlocklist (w w' : World) : Prop :=
  redisConnected w' = redisConnected w /\ dbReachable w' = dbReachable w
  /\ blocklistKeys w' = blocklistKeys w /\ fraud_blocklist w' = fraud_blocklist w.

(** ** Further example values *)

(** A log context without a sensitive key. *)
Definition plainContext : LogValue :=
  LObject true [("userId", LString "user-1");
                ("items", LArray [LNumber 1; LObject true [("currency", LString "USD")]])].

(** An [Error] as the loggers of the service receive it: [message] and
    [stack] are not enumerable, so it has no entries. *)
Definition thrownError : LogValue := LObject false [].

(** What [JSON.parse] makes of a body that names [__proto__], and a key
    written with the Kelvin sign, which lower-cases to [token]. *)
Definition protoContext : LogValue :=
  LObject true [("__proto__", LObject true [("admin", LBool true)]); ("userId", LString "user-1")].

Definition kelvinContext : LogValue :=
  LObject true [(String "t" (String "o" (String "226" (String "132" (String "170" "en")))),
                 LString "abc")].



(** The empty state with the Kafka producer disconnected. *)
Definition offlineWorld : World := {|
  redisConnected := true;
  analysisKeys := ∅;
  userHistoryKeys := ∅;
  recipientKeys := ∅;
  deviceKeys := ∅;
  blocklistKeys := ∅;
  velocityCountKeys := ∅;
  velocityAmountKeys := ∅;
  dbReachable := true;
  fraud_analyses := [];
  fraud_blocklist := [];
  producerConnected := false;
  sent := [];
  isLoaded := false;
  loadedModelVersion := "";
|}.

(** A transaction sent from a device that reports no [deviceId]. *)
Definition exampleDevice : Device := {|
  fingerprint := "fingerprint-0123456789abcdef";
  userAgent := Some "Mozilla/5.0";
  deviceId := None;
|}.

Definition deviceEvent : TransactionCreatedEvent := {|
  eventId := "event-2";
  correlationId := Some "corr-2";
  payload := {|
    payload_transactionId := "tx-2";
    payload_userId := "user-1";
    sourceAccountId := "acct-src";
    destinationAccountId := "acct-dst";
    recipientId := "recipient-1";
    amount := 110;
    currency := "USD";
    timestamp := 1700049600000;
    geographic := None;
    device := Some exampleDevice;
  |};
|}.



(** A well-formed inbound event, and a parser that yields it. *)
Definition validEvent : Json :=
  JObject [("eventType", JString "TransactionCreated");
           ("payload",
            JObject [("transactionId", JString "tx-1"); ("userId", JString "user-1");
                     ("recipientId", JString "recipient-1"); ("amount", JNumber 110)])].

Definition validParse (rawValue : string) : option Json :=
  if String.eqb rawValue "valid" then Some validEvent else None.

(** Ten past transactions, all made in the same hour. *)
Definition regularHistory : UserTransactionHistory := {|
  history_userId := "user-1";
  transactions :=
    List.repeat {| tx_transactionId := "tx-0"; tx_amount := 100; tx_recipientId := "recipient-1";
                   tx_timestamp := 1700049600000; tx_country := None;
                   tx_deviceFingerprint := None |} 10;
  statistics := {| totalTransactions := 10; averageAmount := 100; maxAmount := 100;
                   minAmount := 100; standardDeviation := 0; uniqueRecipients := 1;
                   uniqueCountries := 1; uniqueDevices := 1;
                   accountCreatedAt := 1600000000000 |};
|}.

(** * Properties *)

(** ** Comparisons *)

Lemma geb_true a b : (a >=? b) = true <-> b <= a.
Proof. unfold Js.geb. apply Qle_bool_iff. Qed.

Lemma geb_false a b : (a >=? b) = false <-> a < b.
Proof.
  unfold Js.geb. split; intro H.
  - apply Qnot_le_lt. intro L. apply Qle_bool_iff in L. congruence.
  - destruct (Qle_bool b a) eqn:E; [|reflexivity].
    apply Qle_bool_iff in E. exfalso. eapply Qlt_not_le; eauto.
Qed.

Lemma leb_true a b : (a <=? b) = true <-> a <= b.
Proof. unfold Js.leb. apply Qle_bool_iff. Qed.

Lemma leb_false a b : (a <=? b) = false <-> b < a.
Proof. apply (geb_false b a). Qed.

Lemma gtb_true a b : (a >? b) = true <-> b < a.
Proof. unfold Js.gtb. rewrite negb_true_iff. apply (geb_false b a). Qed.

Lemma gtb_false a b : (a >? b) = false <-> a <= b.
Proof. unfold Js.gtb. rewrite negb_false_iff. apply Qle_bool_iff. Qed.

Lemma ltb_true a b : (a <? b) = true <-> a < b.
Proof. unfold Js.ltb. rewrite negb_true_iff. apply (geb_false a b). Qed.

Lemma ltb_false a b : (a <? b) = false <-> b <= a.
Proof. unfold Js.ltb. rewrite negb_false_iff. apply Qle_bool_iff. Qed.

Lemma eqb_true a b : (a =? b) = true <-> a == b.
Proof. unfold Js.eqb. apply Qeq_bool_iff. Qed.

Lemma min_nonneg a b : 0 <= a -> 0 <= b -> 0 <= Js.min a b.
Proof. intros. unfold Js.min. apply Q.min_glb; assumption. Qed.

(** ** Aggregation *)

Lemma fold_left_contributed (factors : list RiskFactor) (start : Q) :
  fold_left (fun totalScore factor => totalScore + contributedScore factor) factors start
  == start + sumContributed factors.
Proof.
  revert start. induction factors as [|f fs IH]; intro start; simpl.
  - lra.
  - rewrite IH. lra.
Qed.

Lemma sumContributed_app (l1 l2 : list RiskFactor) :
  sumContributed (l1 ++ l2)%list == sumContributed l1 + sumContributed l2.
Proof.
  induction l1 as [|f fs IH]; simpl.
  - lra.
  - rewrite IH. lra.
Qed.



Section Decision.
Variable cfg : Config.
Variables (analysisId : string) (transaction : Transaction).
Variables (modelVersion : string) (correlationId : option string).

Local Abbreviation result factors :=
  (FraudDetectionService.calculateFinalDecision cfg analysisId transaction factors
     modelVersion correlationId).

Lemma calculateFinalDecision_score (factors : list RiskFactor) :
  finalScore (result factors) == Qmin 1 (sumContributed factors).
Proof.
  unfold result, FraudDetectionService.calculateFinalDecision, Js.min. simpl.
  rewrite fold_left_contributed. rewrite Q.min_comm.
  apply Q.min_compat; [reflexivity | lra].
Qed.

Lemma calculateFinalDecision_factors (factors : list RiskFactor) :
  riskFactors (result factors) = factors.
Proof. reflexivity. Qed.

Lemma calculateFinalDecision_isNaN (factors : list RiskFactor) :
  finalScoreIsNaN (result factors) = existsb scoreIsNaN factors.
Proof. reflexivity. Qed.

(** A score that is not a number passes neither threshold. *)
Lemma calculateFinalDecision_NaN (factors : list RiskFactor) :
  existsb scoreIsNaN factors = true ->
  decision (result factors) = APPROVE /\ requiresManualReview (result factors) = false.
Proof.
  intros H. unfold result, FraudDetectionService.calculateFinalDecision. simpl.
  rewrite H. split; reflexivity.
Qed.

(** Only a score that is a number is marked for review or rejected. *)
Lemma calculateFinalDecision_number (factors : list RiskFactor) :
  decision (result factors) <> APPROVE \/ requiresManualReview (result factors) = true ->
  finalScoreIsNaN (result factors) = false.
Proof.
  rewrite calculateFinalDecision_isNaN.
  destruct (existsb scoreIsNaN factors) eqn:E; [|reflexivity].
  destruct (calculateFinalDecision_NaN factors E) as [Hd Hm].
  intros [H | H]; congruence.
Qed.

Lemma calculateFinalDecision_thresholds (factors : list RiskFactor) :
  existsb scoreIsNaN factors = false ->
  suspiciousMin cfg <= rejectMin cfg ->
  let r := result factors in
  (finalScore r < suspiciousMin cfg ->
     decision r = APPROVE /\ requiresManualReview r = false)
  /\ (suspiciousMin cfg <= finalScore r < rejectMin cfg ->
     decision r = SUSPICIOUS /\ requiresManualReview r = true)
  /\ (rejectMin cfg <= finalScore r ->
     decision r = REJECT /\ requiresManualReview r = true).
Proof.
  intros Hnum Hord r. subst r.
  unfold result, FraudDetectionService.calculateFinalDecision. simpl.
  rewrite Hnum. simpl.
  set (s := Js.min _ 1.0).
  repeat split.
  - assert (E : (s >=? rejectMin cfg) = false) by (apply geb_false; lra).
    assert (E' : (s >=? suspiciousMin cfg) = false) by (apply geb_false; lra).
    rewrite E, E'. reflexivity.
  - apply geb_false. assumption.
  - destruct H as [H1 H2].
    assert (E : (s >=? rejectMin cfg) = false) by (apply geb_false; lra).
    assert (E' : (s >=? suspiciousMin cfg) = true) by (apply geb_true; lra).
    rewrite E, E'. reflexivity.
  - apply geb_true. apply H.
  - assert (E : (s >=? rejectMin cfg) = true) by (apply geb_true; lra).
    rewrite E. reflexivity.
  - apply geb_true. lra.
Qed.

Lemma calculateFinalDecision_confidence (factors : list RiskFactor) :
  confidence (result factors) = HIGH.
Proof. reflexivity. Qed.

Lemma calculateFinalDecision_status (factors : list RiskFactor) :
  status (result factors) = COMPLETED.
Proof. reflexivity. Qed.


End Decision.

(** ** Reasoning about computations *)

Lemma bind_returned {A B} (m : M A) (k : A -> M B) w a w' :
  m w = (Returned a, w') -> bind m k w = k a w'.
Proof. unfold bind. intros ->. reflexivity. Qed.

Lemma bind_thrown {A B} (m : M A) (k : A -> M B) w w' :
  m w = (Thrown, w') -> bind m k w = (Thrown, w').
Proof. unfold bind. intros ->. reflexivity. Qed.

Lemma tryCatch_returned {A} (body handler : M A) w a w' :
  body w = (Returned a, w') -> tryCatch body handler w = (Returned a, w').
Proof. unfold tryCatch. intros ->. reflexivity. Qed.

Lemma tryCatch_thrown {A} (body handler : M A) w w' :
  body w = (Thrown, w') -> tryCatch body handler w = handler w'.
Proof. unfold tryCatch. intros ->. reflexivity. Qed.

Section Stability.
Variable X : Externals.

Lemma stable_refl w : stable X w w.
Proof. constructor; auto. Qed.

Lemma stable_trans w1 w2 w3 : stable X w1 w2 -> stable X w2 w3 -> stable X w1 w3.
Proof.
  intros [] []. constructor; try congruence. auto.
Qed.

(** A step that leaves the connection flags, the marker keys, the
    analyses, the outbox, the blocklist cache and the blocklist rows
    alone is stable. *)
Lemma stable_frame w w' :
  redisConnected w' = redisConnected w ->
  dbReachable w' = dbReachable w ->
  producerConnected w' = producerConnected w ->
  analysisKeys w' = analysisKeys w ->
  userHistoryKeys w' = userHistoryKeys w ->
  fraud_analyses w' = fraud_analyses w ->
  sent w' = sent w ->
  blocklistKeys w' = blocklistKeys w ->
  fraud_blocklist w' = fraud_blocklist w ->
  stable X w w'.
Proof.
  intros H1 H2 H3 H4 H5 H6 H7 H8 H9. constructor; auto.
  intros r a. unfold blocklisted, activeInCache, activeInDatabase.
  rewrite H1, H2, H8, H9. auto.
Qed.

Lemma stable_blocklistKeys w k entry :
  entry_isActive entry = true ->
  stable X w (with_blocklistKeys (fun m => <[k := entry]> m) w).
Proof.
  intros Hactive. constructor; auto.
  intros r a. unfold blocklisted, activeInCache, activeInDatabase. simpl.
  assert (Hkeep : forall k', (exists b, blocklistKeys w !! k' = Some b /\ entry_isActive b = true) ->
                   exists b, <[k := entry]> (blocklistKeys w) !! k' = Some b
                             /\ entry_isActive b = true).
  { intros k' (b & Hb & Hact). destruct (decide (k = k')) as [->|Hne].
    - exists entry. rewrite lookup_insert_eq. auto.
    - exists b. rewrite lookup_insert_ne by assumption. auto. }
  intros [[Hc Hb]|[[Hc Hb]|Hd]]; auto.
Qed.

Lemma stable_fraud_blocklist w (update : FraudBlocklist -> FraudBlocklist) :
  (forall row, valueHash (update row) = valueHash row
               /\ row_isActive (update row) = row_isActive row) ->
  stable X w (with_fraud_blocklist (List.map update) w).
Proof.
  intros Hupd. constructor; auto.
  intros r a. unfold blocklisted, activeInCache, activeInDatabase. simpl.
  intros [Hc|[Hc|[Hd (row & Hin & Hact & Hhash)]]]; auto.
  right. right. split; [assumption|].
  exists (update row). destruct (Hupd row) as [-> ->].
  split; [apply in_map; assumption | auto].
Qed.

Lemma invariant_True : invariant X (fun _ => True).
Proof. intros w w' _ _. exact I. Qed.


Section Rules.
Variable P : World -> Prop.
Hypothesis HP : invariant X P.

Lemma safe_ret {A} (a : A) (Q : A -> Prop) : Q a -> safe X P (ret a) Q.
Proof. intros Hq w _. exists a, w. auto using stable_refl. Qed.

Lemma safe_bind {A B} (m : M A) (k : A -> M B) (R : A -> Prop) (Q : B -> Prop) :
  safe X P m R -> (forall a, R a -> safe X P (k a) Q) -> safe X P (bind m k) Q.
Proof.
  intros Hm Hk w Hw. destruct (Hm w Hw) as (a & w1 & E1 & S1 & Ha).
  destruct (Hk a Ha w1 (HP _ _ S1 Hw)) as (b & w2 & E2 & S2 & Hb).
  exists b, w2. rewrite (bind_returned _ _ _ _ _ E1).
  eauto using stable_trans.
Qed.

Lemma safe_get {B} (k : World -> M B) (Q : B -> Prop) :
  (forall w0, safe X P (k w0) Q) -> safe X P (bind get k) Q.
Proof. intros Hk w Hw. exact (Hk w w Hw). Qed.

Lemma safe_modify (f : World -> World) :
  (forall w, stable X w (f w)) -> safe X P (modify f) (fun _ => True).
Proof. intros Hf w _. exists tt, (f w). auto. Qed.

Lemma safe_weaken {A} (m : M A) (Q Q' : A -> Prop) :
  safe X P m Q -> (forall a, Q a -> Q' a) -> safe X P m Q'.
Proof.
  intros Hm Hq w Hw. destruct (Hm w Hw) as (a & w' & E & S & Ha). eauto 6.
Qed.

Lemma guarded_of_safe {A} (m : M A) (Q : A -> Prop) : safe X P m Q -> guarded X P m Q.
Proof.
  intros Hm w Hw. destruct (Hm w Hw) as (a & w' & E & S & Ha).
  exists (Returned a), w'. auto.
Qed.

Lemma guarded_throw {A} (Q : A -> Prop) : guarded X P (@throw A) Q.
Proof. intros w _. exists Thrown, w. auto using stable_refl. Qed.

Lemma guarded_bind {A B} (m : M A) (k : A -> M B) (R : A -> Prop) (Q : B -> Prop) :
  guarded X P m R -> (forall a, R a -> guarded X P (k a) Q) -> guarded X P (bind m k) Q.
Proof.
  intros Hm Hk w Hw. destruct (Hm w Hw) as ([a|] & w1 & E1 & S1 & Ha).
  - destruct (Hk a Ha w1 (HP _ _ S1 Hw)) as (o & w2 & E2 & S2 & Ho).
    exists o, w2. rewrite (bind_returned _ _ _ _ _ E1). eauto using stable_trans.
  - exists Thrown, w1. rewrite (bind_thrown _ _ _ _ E1). auto.
Qed.

Lemma guarded_get {B} (k : World -> M B) (Q : B -> Prop) :
  (forall w0, guarded X P (k w0) Q) -> guarded X P (bind get k) Q.
Proof. intros Hk w Hw. exact (Hk w w Hw). Qed.

Lemma guarded_weaken {A} (m : M A) (Q Q' : A -> Prop) :
  guarded X P m Q -> (forall a, Q a -> Q' a) -> guarded X P m Q'.
Proof.
  intros Hm Hq w Hw. destruct (Hm w Hw) as ([a|] & w' & E & S & Ha).
  - exists (Returned a), w'. auto.
  - exists Thrown, w'. auto.
Qed.

Lemma safe_tryCatch {A} (body handler : M A) (Q : A -> Prop) :
  guarded X P body Q -> safe X P handler Q -> safe X P (tryCatch body handler) Q.
Proof.
  intros Hb Hh w Hw. destruct (Hb w Hw) as ([a|] & w1 & E1 & S1 & Ha).
  - exists a, w1. rewrite (tryCatch_returned _ _ _ _ _ E1). auto.
  - destruct (Hh w1 (HP _ _ S1 Hw)) as (a & w2 & E2 & S2 & Ha2).
    exists a, w2. rewrite (tryCatch_thrown _ _ _ _ E1). eauto using stable_trans.
Qed.

(** A property proved without looking at the state holds from [P]. *)
Lemma safe_from_True {A} (m : M A) (Q : A -> Prop) :
  safe X (fun _ => True) m Q -> safe X P m Q.
Proof. intros Hm w _. exact (Hm w I). Qed.

Lemma guarded_from_True {A} (m : M A) (Q : A -> Prop) :
  guarded X (fun _ => True) m Q -> guarded X P m Q.
Proof. intros Hm w _. exact (Hm w I). Qed.

End Rules.
End Stability.

(** ** The collaborators are stable *)

Section Collaborators.
Variable X : Externals.

Local Ltac cache_op :=
  apply safe_get; intros w0; destruct (redisConnected w0); simpl;
  try (apply safe_ret; exact I).

Lemma getUserHistory_safe u :
  safe X anyWorld (CacheService.getUserHistory u) (fun _ => True).
Proof. unfold CacheService.getUserHistory. cache_op. Qed.

Lemma getDeviceInfo_safe fp :
  safe X anyWorld (CacheService.getDeviceInfo X fp) (fun _ => True).
Proof. unfold CacheService.getDeviceInfo. cache_op. Qed.

Lemma setDeviceInfo_safe fp info :
  safe X anyWorld (CacheService.setDeviceInfo X fp info) (fun _ => True).
Proof.
  unfold CacheService.setDeviceInfo. cache_op.
  apply safe_modify. intros w. apply stable_frame; reflexivity.
Qed.

Lemma getRecipientInfo_safe r :
  safe X anyWorld (CacheService.getRecipientInfo r) (fun _ => True).
Proof. unfold CacheService.getRecipientInfo. cache_op. Qed.

Lemma setRecipientInfo_safe r info :
  safe X anyWorld (CacheService.setRecipientInfo r info) (fun _ => True).
Proof.
  unfold CacheService.setRecipientInfo. cache_op.
  apply safe_modify. intros w. apply stable_frame; reflexivity.
Qed.

Lemma isInBlocklist_safe t v :
  safe X anyWorld (CacheService.isInBlocklist X t v) (fun _ => True).
Proof. unfold CacheService.isInBlocklist. cache_op. Qed.

Lemma addToBlocklistCache_safe entry :
  entry_isActive entry = true ->
  safe X anyWorld (CacheService.addToBlocklistCache X entry) (fun _ => True).
Proof.
  intros Hactive. unfold CacheService.addToBlocklistCache. cache_op.
  apply safe_modify. intros w. apply stable_blocklistKeys. assumption.
Qed.

Lemma incrementVelocity_safe u win a :
  safe X anyWorld (CacheService.incrementVelocity u win a) (fun _ => True).
Proof.
  unfold CacheService.incrementVelocity. cache_op.
  eapply safe_bind; [apply invariant_True | |].
  - apply safe_modify. intros w. apply stable_frame; reflexivity.
  - intros _ _. apply safe_ret. exact I.
Qed.

Lemma getVelocity_safe u win :
  safe X anyWorld (CacheService.getVelocity u win) (fun _ => True).
Proof. unfold CacheService.getVelocity. cache_op. Qed.

(** A row returned by [findOne] passed the [isActive] filter. *)
Lemma findOne_guarded ty hashes :
  guarded X anyWorld (FraudBlocklistModel.findOne ty hashes)
    (fun found => forall row, found = Some row -> row_isActive row = true).
Proof.
  unfold FraudBlocklistModel.findOne. apply guarded_get. intros w0.
  destruct (dbReachable w0); simpl.
  - apply guarded_of_safe. apply safe_ret. intros row Hfind.
    apply List.find_some in Hfind. destruct Hfind as [_ Hf].
    apply andb_true_iff in Hf. apply Hf.
  - apply guarded_throw.
Qed.

Lemma recordMatch_guarded e entry :
  guarded X anyWorld (FraudBlocklistModel.recordMatch e entry) (fun _ => True).
Proof.
  unfold FraudBlocklistModel.recordMatch. apply guarded_get. intros w0.
  destruct (dbReachable w0); simpl.
  - apply guarded_of_safe. apply safe_modify. intros w.
    apply stable_fraud_blocklist. intros row.
    destruct (String.eqb (row_id row) (row_id entry)); auto.
  - apply guarded_throw.
Qed.

Lemma loadModel_safe cfg :
  safe X anyWorld (MLModelService.loadModel cfg X) (fun _ => True).
Proof.
  assert (Hm : forall v, safe X anyWorld (modify (with_model v)) (fun _ => True)).
  { intros v. apply safe_modify. intros w. apply stable_frame; reflexivity. }
  unfold MLModelService.loadModel. apply safe_tryCatch; [apply invariant_True | |].
  - destruct (negb (fileExists X (modelPath cfg))).
    + apply guarded_of_safe, Hm.
    + eapply guarded_bind with (R := fun _ => True);
        [apply invariant_True | | intros _ _; apply guarded_of_safe, Hm].
      destruct (modelHashValidation cfg && _)%bool.
      * destruct (negb (modelHashMatches X)).
        -- apply guarded_throw.
        -- apply guarded_of_safe, safe_ret. exact I.
      * apply guarded_of_safe, safe_ret. exact I.
  - destruct (Js.truthy (fallbackModelPath cfg) && _)%bool; apply Hm.
Qed.

End Collaborators.

(** ** The rules never subtract *)

Lemma notDetected_ok : rule_ok notDetected.
Proof. unfold rule_ok. simpl. lra. Qed.

Lemma hit_ok s : 0 <= s -> rule_ok (hit s).
Proof. unfold rule_ok. simpl. auto. Qed.

Lemma addIfDetected_nonneg t r : 0 <= t -> rule_ok r -> 0 <= addIfDetected t r.
Proof. unfold addIfDetected, rule_ok. intros. destruct (detected r); lra. Qed.

Ltac rule_cases :=
  repeat match goal with
         | |- rule_ok (if ?c then _ else _) => destruct c
         | |- rule_ok (match ?x with _ => _ end) => destruct x
         end;
  first [ apply notDetected_ok | apply hit_ok; lra ].

Lemma factor_ok_product m s w n d :
  0 <= s -> 0 <= w ->
  factor_ok {| method := m; score := s; weight := w; contributedScore := s * w;
               scoreIsNaN := n; details := d |}.
Proof.
  intros Hs Hw. unfold factor_ok, productForm. simpl.
  repeat split; auto.
  - apply Qmult_le_0_compat; assumption.
  - left. reflexivity.
Qed.

Lemma factor_ok_unavailable m w :
  0 <= w ->
  factor_ok {| method := m; score := 0; weight := w; contributedScore := 0;
               scoreIsNaN := false; details := DetailsError |}.
Proof.
  intros Hw. unfold factor_ok, productForm. simpl.
  split; [lra|]. split; [assumption|]. split; [lra|]. left. lra.
Qed.

Section Analyzers.
Variable cfg : Config.
Variable X : Externals.
Variable e : Env.

(** *** Amount *)

Lemma amount_uncapped_nonneg a stats : 0 <= AmountAnalyzer.uncappedScore cfg e a stats.
Proof.
  unfold AmountAnalyzer.uncappedScore.
  repeat apply addIfDetected_nonneg; try lra.
  - unfold AmountAnalyzer.checkUnusualAmount. rule_cases.
  - unfold AmountAnalyzer.checkExceedsMax. rule_cases.
  - unfold AmountAnalyzer.checkAbsoluteLarge. rule_cases.
  - unfold AmountAnalyzer.checkRoundNumber. rule_cases.
  - unfold AmountAnalyzer.checkBelowReportingThreshold. rule_cases.
  - unfold AmountAnalyzer.zScoreRule, AmountAnalyzer.checkZScore. rule_cases.
  - unfold AmountAnalyzer.newAccountLarge. rule_cases.
Qed.

Lemma amount_safe u t a c h :
  safe X anyWorld (AmountAnalyzer.analyze cfg e u t a c h) (factor_sound cfg).
Proof.
  unfold AmountAnalyzer.analyze. apply safe_tryCatch; [apply invariant_True | |].
  - apply guarded_of_safe, safe_ret. intros Hwf. apply factor_ok_product.
    + apply min_nonneg; [apply amount_uncapped_nonneg | lra].
    + apply Hwf.
  - apply safe_ret. intros Hwf. apply factor_ok_unavailable. apply Hwf.
Qed.

(** *** Velocity *)

Lemma windowRule_ok count max w :
  (0 < max)%Z -> 0 <= w -> rule_ok (VelocityAnalyzer.windowRule count max w).
Proof.
  intros Hmax Hw. unfold VelocityAnalyzer.windowRule, VelocityAnalyzer.severity.
  destruct (count >=? max)%Z eqn:E; [|apply notDetected_ok].
  apply hit_ok. apply Qmult_le_0_compat; [assumption|].
  destruct (max =? 0)%Z; [lra|].
  apply min_nonneg; [|lra].
  apply Z.geb_le in E.
  apply Qle_shift_div_l.
  - replace 0 with (inject_Z 0) by reflexivity. rewrite <- Zlt_Qlt. assumption.
  - rewrite Qmult_0_l. replace 0 with (inject_Z 0) by reflexivity.
    rewrite <- Zle_Qle. lia.
Qed.

Lemma velocity_uncapped_nonneg vd a r :
  config_wf cfg -> 0 <= VelocityAnalyzer.uncappedScore cfg vd a r.
Proof.
  intros Hwf. unfold VelocityAnalyzer.uncappedScore.
  repeat apply addIfDetected_nonneg; try lra.
  - apply windowRule_ok; apply Hwf.
  - apply windowRule_ok; apply Hwf.
  - apply windowRule_ok; apply Hwf.
  - unfold VelocityAnalyzer.checkAmountSpike. rule_cases.
  - unfold VelocityAnalyzer.checkRapidDiverseTransfers. rule_cases.
Qed.

Lemma velocity_safe u t a r :
  safe X anyWorld (VelocityAnalyzer.analyze cfg u t a r) (factor_sound cfg).
Proof.
  unfold VelocityAnalyzer.analyze. apply safe_tryCatch; [apply invariant_True | |].
  - apply guarded_of_safe.
    eapply safe_bind with (R := fun _ => True); [apply invariant_True | |].
    + unfold VelocityAnalyzer.getVelocityData.
      repeat (eapply safe_bind; [apply invariant_True | apply getVelocity_safe | intros ? _]).
      apply safe_ret. exact I.
    + intros vd _.
      eapply safe_bind with (R := fun _ => True); [apply invariant_True | |].
      * unfold VelocityAnalyzer.incrementVelocity.
        repeat (eapply safe_bind; [apply invariant_True | apply incrementVelocity_safe | intros ? _]).
        apply safe_ret. exact I.
      * intros _ _. apply safe_ret. intros Hwf.
        assert (Hs : 0 <= Js.min (VelocityAnalyzer.uncappedScore cfg vd a r) 0.45)
          by (apply min_nonneg; [apply velocity_uncapped_nonneg; assumption | lra]).
        unfold factor_ok, productForm. simpl.
        split; [assumption|]. split; [lra|]. split; [assumption|]. left. lra.
  - apply safe_ret. intros _. unfold VelocityAnalyzer.unavailable.
    apply factor_ok_unavailable. lra.
Qed.

(** *** Geographic *)

Lemma lookupHighRisk_own c s :
  GeographicAnalyzer.lookupHighRisk c = GeographicAnalyzer.OwnEntry s -> 0 <= s.
Proof.
  unfold GeographicAnalyzer.lookupHighRisk.
  destruct (List.find _ _) as [[name s']|] eqn:F.
  - intros [= <-]. apply List.find_some in F. destruct F as [F _]. simpl in *.
    repeat (destruct F as [F|F]; [inversion F; subst; lra|]). contradiction.
  - destruct (Js.inherited c); discriminate.
Qed.

Lemma geographic_uncapped_nonneg l h k : 0 <= GeographicAnalyzer.uncappedScore cfg e l h k.
Proof.
  unfold GeographicAnalyzer.uncappedScore.
  destruct (GeographicAnalyzer.truthyString (ip l));
    repeat apply addIfDetected_nonneg;
    try (destruct h as [h|]; [destruct (0 <? length (transactions h))%nat|];
         repeat apply addIfDetected_nonneg); try lra;
    try apply notDetected_ok;
    try (unfold GeographicAnalyzer.checkNewCountry; rule_cases);
    try (unfold GeographicAnalyzer.checkImpossibleTravel; rule_cases).
  all: unfold GeographicAnalyzer.checkHighRiskCountry;
    destruct (country l) as [c|]; [|apply notDetected_ok];
    destruct (negb (Js.truthy c)); [apply notDetected_ok|];
    destruct (GeographicAnalyzer.lookupHighRisk c) as [s| |] eqn:F;
    [apply hit_ok, (lookupHighRisk_own c), F | apply hit_ok; lra | apply notDetected_ok].
Qed.

Lemma geographic_safe u t l h k :
  safe X anyWorld (GeographicAnalyzer.analyze cfg e u t l h k) (factor_sound cfg).
Proof.
  unfold GeographicAnalyzer.analyze. apply safe_tryCatch; [apply invariant_True | |].
  - apply guarded_of_safe, safe_ret. intros Hwf. apply factor_ok_product.
    + apply min_nonneg; [apply geographic_uncapped_nonneg | lra].
    + apply Hwf.
  - apply safe_ret. intros Hwf. apply factor_ok_unavailable. apply Hwf.
Qed.

(** *** Time *)

Lemma time_uncapped_nonneg ts h ph pd : 0 <= TimeAnalyzer.uncappedScore X e ts h ph pd.
Proof.
  unfold TimeAnalyzer.uncappedScore.
  repeat apply addIfDetected_nonneg; try lra.
  - unfold TimeAnalyzer.checkUnusualHour. rule_cases.
  - unfold TimeAnalyzer.checkUnusualDay. rule_cases.
  - unfold TimeAnalyzer.checkLateNight. rule_cases.
  - unfold TimeAnalyzer.checkWeekendPattern. rule_cases.
  - unfold TimeAnalyzer.checkHoliday. rule_cases.
  - unfold TimeAnalyzer.checkActivityBurst. rule_cases.
Qed.

Lemma time_safe u t ts h ph pd :
  safe X anyWorld (TimeAnalyzer.analyze cfg X e u t ts h ph pd) (factor_sound cfg).
Proof.
  unfold TimeAnalyzer.analyze. apply safe_tryCatch; [apply invariant_True | |].
  - apply guarded_of_safe, safe_ret. intros Hwf. apply factor_ok_product.
    + apply min_nonneg; [apply time_uncapped_nonneg | lra].
    + apply Hwf.
  - apply safe_ret. intros Hwf. apply factor_ok_unavailable. apply Hwf.
Qed.

End Analyzers.

Section RecipientAndDevice.
Variable cfg : Config.
Variable X : Externals.
Variable e : Env.

(** *** Recipient *)

Lemma recipient_checkBlocklist_safe r a :
  safe X anyWorld (RecipientAnalyzer.checkBlocklist X e r a) (fun _ => True).
Proof.
  unfold RecipientAnalyzer.checkBlocklist.
  apply safe_tryCatch; [apply invariant_True | | apply safe_ret; exact I].
  eapply guarded_bind with (R := fun _ => True);
    [apply invariant_True | apply guarded_of_safe, isInBlocklist_safe | intros c1 _].
  destruct (match c1 with Some b => entry_isActive b | None => false end);
    [apply guarded_of_safe, safe_ret; exact I|].
  eapply guarded_bind with (R := fun _ => True);
    [apply invariant_True | apply guarded_of_safe, isInBlocklist_safe | intros c2 _].
  destruct (match c2 with Some b => entry_isActive b | None => false end);
    [apply guarded_of_safe, safe_ret; exact I|].
  eapply guarded_bind; [apply invariant_True | apply findOne_guarded | intros found Hfound].
  destruct found as [row|]; [|apply guarded_of_safe, safe_ret; exact I].
  eapply guarded_bind with (R := fun _ => True); [apply invariant_True | |].
  - apply guarded_of_safe, addToBlocklistCache_safe. simpl. apply Hfound. reflexivity.
  - intros _ _.
    eapply guarded_bind with (R := fun _ => True);
      [apply invariant_True | apply recordMatch_guarded | intros _ _].
    apply guarded_of_safe, safe_ret. exact I.
Qed.

Lemma recipient_uncapped_nonneg r info h k :
  0 <= RecipientAnalyzer.uncappedScore cfg e r info h k.
Proof.
  unfold RecipientAnalyzer.uncappedScore.
  repeat apply addIfDetected_nonneg; try lra.
  - unfold RecipientAnalyzer.checkNewRecipient. rule_cases.
  - unfold RecipientAnalyzer.riskScoreRule. destruct info as [i|]; [|apply notDetected_ok].
    destruct (riskScore i >? 0.3) eqn:E; [|apply notDetected_ok].
    apply gtb_true in E. apply hit_ok. lra.
  - unfold RecipientAnalyzer.accountAgeRule. rule_cases.
  - unfold RecipientAnalyzer.countryRule. rule_cases.
  - unfold RecipientAnalyzer.unverifiedRule. rule_cases.
  - unfold RecipientAnalyzer.burstRule. rule_cases.
Qed.

Lemma recipient_blocked_ok : factor_sound cfg (RecipientAnalyzer.blocked cfg).
Proof.
  intros Hwf. unfold factor_ok, productForm, shortCircuit. simpl.
  split; [lra|]. split; [apply Hwf|]. split; [lra|].
  right. repeat split; auto; lra.
Qed.

Lemma recipient_safe u t r a h k :
  safe X anyWorld (RecipientAnalyzer.analyze cfg X e u t r a h k) (factor_sound cfg).
Proof.
  unfold RecipientAnalyzer.analyze.
  apply safe_tryCatch; [apply invariant_True | |].
  - apply guarded_of_safe.
    eapply safe_bind with (R := fun _ => True);
      [apply invariant_True | apply recipient_checkBlocklist_safe | intros b _].
    destruct b; [apply safe_ret, recipient_blocked_ok|].
    eapply safe_bind with (R := fun _ => True);
      [apply invariant_True | apply getRecipientInfo_safe | intros cached _].
    eapply safe_bind with (R := fun _ => True); [apply invariant_True | |].
    + destruct cached as [info|]; [apply safe_ret; exact I|].
      eapply safe_bind with (R := fun _ => True); [apply invariant_True | |].
      * destruct (RecipientAnalyzer.computeRecipientInfo cfg r h);
          [apply setRecipientInfo_safe | apply safe_ret; exact I].
      * intros _ _. apply safe_ret. exact I.
    + intros info _. apply safe_ret. intros Hwf. apply factor_ok_product.
      * apply min_nonneg; [apply recipient_uncapped_nonneg | lra].
      * apply Hwf.
  - apply safe_ret. intros Hwf. apply factor_ok_unavailable. apply Hwf.
Qed.







End RecipientAndDevice.

Section DeviceRules.
Variable cfg : Config.
Variable X : Externals.
Variable e : Env.

Lemma includes_guarded k x :
  guarded X anyWorld (DeviceAnalyzer.includes k x) (fun _ => True).
Proof.
  destruct k; simpl; try apply guarded_throw; apply guarded_of_safe, safe_ret; exact I.
Qed.

Lemma lengthOf_guarded k :
  guarded X anyWorld (DeviceAnalyzer.lengthOf k) (fun _ => True).
Proof.
  destruct k; simpl; try apply guarded_throw; apply guarded_of_safe, safe_ret; exact I.
Qed.

Lemma totalTransactionsOf_guarded h :
  guarded X anyWorld (DeviceAnalyzer.totalTransactionsOf h) (fun _ => True).
Proof.
  destruct h; simpl; try apply guarded_throw; apply guarded_of_safe, safe_ret; exact I.
Qed.

Lemma device_checkBlocklist_safe fp :
  safe X anyWorld (DeviceAnalyzer.checkBlocklist X e fp) (fun _ => True).
Proof.
  unfold DeviceAnalyzer.checkBlocklist.
  apply safe_tryCatch; [apply invariant_True | | apply safe_ret; exact I].
  eapply guarded_bind with (R := fun _ => True);
    [apply invariant_True | apply guarded_of_safe, isInBlocklist_safe | intros c _].
  destruct (match c with Some b => entry_isActive b | None => false end);
    [apply guarded_of_safe, safe_ret; exact I|].
  eapply guarded_bind with (R := fun _ => True);
    [apply invariant_True | eapply guarded_weaken; [apply findOne_guarded | auto] | intros found _].
  destruct found as [row|]; [|apply guarded_of_safe, safe_ret; exact I].
  eapply guarded_bind with (R := fun _ => True);
    [apply invariant_True | apply recordMatch_guarded | intros _ _].
  eapply guarded_bind with (R := fun _ => True); [apply invariant_True | |].
  - apply guarded_of_safe, addToBlocklistCache_safe. reflexivity.
  - intros _ _. apply guarded_of_safe, safe_ret. exact I.
Qed.

Lemma checkNewDevice_guarded fp k :
  guarded X anyWorld (DeviceAnalyzer.checkNewDevice fp k) rule_ok.
Proof.
  unfold DeviceAnalyzer.checkNewDevice.
  destruct (negb (DeviceAnalyzer.truthyOpt fp));
    [apply guarded_of_safe, safe_ret, notDetected_ok|].
  eapply guarded_bind with (R := fun _ => True);
    [apply invariant_True | apply includes_guarded | intros isKnown _].
  eapply guarded_bind with (R := fun _ => True);
    [apply invariant_True | apply lengthOf_guarded | intros n _].
  apply guarded_of_safe.
  destruct (negb isKnown && (n >? 0)%Z)%bool; [apply safe_ret, hit_ok; lra|].
  destruct (negb isKnown && (n =? 0)%Z)%bool; [apply safe_ret, hit_ok; lra|].
  apply safe_ret, notDetected_ok.
Qed.

Lemma checkDevicePattern_guarded fp k h :
  guarded X anyWorld (DeviceAnalyzer.checkDevicePattern fp k h) rule_ok.
Proof.
  unfold DeviceAnalyzer.checkDevicePattern.
  destruct (_ || _)%bool; [apply guarded_of_safe, safe_ret, notDetected_ok|].
  eapply guarded_bind with (R := fun _ => True);
    [apply invariant_True | apply lengthOf_guarded | intros n _].
  destruct (n <=? 2)%Z; [|apply guarded_of_safe, safe_ret, notDetected_ok].
  eapply guarded_bind with (R := fun _ => True);
    [apply invariant_True | apply totalTransactionsOf_guarded | intros total _].
  destruct (total >=? 50)%Z; [|apply guarded_of_safe, safe_ret, notDetected_ok].
  eapply guarded_bind with (R := fun _ => True);
    [apply invariant_True | apply includes_guarded | intros isKnown _].
  apply guarded_of_safe.
  destruct (negb isKnown); [apply safe_ret, hit_ok; lra | apply safe_ret, notDetected_ok].
Qed.

Lemma analyzeUserAgent_ok ua : rule_ok (DeviceAnalyzer.analyzeUserAgent X ua).
Proof. unfold DeviceAnalyzer.analyzeUserAgent. cbv zeta. rule_cases. Qed.

Lemma checkProxyIndicators_ok ua : rule_ok (DeviceAnalyzer.checkProxyIndicators ua).
Proof. unfold DeviceAnalyzer.checkProxyIndicators. cbv zeta. rule_cases. Qed.

Lemma checkFingerprintQuality_ok fp : rule_ok (DeviceAnalyzer.checkFingerprintQuality fp).
Proof. unfold DeviceAnalyzer.checkFingerprintQuality. cbv zeta. rule_cases. Qed.

Lemma scoreDevice_guarded u fp ua k h :
  guarded X anyWorld (DeviceAnalyzer.scoreDevice cfg X u fp ua k h) (factor_sound cfg).
Proof.
  unfold DeviceAnalyzer.scoreDevice. cbv zeta.
  eapply guarded_bind; [apply invariant_True | apply checkNewDevice_guarded | intros r1 Hr1].
  eapply guarded_bind with (R := fun _ => True); [apply invariant_True | |].
  { apply guarded_of_safe.
    destruct (DeviceAnalyzer.truthyOpt fp); [|apply safe_ret; exact I].
    eapply safe_bind with (R := fun _ => True);
      [apply invariant_True | apply getDeviceInfo_safe | intros cached _].
    destruct cached; [apply safe_ret; exact I|].
    eapply safe_bind with (R := fun _ => True);
      [apply invariant_True | apply setDeviceInfo_safe | intros _ _].
    apply safe_ret. exact I. }
  intros deviceInfo _.
  eapply guarded_bind; [apply invariant_True | apply checkDevicePattern_guarded | intros r2 Hr2].
  eapply guarded_bind with (R := fun _ => True);
    [apply invariant_True | apply lengthOf_guarded | intros _ _].
  apply guarded_of_safe, safe_ret. intros Hwf. apply factor_ok_product; [|apply Hwf].
  apply min_nonneg; [|lra].
  assert (Htrust : 0 <= match deviceInfo with
                        | Some info => if trustScore info <? 0.5
                                       then addIfDetected 0 r1 + (1 - trustScore info) * 0.15
                                       else addIfDetected 0 r1
                        | None => addIfDetected 0 r1
                        end).
  { pose proof (addIfDetected_nonneg 0 r1 (Qle_refl 0) Hr1) as H0.
    destruct deviceInfo as [info|]; [|exact H0].
    destruct (trustScore info <? 0.5) eqn:E; [|exact H0].
    apply ltb_true in E. lra. }
  destruct (DeviceAnalyzer.truthyOpt fp), (DeviceAnalyzer.truthyOpt ua);
    repeat apply addIfDetected_nonneg;
    auto using analyzeUserAgent_ok, checkProxyIndicators_ok, checkFingerprintQuality_ok.
Qed.

Lemma device_blocked_ok : factor_sound cfg (DeviceAnalyzer.blocked cfg).
Proof.
  intros Hwf. unfold factor_ok, productForm, shortCircuit. simpl.
  split; [lra|]. split; [apply Hwf|]. split; [lra|].
  right. repeat split; auto; lra.
Qed.

Lemma device_safe u t fp ua k h :
  safe X anyWorld (DeviceAnalyzer.analyze cfg X e u t fp ua k h) (factor_sound cfg).
Proof.
  unfold DeviceAnalyzer.analyze.
  apply safe_tryCatch; [apply invariant_True | |].
  - destruct (negb (DeviceAnalyzer.truthyOpt fp) && negb (DeviceAnalyzer.truthyOpt ua))%bool.
    + apply guarded_of_safe, safe_ret. intros Hwf. unfold DeviceAnalyzer.noDeviceInformation.
      apply factor_ok_product; [lra | apply Hwf].
    + eapply guarded_bind with (R := fun _ => True); [apply invariant_True | |].
      * apply guarded_of_safe. destruct (DeviceAnalyzer.truthyOpt fp).
        -- apply device_checkBlocklist_safe.
        -- apply safe_ret. exact I.
      * intros b _. destruct b.
        -- apply guarded_of_safe, safe_ret, device_blocked_ok.
        -- apply scoreDevice_guarded.
  - apply safe_ret. intros Hwf. apply factor_ok_unavailable. apply Hwf.
Qed.

(** *** The model *)

Lemma ruleBased_score_bounds features :
  0 <= fst (RuleBasedModel.predict features) <= 0.95.
Proof.
  unfold RuleBasedModel.predict. cbv zeta. simpl fst.
  split; [|apply Q.le_min_r].
  apply min_nonneg; [|lra].
  destruct (RuleBasedModel.feature features 23 >? 0) eqn:E23.
  - apply gtb_true in E23.
    assert (Hm : 0 <= Js.min (RuleBasedModel.feature features 23) 3)
      by (apply min_nonneg; lra).
    revert Hm. generalize (Js.min (RuleBasedModel.feature features 23) 3). intros m Hm.
    repeat match goal with |- context [if ?c then _ else _] => destruct c end; lra.
  - repeat match goal with |- context [if ?c then _ else _] => destruct c end; lra.
Qed.

Lemma predict_guarded t features :
  guarded X anyWorld (MLModelService.predict t features)
    (fun p => 0 <= prediction_score p).
Proof.
  unfold MLModelService.predict. apply guarded_get. intros w0.
  destruct (negb (isLoaded w0)); [apply guarded_throw|].
  apply guarded_of_safe. apply safe_tryCatch; [apply invariant_True | |].
  - apply guarded_of_safe, safe_ret. simpl. apply ruleBased_score_bounds.
  - apply safe_ret. simpl. lra.
Qed.

Lemma modelFactor_ok p :
  0 <= prediction_score p -> factor_ok (FraudDetectionService.modelFactor p).
Proof.
  intros Hp. unfold FraudDetectionService.modelFactor. apply factor_ok_product; [assumption | lra].
Qed.

End DeviceRules.

(** ** The orchestrator *)

Section Orchestrator.
Variable cfg : Config.
Variable X : Externals.
Variable e : Env.

Lemma safe_tryCatch_total {A} P (body handler : M A) (Q : A -> Prop) :
  safe X P body Q -> safe X P (tryCatch body handler) Q.
Proof.
  intros Hb w Hw. destruct (Hb w Hw) as (a & w' & E & S & Ha).
  exists a, w'. rewrite (tryCatch_returned _ _ _ _ _ E). auto.
Qed.

Lemma safeAnalyze_safe P (analyzerCall : M RiskFactor) name (Q : RiskFactor -> Prop) :
  invariant X P -> safe X P analyzerCall Q ->
  safe X P (FraudDetectionService.safeAnalyze analyzerCall name)
    (fun o => exists f, o = Some f /\ Q f).
Proof.
  intros HP Hm. unfold FraudDetectionService.safeAnalyze.
  apply safe_tryCatch_total.
  eapply safe_bind; [assumption | exact Hm | intros f Hf].
  apply safe_ret. eauto.
Qed.

Lemma safeAnalyze_returned (m : M RiskFactor) name w f w' :
  m w = (Returned f, w') ->
  FraudDetectionService.safeAnalyze m name w = (Returned (Some f), w').
Proof.
  intros E. unfold FraudDetectionService.safeAnalyze. apply tryCatch_returned.
  rewrite (bind_returned _ _ _ _ _ E). reflexivity.
Qed.

Lemma loadModel_loads w :
  exists w', MLModelService.loadModel cfg X w = (Returned tt, w')
             /\ isLoaded w' = true /\ stable X w w'.
Proof.
  destruct (loadModel_safe X cfg w I) as ([] & w' & E & S & _).
  exists w'. split; [assumption|]. split; [|assumption].
  revert E. unfold MLModelService.loadModel, tryCatch, bind, modify, throw, ret.
  repeat match goal with
         | |- context [if ?c then _ else _] => destruct c; simpl
         end;
    intros E; inversion E; reflexivity.
Qed.

Lemma predict_run t features w :
  isLoaded w = true ->
  exists p, MLModelService.predict t features w = (Returned p, w) /\ 0 <= prediction_score p.
Proof.
  intros Hl. unfold MLModelService.predict, bind, get, tryCatch, ret. rewrite Hl. simpl.
  eexists. split; [reflexivity|]. simpl. apply ruleBased_score_bounds.
Qed.

(** Making sure the model is loaded and asking it for a prediction
    always yields one. *)
Lemma prediction_safe {B} P t features (k : Prediction -> M B) (Q : B -> Prop) :
  invariant X P ->
  (forall p, 0 <= prediction_score p -> safe X P (k p) Q) ->
  safe X P
    (bind MLModelService.isModelReady
       (fun ready =>
          bind (if negb ready then MLModelService.loadModel cfg X else ret tt)
               (fun _ => bind (MLModelService.predict t features) k)))
    Q.
Proof.
  intros HP Hk w Hw.
  assert (Hready : forall K : bool -> M B,
             bind MLModelService.isModelReady K w = K (isLoaded w) w) by reflexivity.
  rewrite Hready. destruct (isLoaded w) eqn:Hl; simpl.
  - destruct (predict_run t features w Hl) as (p & Ep & Hp).
    destruct (Hk p Hp w Hw) as (b & w' & Eb & Sb & Hb).
    exists b, w'. unfold bind at 1. unfold ret at 1.
    rewrite (bind_returned _ _ _ _ _ Ep). auto.
  - destruct (loadModel_loads w) as (w1 & E1 & Hl1 & S1).
    destruct (predict_run t features w1 Hl1) as (p & Ep & Hp).
    destruct (Hk p Hp w1 (HP _ _ S1 Hw)) as (b & w' & Eb & Sb & Hb).
    exists b, w'. rewrite (bind_returned _ _ _ _ _ E1), (bind_returned _ _ _ _ _ Ep).
    eauto using stable_trans.
Qed.

(** The scoring steps always produce an analysis: the aggregate of the
    six analyzer factors, in the order of the array, followed by the
    model's factor.  [Rq] is what is known of the recipient factor. *)
Lemma analyzeTransaction_safe P (Rq : RiskFactor -> Prop) transaction correlationId :
  invariant X P ->
  (forall h, safe X P
     (RecipientAnalyzer.analyze cfg X e (payload_userId transaction)
        (payload_transactionId transaction) (recipientId transaction)
        (destinationAccountId transaction) h [])
     (fun f => factor_sound cfg f /\ Rq f)) ->
  safe X P (FraudDetectionService.analyzeTransaction cfg X e transaction correlationId)
    (fun r => exists factors version,
         r = FraudDetectionService.calculateFinalDecision cfg (analysisId e) transaction
               factors version correlationId
         /\ Forall (factor_sound cfg) factors
         /\ length factors = 7%nat
         /\ exists f, In f factors /\ Rq f).
Proof.
  intros HP Hrecipient. unfold FraudDetectionService.analyzeTransaction.
  eapply safe_bind with (R := fun _ => True);
    [assumption | apply safe_from_True, getUserHistory_safe | intros h _].
  cbv zeta.
  eapply safe_bind;
    [assumption
    | apply safeAnalyze_safe; [assumption | apply safe_from_True, amount_safe]
    | intros o1 (f1 & -> & H1)].
  eapply safe_bind;
    [assumption
    | apply safeAnalyze_safe; [assumption | apply safe_from_True, velocity_safe]
    | intros o2 (f2 & -> & H2)].
  eapply safe_bind;
    [assumption
    | apply safeAnalyze_safe; [assumption | apply safe_from_True, device_safe]
    | intros o3 (f3 & -> & H3)].
  eapply safe_bind;
    [assumption
    | apply safeAnalyze_safe; [assumption | apply safe_from_True, geographic_safe]
    | intros o4 (f4 & -> & H4)].
  eapply safe_bind;
    [assumption
    | apply safeAnalyze_safe; [assumption | apply Hrecipient]
    | intros o5 (f5 & -> & H5 & Hq)].
  eapply safe_bind;
    [assumption
    | apply safeAnalyze_safe; [assumption | apply safe_from_True, time_safe]
    | intros o6 (f6 & -> & H6)].
  apply prediction_safe; [assumption|]. intros p Hp.
  apply safe_ret. simpl.
  eexists _, _. split; [reflexivity|]. split; [|split; [reflexivity|]].
  - repeat (apply List.Forall_cons; [assumption|]).
    apply List.Forall_cons; [intros _; apply modelFactor_ok; assumption | apply List.Forall_nil].
  - exists f5. split; [|assumption]. simpl. auto 10.
Qed.

End Orchestrator.

(** ** Which scores are numbers *)

Section Numbers.
Variable cfg : Config.
Variable X : Externals.
Variable e : Env.

Local Abbreviation isNumber := (fun f : RiskFactor => scoreIsNaN f = false).

Lemma amount_number u t a c h :
  safe X anyWorld (AmountAnalyzer.analyze cfg e u t a c h) isNumber.
Proof.
  unfold AmountAnalyzer.analyze. apply safe_tryCatch; [apply invariant_True | |].
  - apply guarded_of_safe, safe_ret. reflexivity.
  - apply safe_ret. reflexivity.
Qed.

Lemma time_number u t ts h ph pd :
  safe X anyWorld (TimeAnalyzer.analyze cfg X e u t ts h ph pd) isNumber.
Proof.
  unfold TimeAnalyzer.analyze. apply safe_tryCatch; [apply invariant_True | |].
  - apply guarded_of_safe, safe_ret. reflexivity.
  - apply safe_ret. reflexivity.
Qed.

Lemma windowIsNaN_positive count max :
  (0 < max)%Z -> VelocityAnalyzer.windowIsNaN count max = false.
Proof.
  intros Hmax. unfold VelocityAnalyzer.windowIsNaN, VelocityAnalyzer.severityIsNaN.
  destruct (max =? 0)%Z eqn:E; [lia|]. apply andb_false_r.
Qed.

(** Under positive limits no severity is NaN. *)
Lemma velocity_number u t a r :
  (0 < maxTransfersPerFiveMin cfg)%Z -> (0 < maxTransfersPerHour cfg)%Z ->
  (0 < maxTransfersPerDay cfg)%Z ->
  safe X anyWorld (VelocityAnalyzer.analyze cfg u t a r) isNumber.
Proof.
  intros H5 H1 H24.
  unfold VelocityAnalyzer.analyze. apply safe_tryCatch; [apply invariant_True | |].
  - apply guarded_of_safe.
    eapply safe_bind with (R := fun _ => True); [apply invariant_True | |].
    + unfold VelocityAnalyzer.getVelocityData.
      repeat (eapply safe_bind; [apply invariant_True | apply getVelocity_safe | intros ? _]).
      apply safe_ret. exact I.
    + intros vd _.
      eapply safe_bind with (R := fun _ => True); [apply invariant_True | |].
      * unfold VelocityAnalyzer.incrementVelocity.
        repeat (eapply safe_bind; [apply invariant_True | apply incrementVelocity_safe | intros ? _]).
        apply safe_ret. exact I.
      * intros _ _. apply safe_ret. cbn [scoreIsNaN].
        unfold VelocityAnalyzer.scoreUndefined.
        rewrite !windowIsNaN_positive by assumption. reflexivity.
  - apply safe_ret. reflexivity.
Qed.

Lemma recipient_number u t r a h k :
  safe X anyWorld (RecipientAnalyzer.analyze cfg X e u t r a h k) isNumber.
Proof.
  unfold RecipientAnalyzer.analyze.
  apply safe_tryCatch; [apply invariant_True | |].
  - apply guarded_of_safe.
    eapply safe_bind with (R := fun _ => True);
      [apply invariant_True | apply recipient_checkBlocklist_safe | intros b _].
    destruct b; [apply safe_ret; reflexivity|].
    eapply safe_bind with (R := fun _ => True);
      [apply invariant_True | apply getRecipientInfo_safe | intros cached _].
    eapply safe_bind with (R := fun _ => True); [apply invariant_True | |].
    + destruct cached as [info|]; [apply safe_ret; exact I|].
      eapply safe_bind with (R := fun _ => True); [apply invariant_True | |].
      * destruct (RecipientAnalyzer.computeRecipientInfo cfg r h);
          [apply setRecipientInfo_safe | apply safe_ret; exact I].
      * intros _ _. apply safe_ret. exact I.
    + intros info _. apply safe_ret. reflexivity.
  - apply safe_ret. reflexivity.
Qed.

Lemma scoreDevice_number u fp ua k h :
  guarded X anyWorld (DeviceAnalyzer.scoreDevice cfg X u fp ua k h) isNumber.
Proof.
  unfold DeviceAnalyzer.scoreDevice. cbv zeta.
  eapply guarded_bind with (R := fun _ => True);
    [apply invariant_True
    | eapply guarded_weaken; [apply checkNewDevice_guarded | auto]
    | intros r1 _].
  eapply guarded_bind with (R := fun _ => True); [apply invariant_True | |].
  { apply guarded_of_safe.
    destruct (DeviceAnalyzer.truthyOpt fp); [|apply safe_ret; exact I].
    eapply safe_bind with (R := fun _ => True);
      [apply invariant_True | apply getDeviceInfo_safe | intros cached _].
    destruct cached; [apply safe_ret; exact I|].
    eapply safe_bind with (R := fun _ => True);
      [apply invariant_True | apply setDeviceInfo_safe | intros _ _].
    apply safe_ret. exact I. }
  intros deviceInfo _.
  eapply guarded_bind with (R := fun _ => True);
    [apply invariant_True
    | eapply guarded_weaken; [apply checkDevicePattern_guarded | auto]
    | intros r2 _].
  eapply guarded_bind with (R := fun _ => True);
    [apply invariant_True | apply lengthOf_guarded | intros _ _].
  apply guarded_of_safe, safe_ret. reflexivity.
Qed.

Lemma device_number u t fp ua k h :
  safe X anyWorld (DeviceAnalyzer.analyze cfg X e u t fp ua k h) isNumber.
Proof.
  unfold DeviceAnalyzer.analyze.
  apply safe_tryCatch; [apply invariant_True | |].
  - destruct (negb (DeviceAnalyzer.truthyOpt fp) && negb (DeviceAnalyzer.truthyOpt ua))%bool.
    + apply guarded_of_safe, safe_ret. reflexivity.
    + eapply guarded_bind with (R := fun _ => True); [apply invariant_True | |].
      * apply guarded_of_safe. destruct (DeviceAnalyzer.truthyOpt fp).
        -- apply device_checkBlocklist_safe.
        -- apply safe_ret. exact I.
      * intros b _. destruct b.
        -- apply guarded_of_safe, safe_ret. reflexivity.
        -- apply scoreDevice_number.
  - apply safe_ret. reflexivity.
Qed.

(** The geographic score is NaN exactly when the high-risk lookup finds
    an inherited member. *)
Lemma geographic_flag u t l h k :
  safe X anyWorld (GeographicAnalyzer.analyze cfg e u t l h k)
    (fun f => scoreIsNaN f = GeographicAnalyzer.scoreUndefined l /\ method f = GEOGRAPHIC).
Proof.
  unfold GeographicAnalyzer.analyze. apply (safe_tryCatch_total X).
  cbv zeta. apply safe_ret. split; reflexivity.
Qed.

Lemma lookupHighRisk_inherited c :
  Js.inherited c = true ->
  Js.truthy c = true /\ GeographicAnalyzer.lookupHighRisk c = GeographicAnalyzer.InheritedMember.
Proof.
  unfold Js.inherited, Js.arrayIncludes, Js.objectPrototypeKeys. cbn [existsb].
  intros H.
  repeat (apply orb_true_iff in H; destruct H as [H|H];
          [apply String.eqb_eq in H; subst c; vm_compute; split; reflexivity|]).
  discriminate.
Qed.

Lemma scoreUndefined_inheritedCountry transaction :
  GeographicAnalyzer.scoreUndefined (FraudDetectionService.currentLocationOf transaction)
  = inheritedCountry transaction.
Proof.
  unfold GeographicAnalyzer.scoreUndefined, inheritedCountry,
    FraudDetectionService.currentLocationOf, FraudDetectionService.stringOrNull.
  cbn [country].
  destruct (geographic transaction ≫= geo_country) as [c|]; [|reflexivity].
  destruct (Js.inherited c) eqn:Hi.
  - destruct (lookupHighRisk_inherited c Hi) as [Ht Hl]. rewrite Ht, Ht, Hl. reflexivity.
  - assert (Hl : match GeographicAnalyzer.lookupHighRisk c with
                 | GeographicAnalyzer.InheritedMember => true
                 | _ => false
                 end = false).
    { unfold GeographicAnalyzer.lookupHighRisk. destruct (List.find _ _); [reflexivity|].
      rewrite Hi. reflexivity. }
    destruct (Js.truthy c); [|reflexivity]. rewrite Hl. apply andb_false_r.
Qed.

Lemma safe_result {A} (m : M A) (Q : A -> Prop) w a w' :
  safe X anyWorld m Q -> m w = (Returned a, w') -> Q a.
Proof.
  intros Hm E. destruct (Hm w I) as (a' & w'' & E' & _ & Ha).
  rewrite E in E'. inversion E'; subst. exact Ha.
Qed.

(** The orchestrator always collects its seven factors, and aggregates
    them. *)
Lemma analyzeTransaction_collected transaction correlationId w :
  exists factors mlResult w',
    collected cfg X e transaction w factors mlResult w'
    /\ FraudDetectionService.analyzeTransaction cfg X e transaction correlationId w
       = (Returned (FraudDetectionService.calculateFinalDecision cfg (analysisId e) transaction
                      factors
                      (if Js.truthy (prediction_modelVersion mlResult)
                       then prediction_modelVersion mlResult else "unknown")
                      correlationId), w').
Proof.
  destruct (getUserHistory_safe X (payload_userId transaction) w I) as (h & w0 & E0 & _).
  destruct (amount_safe cfg X e (payload_userId transaction) (payload_transactionId transaction)
              (amount transaction) (currency transaction) h w0 I) as (f1 & w1 & E1 & _).
  destruct (velocity_safe cfg X (payload_userId transaction) (payload_transactionId transaction)
              (amount transaction) (recipientId transaction) w1 I) as (f2 & w2 & E2 & _).
  destruct (device_safe cfg X e (payload_userId transaction) (payload_transactionId transaction)
              (option_map fingerprint (device transaction))
              (device transaction ≫= userAgent)
              (match device transaction ≫= deviceId with
               | Some deviceId => DevicesString deviceId
               | None => DevicesUndefined
               end) HistoryArray w2 I) as (f3 & w3 & E3 & _).
  destruct (geographic_safe cfg X e (payload_userId transaction)
              (payload_transactionId transaction)
              (FraudDetectionService.currentLocationOf transaction) h [] w3 I)
    as (f4 & w4 & E4 & _).
  destruct (recipient_safe cfg X e (payload_userId transaction)
              (payload_transactionId transaction) (recipientId transaction)
              (destinationAccountId transaction) h [] w4 I) as (f5 & w5 & E5 & _).
  destruct (time_safe cfg X e (payload_userId transaction) (payload_transactionId transaction)
              (timestamp transaction) h (TimeAnalyzer.buildPreferredHours X h)
              (TimeAnalyzer.buildPreferredDays X h) w5 I) as (f6 & w6 & E6 & _).
  assert (Hmodel : exists w7, (if isLoaded w6 then ret tt else MLModelService.loadModel cfg X) w6
                              = (Returned tt, w7) /\ isLoaded w7 = true).
  { destruct (isLoaded w6) eqn:Hl.
    - exists w6. split; [reflexivity | exact Hl].
    - destruct (loadModel_loads cfg X w6) as (w7 & E7 & Hl7 & _). eauto. }
  destruct Hmodel as (w7 & E7 & Hl7).
  destruct (predict_run (payload_transactionId transaction)
              (FraudDetectionService.constructMLFeatures X transaction [f1; f2; f3; f4; f5; f6] h)
              w7 Hl7) as (p & E8 & _).
  exists [f1; f2; f3; f4; f5; f6; FraudDetectionService.modelFactor p], p, w7.
  split; [econstructor; eassumption|].
  unfold FraudDetectionService.analyzeTransaction.
  rewrite (bind_returned _ _ _ _ _ E0). cbv zeta.
  rewrite (bind_returned _ _ _ _ _ (safeAnalyze_returned _ _ _ _ _ E1)),
    (bind_returned _ _ _ _ _ (safeAnalyze_returned _ _ _ _ _ E2)),
    (bind_returned _ _ _ _ _ (safeAnalyze_returned _ _ _ _ _ E3)),
    (bind_returned _ _ _ _ _ (safeAnalyze_returned _ _ _ _ _ E4)),
    (bind_returned _ _ _ _ _ (safeAnalyze_returned _ _ _ _ _ E5)),
    (bind_returned _ _ _ _ _ (safeAnalyze_returned _ _ _ _ _ E6)).
  assert (Hready : MLModelService.isModelReady w6 = (Returned (isLoaded w6), w6)) by reflexivity.
  rewrite (bind_returned _ _ _ _ _ Hready).
  assert (E7' : (if negb (isLoaded w6) then MLModelService.loadModel cfg X else ret tt) w6
                = (Returned tt, w7)) by (destruct (isLoaded w6); exact E7).
  rewrite (bind_returned _ _ _ _ _ E7').
  cbn [omap]. cbv beta iota.
  rewrite (bind_returned _ _ _ _ _ E8). reflexivity.
Qed.

(** The geographic factor among the collected ones has a score that is
    NaN exactly when the transaction reports an inherited name as its
    country. *)
Lemma collected_geographic transaction w factors mlResult w' :
  collected cfg X e transaction w factors mlResult w' ->
  exists f, In f factors /\ method f = GEOGRAPHIC
            /\ scoreIsNaN f = inheritedCountry transaction.
Proof.
  intros Hc.
  destruct Hc as [h w0 f1 w1 f2 w2 f3 w3 f4 w4 f5 w5 f6 w6 w7 p w8 E0 E1 E2 E3 E4 E5 E6 E7 E8].
  pose proof (safe_result _ _ _ _ _ (geographic_flag _ _ _ _ _) E4) as [N4 M4].
  cbv beta in *. rewrite scoreUndefined_inheritedCountry in N4.
  exists f4. split; [simpl; auto 10 | split; assumption].
Qed.


End Numbers.

Section Pipeline.
Variable cfg : Config.
Variable X : Externals.
Variable e : Env.

Lemma getCachedAnalysis_run t w :
  CacheService.getCachedAnalysis t w
  = (Returned (if redisConnected w then analysisKeys w !! t else None), w).
Proof.
  unfold CacheService.getCachedAnalysis, bind, get, ret. destruct (redisConnected w); reflexivity.
Qed.

Lemma saveAnalysis_run r w :
  exists w', FraudDetectionService.saveAnalysis X r w = (Returned tt, w')
             /\ sent w' = sent w /\ producerConnected w' = producerConnected w
             /\ redisConnected w' = redisConnected w /\ analysisKeys w' = analysisKeys w.
Proof.
  unfold FraudDetectionService.saveAnalysis, tryCatch, FraudAnalysisModel.create,
    bind, get, throw, ret, modify.
  repeat match goal with
         | |- context [if ?c then _ else _] => destruct c; simpl
         end; eauto 10.
Qed.

Lemma calculateFinalDecision_coherent a t factors v c :
  coherent (FraudDetectionService.calculateFinalDecision cfg a t factors v c).
Proof.
  unfold coherent, FraudDetectionService.calculateFinalDecision. simpl.
  destruct (negb _); simpl; [|reflexivity].
  destruct (_ >=? rejectMin cfg); [discriminate|].
  destruct (_ >=? suspiciousMin cfg); [discriminate | reflexivity].
Qed.

Lemma publishResult_run r c w :
  coherent r ->
  exists w', FraudDetectionService.publishResult e r c w = (Returned tt, w')
             /\ sent w' = (sent w ++ (if producerConnected w then outbound e r c else []))%list
             /\ redisConnected w' = redisConnected w /\ analysisKeys w' = analysisKeys w.
Proof.
  intros Hc. unfold coherent in Hc.
  unfold FraudDetectionService.publishResult, outbound,
    EventPublisher.publishFraudSuspected, EventPublisher.publishManualReviewRequired,
    EventPublisher.publishAnalysisComplete, EventPublisher.publish.
  destruct (decision r); simpl.
  - rewrite (Hc eq_refl). unfold bind, get, ret, modify.
    destruct (producerConnected w); simpl;
      (eexists; split; [reflexivity|]; simpl; repeat split; rewrite ?app_nil_r; reflexivity).
  - unfold bind, get, ret, modify.
    destruct (producerConnected w) eqn:Hp; simpl; rewrite ?Hp; simpl;
      (eexists; split; [reflexivity|]; simpl; repeat split;
       rewrite ?app_nil_r, <- ?app_assoc; reflexivity).
  - unfold bind, get, ret, modify.
    destruct (producerConnected w); simpl;
      (eexists; split; [reflexivity|]; simpl; repeat split; rewrite ?app_nil_r; reflexivity).
Qed.

Lemma cacheAnalysis_run t m w :
  exists w', CacheService.cacheAnalysis t m w = (Returned tt, w')
             /\ sent w' = sent w /\ redisConnected w' = redisConnected w
             /\ (redisConnected w = true -> analysisKeys w' !! t = Some m).
Proof.
  unfold CacheService.cacheAnalysis, bind, get, ret, modify.
  destruct (redisConnected w) eqn:Hr; simpl;
    (eexists; split; [reflexivity|]; simpl; rewrite ?Hr;
     split; [reflexivity|]; split; [reflexivity|]).
  - intros _. apply lookup_insert_eq.
  - discriminate.
Qed.

(** A redelivered event is answered from the marker: nothing runs and
    the state is untouched. *)
Lemma processTransaction_marked event w :
  marked w (payload_transactionId (payload event)) ->
  FraudDetectionService.processTransaction cfg X e event w = (Returned None, w).
Proof.
  intros (Hr & m & Hm). unfold FraudDetectionService.processTransaction.
  apply tryCatch_returned.
  rewrite (bind_returned _ _ _ _ _ (getCachedAnalysis_run _ w)).
  rewrite Hr, Hm. reflexivity.
Qed.

(** An event without a visible marker is analysed, persisted, published
    and marked. *)
Lemma processTransaction_unmarked P (Rq : RiskFactor -> Prop) event w :
  invariant X P ->
  (forall h, safe X P
     (RecipientAnalyzer.analyze cfg X e (payload_userId (payload event))
        (payload_transactionId (payload event)) (recipientId (payload event))
        (destinationAccountId (payload event)) h [])
     (fun f => factor_sound cfg f /\ Rq f)) ->
  P w ->
  unmarked w (payload_transactionId (payload event)) ->
  exists factors version w',
    let r := FraudDetectionService.calculateFinalDecision cfg (analysisId e) (payload event)
               factors version (correlationId event) in
    FraudDetectionService.processTransaction cfg X e event w
    = (Returned (Some (FraudDetectionService.withAnalysisTime r (finishedAt e - now e)%Z)), w')
    /\ Forall (factor_sound cfg) factors
    /\ length factors = 7%nat
    /\ (exists f, In f factors /\ Rq f)
    /\ sent w' = (sent w ++ (if producerConnected w then outbound e r (correlationId event)
                             else []))%list
    /\ redisConnected w' = redisConnected w
    /\ (redisConnected w = true -> marked w' (payload_transactionId (payload event))).
Proof.
  intros HP Hrecipient Hw Hfresh.
  destruct (analyzeTransaction_safe cfg X e P Rq (payload event) (correlationId event)
              HP Hrecipient w Hw)
    as (r & w1 & E1 & S1 & factors & version & -> & Hall & Hlen & Hq).
  destruct (saveAnalysis_run
              (FraudDetectionService.calculateFinalDecision cfg (analysisId e) (payload event)
                 factors version (correlationId event)) w1)
    as (w2 & E2 & Hs2 & Hp2 & Hr2 & Ha2).
  destruct (publishResult_run _ (correlationId event) w2
              (calculateFinalDecision_coherent (analysisId e) (payload event) factors version
                 (correlationId event)))
    as (w3 & E3 & Hs3 & Hr3 & Ha3).
  destruct (cacheAnalysis_run (payload_transactionId (payload event))
              {| cached_decision :=
                   decision (FraudDetectionService.calculateFinalDecision cfg (analysisId e)
                               (payload event) factors version (correlationId event));
                 cached_score :=
                   finalScore (FraudDetectionService.calculateFinalDecision cfg (analysisId e)
                                 (payload event) factors version (correlationId event));
                 cached_scoreIsNull :=
                   finalScoreIsNaN (FraudDetectionService.calculateFinalDecision cfg (analysisId e)
                                      (payload event) factors version (correlationId event)) |} w3)
    as (w4 & E4 & Hs4 & Hr4 & Ha4).
  exists factors, version, w4. cbv zeta.
  split; [|split; [assumption|split; [assumption|split; [assumption|]]]].
  - unfold FraudDetectionService.processTransaction. apply tryCatch_returned.
    rewrite (bind_returned _ _ _ _ _ (getCachedAnalysis_run _ w)).
    assert (Hnone : (if redisConnected w
                     then analysisKeys w !! payload_transactionId (payload event)
                     else None) = None)
      by (destruct Hfresh as [-> | ->]; [reflexivity | destruct (redisConnected w); reflexivity]).
    rewrite Hnone.
    rewrite (bind_returned _ _ _ _ _ E1), (bind_returned _ _ _ _ _ E2),
      (bind_returned _ _ _ _ _ E3), (bind_returned _ _ _ _ _ E4).
    reflexivity.
  - destruct S1 as [Sr _ Sp _ _ _ Ss _].
    split; [|split].
    + rewrite Hs4, Hs3, Hs2, Ss, Hp2, Sp. reflexivity.
    + congruence.
    + intros Hc. split; [congruence|]. exists {|
        cached_decision :=
          decision (FraudDetectionService.calculateFinalDecision cfg (analysisId e)
                      (payload event) factors version (correlationId event));
        cached_score :=
          finalScore (FraudDetectionService.calculateFinalDecision cfg (analysisId e)
                        (payload event) factors version (correlationId event));
        cached_scoreIsNull :=
          finalScoreIsNaN (FraudDetectionService.calculateFinalDecision cfg (analysisId e)
                             (payload event) factors version (correlationId event)) |}.
      apply Ha4. congruence.
Qed.

(** Whatever the state, the recipient analyzer returns a sound factor. *)
Lemma recipient_any u t r a :
  forall h, safe X anyWorld (RecipientAnalyzer.analyze cfg X e u t r a h [])
              (fun f => factor_sound cfg f /\ True).
Proof.
  intros h. eapply safe_weaken; [apply recipient_safe | auto].
Qed.

End Pipeline.

Section Results.
Variable cfg : Config.
Variable X : Externals.
Variable e : Env.

Lemma marked_or_unmarked w t : marked w t \/ unmarked w t.
Proof.
  unfold marked, unmarked. destruct (redisConnected w); [|auto].
  destruct (analysisKeys w !! t) as [m|]; eauto.
Qed.

(** Every analysis handed back by a run is the aggregate of seven
    factors, stamped with the elapsed time. *)
Lemma processTransaction_result event w result w' :
  FraudDetectionService.processTransaction cfg X e event w = (Returned (Some result), w') ->
  exists factors version,
    result = FraudDetectionService.withAnalysisTime
               (FraudDetectionService.calculateFinalDecision cfg (analysisId e) (payload event)
                  factors version (correlationId event))
               (finishedAt e - now e)%Z
    /\ length factors = 7%nat.
Proof.
  intros Hrun.
  destruct (marked_or_unmarked w (payload_transactionId (payload event))) as [Hm|Hu].
  - rewrite (processTransaction_marked cfg X e event w Hm) in Hrun. discriminate.
  - destruct (processTransaction_unmarked cfg X e anyWorld (fun _ => True) event w
                (invariant_True X) (recipient_any cfg X e _ _ _ _) I Hu)
      as (factors & version & w1 & E & _ & Hlen & _).
    cbv zeta in E. rewrite E in Hrun. inversion Hrun; subst. eauto.
Qed.

(** Every analysis handed back by a run aggregates the factors the
    orchestrator collected in the state the run started from. *)
Lemma processTransaction_collected event w result w' :
  FraudDetectionService.processTransaction cfg X e event w = (Returned (Some result), w') ->
  exists factors mlResult w1,
    collected cfg X e (payload event) w factors mlResult w1
    /\ result = FraudDetectionService.withAnalysisTime
                  (FraudDetectionService.calculateFinalDecision cfg (analysisId e)
                     (payload event) factors
                     (if Js.truthy (prediction_modelVersion mlResult)
                      then prediction_modelVersion mlResult else "unknown")
                     (correlationId event))
                  (finishedAt e - now e)%Z.
Proof.
  intros Hrun.
  destruct (marked_or_unmarked w (payload_transactionId (payload event))) as [Hm|Hfresh].
  { rewrite (processTransaction_marked cfg X e event w Hm) in Hrun. discriminate. }
  destruct (analyzeTransaction_collected cfg X e (payload event) (correlationId event) w)
    as (factors & p & w1 & Hc & E1).
  set (r := FraudDetectionService.calculateFinalDecision cfg (analysisId e) (payload event)
              factors _ (correlationId event)) in *.
  destruct (saveAnalysis_run X r w1) as (w2 & E2 & _).
  destruct (publishResult_run e r (correlationId event) w2
              (calculateFinalDecision_coherent cfg _ _ _ _ _)) as (w3 & E3 & _).
  destruct (cacheAnalysis_run (payload_transactionId (payload event))
              {| cached_decision := decision r; cached_score := finalScore r;
                 cached_scoreIsNull := finalScoreIsNaN r |} w3) as (w4 & E4 & _).
  exists factors, p, w1. split; [exact Hc|].
  assert (E : FraudDetectionService.processTransaction cfg X e event w
              = (Returned (Some (FraudDetectionService.withAnalysisTime r
                                   (finishedAt e - now e)%Z)), w4)).
  { unfold FraudDetectionService.processTransaction. apply tryCatch_returned.
    rewrite (bind_returned _ _ _ _ _ (getCachedAnalysis_run _ w)).
    assert (Hnone : (if redisConnected w
                     then analysisKeys w !! payload_transactionId (payload event)
                     else None) = None)
      by (destruct Hfresh as [-> | ->]; [reflexivity | destruct (redisConnected w); reflexivity]).
    rewrite Hnone.
    rewrite (bind_returned _ _ _ _ _ E1), (bind_returned _ _ _ _ _ E2),
      (bind_returned _ _ _ _ _ E3), (bind_returned _ _ _ _ _ E4).
    reflexivity. }
  rewrite E in Hrun. inversion Hrun; subst. reflexivity.
Qed.

End Results.

(** ** The model on the repository's own tests and on a busy user *)

(** tests/unit/AmountAnalyzer.test.ts: 600 against an average of 100 is
    detected (ratio, maximum and z-score rules, capped at 0.40). *)
Example test_unusually_large_amount :
  exists f, testAmount 600 (Some testHistory) = Returned f /\ 0 < score f /\ score f == 0.40
            /\ detected (AmountAnalyzer.checkUnusualAmount defaultConfig 600
                           (statistics testHistory)) = true.
Proof. eexists. split; [reflexivity|]. repeat split; vm_compute; reflexivity. Qed.

(** 500 exceeds twice the historical maximum of 200. *)
Example test_exceeds_historical_max :
  exists f, testAmount 500 (Some testHistory) = Returned f /\ 0 < score f
            /\ AmountAnalyzer.checkExceedsMax 500 (statistics testHistory) = hit 0.15.
Proof. eexists. split; [reflexivity|]. repeat split; vm_compute; reflexivity. Qed.

(** 110 is a typical amount: the score is 0. *)
Example test_typical_amount :
  exists f, testAmount 110 (Some testHistory) = Returned f /\ score f == 0.
Proof. eexists. split; [reflexivity|]. vm_compute; reflexivity. Qed.

(** 10000 without history is a perfectly round amount. *)
Example test_round_number :
  exists f, testAmount 10000 None = Returned f /\ 0 < score f
            /\ AmountAnalyzer.checkRoundNumber 10000 = hit 0.05.
Proof. eexists. split; [reflexivity|]. repeat split; vm_compute; reflexivity. Qed.

(** A burst of transfers ends in SUSPICIOUS: the analysis is published on
    [fraudSuspected] and queued for review with priority MEDIUM. *)
Example busy_user_is_suspicious :
  exists result w',
    exampleRun busyWorld = (Returned (Some result), w')
    /\ decision result = SUSPICIOUS /\ requiresManualReview result = true
    /\ List.map (fun m => (topic m, eventType m)) (sent w')
       = [(fraudSuspected, FraudSuspected); (fraudManualReview, ManualReviewRequired)]
    /\ velocityCountKeys w' !! ("user-1", W5m) = Some 7%Z.
Proof.
  destruct (exampleRun busyWorld) as [[[result|]|] w'] eqn:Hrun;
    [|vm_compute in Hrun; discriminate | vm_compute in Hrun; discriminate].
  exists result, w'. split; [reflexivity|].
  vm_compute in Hrun. inversion Hrun; subst; clear Hrun.
  repeat split; vm_compute; reflexivity.
Qed.

(** Without Redis no marker can be kept: the second delivery is analysed
    and published again (the database still refuses the second row). *)
Example redelivery_without_cache_repeats :
  let w1 := snd (storableRun cachelessWorld) in
  let w2 := snd (storableRun w1) in
  length (sent w1) = 1%nat /\ length (sent w2) = 2%nat
  /\ length (fraud_analyses w1) = 1%nat /\ length (fraud_analyses w2) = 1%nat.
Proof. vm_compute. repeat split; reflexivity. Qed.

(** * The claims *)

(** C1. For every processed transaction event, the risk factors of the
    analysis are the collected ones (the results of the six analyzers and
    the factor of the model's prediction), the final risk score is
    min(1, sum of their contributed scores), and the decision is the
    threshold function of that score: below [suspiciousMin] it is APPROVE
    without manual review; from [suspiciousMin] up to, but excluding,
    [rejectMin] it is SUSPICIOUS with manual review; from [rejectMin] on it
    is REJECT with manual review.  The three cases describe a function when
    the thresholds are ordered, [suspiciousMin <= rejectMin], as the defaults
    are.  The sum is NaN exactly when one of its terms is; NaN is in none of
    the three ranges, and the analysis is then an APPROVE without manual
    review. *)
Theorem C1_score_and_decision cfg X e event w result w' :
  suspiciousMin cfg <= rejectMin cfg ->
  FraudDetectionService.processTransaction cfg X e event w = (Returned (Some result), w') ->
  exists factors mlResult w1,
    collected cfg X e (payload event) w factors mlResult w1
    /\ riskFactors result = factors
    /\ (scoreOf result = Js.NaN <-> exists f, In f factors /\ scoreIsNaN f = true)
    /\ (forall s, scoreOf result = Js.Num s ->
          s == Qmin 1 (sumContributed factors)
          /\ (s < suspiciousMin cfg ->
              decision result = APPROVE /\ requiresManualReview result = false)
          /\ (suspiciousMin cfg <= s < rejectMin cfg ->
              decision result = SUSPICIOUS /\ requiresManualReview result = true)
          /\ (rejectMin cfg <= s ->
              decision result = REJECT /\ requiresManualReview result = true))
    /\ (scoreOf result = Js.NaN ->
          decision result = APPROVE /\ requiresManualReview result = false).
Proof.
  intros Hord Hrun.
  destruct (processTransaction_collected cfg X e event w result w' Hrun)
    as (factors & p & w1 & Hc & ->).
  exists factors, p, w1. split; [exact Hc|]. split; [reflexivity|].
  set (v := if Js.truthy (prediction_modelVersion p) then prediction_modelVersion p
            else "unknown").
  pose proof (calculateFinalDecision_score cfg (analysisId e) (payload event) v
                (correlationId event) factors) as Hscore.
  pose proof (calculateFinalDecision_NaN cfg (analysisId e) (payload event) v
                (correlationId event) factors) as HNaN.
  pose proof (calculateFinalDecision_thresholds cfg (analysisId e) (payload event) v
                (correlationId event) factors) as Hcases.
  cbv zeta in Hcases.
  unfold scoreOf.
  change (finalScoreIsNaN (FraudDetectionService.withAnalysisTime _ _))
    with (existsb scoreIsNaN factors).
  destruct (existsb scoreIsNaN factors) eqn:Hnan.
  - split; [|split].
    + split; [intros _ | reflexivity].
      apply existsb_exists in Hnan. exact Hnan.
    + intros s [=].
    + intros _. exact (HNaN eq_refl).
  - split; [|split].
    + split; [intros [=]|]. intros Hex. apply existsb_exists in Hex. congruence.
    + intros s [= <-]. split; [exact Hscore | exact (Hcases eq_refl Hord)].
    + intros [=].
Qed.

Lemma C1_witness :
  suspiciousMin defaultConfig <= rejectMin defaultConfig
  /\ exists result w' factors mlResult w1,
       exampleRun emptyWorld = (Returned (Some result), w')
       /\ collected defaultConfig exampleExternals exampleEnv (payload exampleEvent) emptyWorld
            factors mlResult w1
       /\ riskFactors result = factors
       /\ forall s, scoreOf result = Js.Num s -> s == Qmin 1 (sumContributed factors).
Proof.
  assert (Hord : suspiciousMin defaultConfig <= rejectMin defaultConfig)
    by (vm_compute; discriminate).
  split; [exact Hord|].
  destruct (exampleRun emptyWorld) as [[[result|]|] w'] eqn:Hrun;
    [|vm_compute in Hrun; discriminate | vm_compute in Hrun; discriminate].
  destruct (C1_score_and_decision defaultConfig exampleExternals exampleEnv exampleEvent
              emptyWorld result w' Hord Hrun)
    as (factors & mlResult & w1 & Hc & Hf & _ & Hs & _).
  exists result, w', factors, mlResult, w1.
  split; [reflexivity|]. split; [exact Hc|]. split; [exact Hf|].
  intros s Hscore. exact (proj1 (Hs s Hscore)).
Defined.




(** C3, as the claim states it, fails on a blocklist hit: the rejected
    analysis of the blocklisted recipient below is published as one
    FraudSuspected event; no BlocklistMatch event is sent. *)
Lemma C3_counterexample :
  exists result w',
    exampleRun blockedWorld = (Returned (Some result), w')
    /\ decision result = REJECT
    /\ In (RecipientAnalyzer.blocked defaultConfig) (riskFactors result)
    /\ List.map (fun m => (topic m, eventType m)) (sent w') = [(fraudSuspected, FraudSuspected)]
    /\ forall m, In m (sent w') -> eventType m <> BlocklistMatch.
Proof.
  destruct (exampleRun blockedWorld) as [[[result|]|] w'] eqn:Hrun;
    [|vm_compute in Hrun; discriminate | vm_compute in Hrun; discriminate].
  exists result, w'. split; [reflexivity|].
  vm_compute in Hrun. inversion Hrun; subst; clear Hrun.
  split; [reflexivity|]. split; [simpl; auto 10|]. split; [reflexivity|].
  intros m [<-|[]]. discriminate.
Qed.

(** C3, amended.  For every completed analysis sent through a connected
    producer, the outbound events match the decision: APPROVE publishes
    exactly one FraudAnalysisComplete event on [fraudAnalysis]; SUSPICIOUS
    publishes a FraudSuspected event on [fraudSuspected] and then a
    ManualReviewRequired event on [fraudManualReview] whose priority is HIGH
    when the score exceeds 0.8 and MEDIUM otherwise; REJECT publishes exactly
    one FraudSuspected event on [fraudSuspected], also when a blocklist hit
    caused it.  Every event is keyed by the transaction id. *)
Theorem C3_outbound_events cfg X e event w :
  unmarked w (payload_transactionId (payload event)) ->
  producerConnected w = true ->
  exists result w' published,
    FraudDetectionService.processTransaction cfg X e event w = (Returned (Some result), w')
    /\ sent w' = (sent w ++ published)%list
    /\ Forall (fun m => key m = payload_transactionId (payload event)) published
    /\ match decision result with
       | APPROVE =>
           List.map (fun m => (topic m, eventType m)) published
           = [(fraudAnalysis, FraudAnalysisComplete)]
       | SUSPICIOUS =>
           List.map (fun m => (topic m, eventType m)) published
           = [(fraudSuspected, FraudSuspected); (fraudManualReview, ManualReviewRequired)]
           /\ forall m request,
                In m published -> event_payload m = PayloadReview request ->
                (0.8 < finalScore result -> priority request = PriorityHIGH)
                /\ (finalScore result <= 0.8 -> priority request = PriorityMEDIUM)
       | REJECT =>
           List.map (fun m => (topic m, eventType m)) published
           = [(fraudSuspected, FraudSuspected)]
       end.
Proof.
  intros Hfresh Hproducer.
  destruct (processTransaction_unmarked cfg X e anyWorld (fun _ => True) event w
              (invariant_True X) (recipient_any cfg X e _ _ _ _) I Hfresh)
    as (factors & version & w' & E & _ & _ & _ & Hsent & _).
  cbv zeta in E, Hsent. rewrite Hproducer in Hsent.
  eexists _, w', _. split; [exact E|]. split; [exact Hsent|].
  set (r := FraudDetectionService.calculateFinalDecision cfg (analysisId e) (payload event)
              factors version (correlationId event)).
  assert (Hkey : transactionId r = payload_transactionId (payload event)) by reflexivity.
  change (decision (FraudDetectionService.withAnalysisTime r (finishedAt e - now e)%Z))
    with (decision r).
  change (finalScore (FraudDetectionService.withAnalysisTime r (finishedAt e - now e)%Z))
    with (finalScore r).
  pose proof (calculateFinalDecision_number cfg (analysisId e) (payload event) version
                (correlationId event) factors) as Hnum.
  fold r in Hnum.
  unfold outbound. destruct (decision r) eqn:Hd; simpl.
  - split; [repeat constructor; assumption | reflexivity].
  - assert (Hn : existsb scoreIsNaN factors = false)
      by (apply Hnum; left; discriminate).
    split; [repeat constructor; assumption|]. split; [reflexivity|].
    intros m request [<-|[<-|[]]]; simpl; [discriminate|].
    intros Hp. inversion Hp; subst; clear Hp. simpl. split; intros Hs.
    + apply gtb_true in Hs. rewrite Hn, Hs. reflexivity.
    + apply gtb_false in Hs. rewrite Hn, Hs. reflexivity.
  - split; [repeat constructor; assumption | reflexivity].
Qed.

Lemma C3_witness :
  unmarked emptyWorld (payload_transactionId (payload exampleEvent))
  /\ producerConnected emptyWorld = true
  /\ exists result w' published,
       exampleRun emptyWorld = (Returned (Some result), w')
       /\ sent w' = (sent emptyWorld ++ published)%list
       /\ decision result = APPROVE
       /\ List.map (fun m => (topic m, eventType m)) published
          = [(fraudAnalysis, FraudAnalysisComplete)].
Proof.
  assert (Hfresh : unmarked emptyWorld (payload_transactionId (payload exampleEvent)))
    by (right; vm_compute; reflexivity).
  split; [exact Hfresh|]. split; [reflexivity|].
  destruct (C3_outbound_events defaultConfig exampleExternals exampleEnv exampleEvent emptyWorld
              Hfresh eq_refl) as (result & w' & published & Hrun & Hsent & _ & Hevents).
  exists result, w', published. split; [exact Hrun|]. split; [exact Hsent|].
  assert (Hd : decision result = APPROVE).
  { unfold exampleRun in *. vm_compute in Hrun. inversion Hrun; subst. reflexivity. }
  rewrite Hd in Hevents. split; [exact Hd | exact Hevents].
Defined.

(** C4. For every event whose transactionId already has a cached analysis
    marker, [processTransaction] returns without publishing, without
    inserting an analysis row and without incrementing a velocity counter:
    the whole state is left as it was.  Hence, with the cache connected, a
    first delivery leaves the marker behind and a second delivery of the
    same event (before the marker expires) sends nothing more. *)
Theorem C4_redelivery_is_suppressed cfg X e1 e2 event w :
  redisConnected w = true ->
  (marked w (payload_transactionId (payload event)) ->
   FraudDetectionService.processTransaction cfg X e1 event w = (Returned None, w))
  /\ let w1 := snd (FraudDetectionService.processTransaction cfg X e1 event w) in
     marked w1 (payload_transactionId (payload event))
     /\ FraudDetectionService.processTransaction cfg X e2 event w1 = (Returned None, w1)
     /\ sent (snd (FraudDetectionService.processTransaction cfg X e2 event w1)) = sent w1
     /\ fraud_analyses (snd (FraudDetectionService.processTransaction cfg X e2 event w1))
        = fraud_analyses w1
     /\ velocityCountKeys (snd (FraudDetectionService.processTransaction cfg X e2 event w1))
        = velocityCountKeys w1.
Proof.
  intros Hredis. split; [apply processTransaction_marked|].
  cbv zeta.
  assert (Hmarked : marked (snd (FraudDetectionService.processTransaction cfg X e1 event w))
                      (payload_transactionId (payload event))).
  { destruct (marked_or_unmarked w (payload_transactionId (payload event))) as [Hm|Hu].
    - rewrite (processTransaction_marked cfg X e1 event w Hm). exact Hm.
    - destruct (processTransaction_unmarked cfg X e1 anyWorld (fun _ => True) event w
                  (invariant_True X) (recipient_any cfg X e1 _ _ _ _) I Hu)
        as (factors & version & w' & E & _ & _ & _ & _ & _ & Hm).
      cbv zeta in E. rewrite E. simpl. apply Hm. exact Hredis. }
  split; [exact Hmarked|].
  rewrite (processTransaction_marked cfg X e2 event _ Hmarked). auto.
Qed.

Lemma C4_witness :
  redisConnected emptyWorld = true
  /\ let w1 := snd (exampleRun emptyWorld) in
     sent w1 <> [] /\ exampleRun w1 = (Returned None, w1).
Proof.
  split; [reflexivity|]. cbv zeta. split; [vm_compute; discriminate|].
  exact (proj1 (proj2 (proj2 (C4_redelivery_is_suppressed defaultConfig exampleExternals
                                exampleEnv exampleEnv exampleEvent emptyWorld eq_refl)))).
Defined.

(** C5, as the claim states it, fails: the run below takes 6000 ms against
    a deadline of 5000 ms, and its analysis is COMPLETED, not TIMEOUT. *)
Lemma C5_counterexample :
  exists result w',
    exampleRun emptyWorld = (Returned (Some result), w')
    /\ (processingTimeoutMs defaultConfig < finishedAt exampleEnv - now exampleEnv)%Z
    /\ (processingTimeoutMs defaultConfig < analysisTimeMs result)%Z
    /\ status result <> TIMEOUT.
Proof.
  destruct (exampleRun emptyWorld) as [[[result|]|] w'] eqn:Hrun;
    [|vm_compute in Hrun; discriminate | vm_compute in Hrun; discriminate].
  exists result, w'. split; [reflexivity|].
  vm_compute in Hrun. inversion Hrun; subst; clear Hrun.
  split; [reflexivity|]. split; [reflexivity|]. discriminate.
Qed.

(** C5, amended.  The orchestrator enforces no deadline: whatever time
    elapses between the start and the end of a run, also more than
    [processingTimeoutMs], the analysis it produces has status COMPLETED,
    carries all seven factors with the decision derived from them, records
    the elapsed time, and is published. *)
Theorem C5_no_deadline cfg X e event w :
  unmarked w (payload_transactionId (payload event)) ->
  exists result w',
    FraudDetectionService.processTransaction cfg X e event w = (Returned (Some result), w')
    /\ status result = COMPLETED
    /\ analysisTimeMs result = (finishedAt e - now e)%Z
    /\ length (riskFactors result) = 7%nat
    /\ finalScore result == Qmin 1 (sumContributed (riskFactors result))
    /\ finalScoreIsNaN result = existsb scoreIsNaN (riskFactors result)
    /\ decision result
       = decision (FraudDetectionService.calculateFinalDecision cfg (id result) (payload event)
                     (riskFactors result) (modelVersion result) (correlationId event))
    /\ (producerConnected w = true ->
        exists first rest, sent w' = (sent w ++ first :: rest)%list).
Proof.
  intros Hfresh.
  destruct (processTransaction_unmarked cfg X e anyWorld (fun _ => True) event w
              (invariant_True X) (recipient_any cfg X e _ _ _ _) I Hfresh)
    as (factors & version & w' & E & _ & Hlen & _ & Hsent & _).
  cbv zeta in E, Hsent. eexists _, w'. split; [exact E|]. simpl.
  split; [reflexivity|]. split; [reflexivity|]. split; [exact Hlen|].
  split; [apply (calculateFinalDecision_score cfg (analysisId e) (payload event) version
                    (correlationId event) factors)|].
  split; [reflexivity|]. split; [reflexivity|].
  intros Hp. rewrite Hp in Hsent. rewrite Hsent. unfold outbound.
  destruct (decision _); eauto.
Qed.

Lemma C5_witness :
  unmarked emptyWorld (payload_transactionId (payload exampleEvent))
  /\ exists result w',
       exampleRun emptyWorld = (Returned (Some result), w')
       /\ status result = COMPLETED
       /\ analysisTimeMs result = 6000%Z.
Proof.
  assert (Hfresh : unmarked emptyWorld (payload_transactionId (payload exampleEvent)))
    by (right; vm_compute; reflexivity).
  split; [exact Hfresh|].
  destruct (C5_no_deadline defaultConfig exampleExternals exampleEnv exampleEvent emptyWorld Hfresh)
    as (result & w' & Hrun & Hstatus & Htime & _).
  exists result, w'. split; [exact Hrun|]. split; [exact Hstatus|].
  rewrite Htime. reflexivity.
Defined.

(** C6, as the claim states it, fails: the analysis below is reported with
    confidence HIGH although its model factor has confidence 0.7, for which
    the stated rule gives MEDIUM. *)
Lemma C6_counterexample :
  exists result w',
    exampleRun emptyWorld = (Returned (Some result), w')
    /\ modelConfidence (riskFactors result) = Some 0.7
    /\ spec_confidence (riskFactors result) = MEDIUM
    /\ confidence result = HIGH.
Proof.
  destruct (exampleRun emptyWorld) as [[[result|]|] w'] eqn:Hrun;
    [|vm_compute in Hrun; discriminate | vm_compute in Hrun; discriminate].
  exists result, w'. split; [reflexivity|].
  vm_compute in Hrun. inversion Hrun; subst; clear Hrun.
  split; [reflexivity|]. split; reflexivity.
Qed.

(** C6, amended.  Every completed analysis is reported with confidence
    HIGH, whatever the model's own confidence and however many rule-based
    factors are non-zero. *)
Theorem C6_confidence_is_constant cfg X e event w result w' :
  FraudDetectionService.processTransaction cfg X e event w = (Returned (Some result), w') ->
  confidence result = HIGH.
Proof.
  intros Hrun.
  destruct (processTransaction_result cfg X e event w result w' Hrun)
    as (factors & version & -> & _).
  reflexivity.
Qed.

Lemma C6_witness :
  exists result w',
    exampleRun blockedWorld = (Returned (Some result), w') /\ confidence result = HIGH.
Proof.
  destruct (exampleRun blockedWorld) as [[[result|]|] w'] eqn:Hrun;
    [|vm_compute in Hrun; discriminate | vm_compute in Hrun; discriminate].
  exists result, w'. split; [reflexivity|].
  exact (C6_confidence_is_constant defaultConfig exampleExternals exampleEnv exampleEvent
           blockedWorld result w' Hrun).
Defined.

(** C7.  The claim describes the intended fallback; the code reads three of
    its seven inputs from the wrong slots of the feature vector.  In the
    fixed order of [featuresToArray], slot 15 is isUnusualHour (not
    isNewRecipient, slot 17), slot 18 is recipientRiskScore (not
    isNewDevice, slot 20) and slot 23 is totalTxCount (not
    previousFraudFlags, slot 25).  For the features of a user with ten past
    transactions and no fraud flag the code answers 0.45 where the stated
    rule gives 0. *)
Theorem C7_fallback_reads_wrong_slots :
  (forall f : MLFeatures,
      let features := MLModelService.featuresToArray f in
      length features = 26%nat
      /\ RuleBasedModel.feature features 15 = isUnusualHour f
      /\ RuleBasedModel.feature features 18 = recipientRiskScore f
      /\ RuleBasedModel.feature features 23 = totalTxCount f
      /\ RuleBasedModel.feature features 17 = isNewRecipient f
      /\ RuleBasedModel.feature features 20 = isNewDevice f
      /\ RuleBasedModel.feature features 25 = previousFraudFlags f)
  /\ previousFraudFlags veteranFeatures == 0
  /\ spec_ruleBasedScore veteranFeatures == 0
  /\ fst (RuleBasedModel.predict (MLModelService.featuresToArray veteranFeatures)) == 0.45
  /\ snd (RuleBasedModel.predict (MLModelService.featuresToArray veteranFeatures)) == 0.7.
Proof.
  split.
  - intros f. cbv zeta. repeat split; reflexivity.
  - repeat split; vm_compute; reflexivity.
Qed.

(** C8, as the claim states it, fails for the exceeds-historical-max rule:
    a user with four transactions (fewer than five) and a historical
    maximum of 100 sending 300 gets 0.15 from that rule. *)
Lemma C8_counterexample :
  (totalTransactions youngStatistics < 5)%Z
  /\ contribution (AmountAnalyzer.checkExceedsMax 300 youngStatistics) == 0.15
  /\ ~ contribution (AmountAnalyzer.checkExceedsMax 300 youngStatistics) == 0.
Proof.
  split; [reflexivity|]. split; [vm_compute; reflexivity | vm_compute; discriminate].
Qed.

Lemma amount_uncapped_sum cfg e amount stats :
  AmountAnalyzer.uncappedScore cfg e amount stats
  == contribution (AmountAnalyzer.checkUnusualAmount cfg amount stats)
     + contribution (AmountAnalyzer.checkExceedsMax amount stats)
     + contribution (AmountAnalyzer.checkAbsoluteLarge cfg amount)
     + contribution (AmountAnalyzer.checkRoundNumber amount)
     + contribution (AmountAnalyzer.checkBelowReportingThreshold amount)
     + contribution (AmountAnalyzer.zScoreRule amount stats)
     + contribution (AmountAnalyzer.newAccountLarge e amount stats).
Proof.
  unfold AmountAnalyzer.uncappedScore, addIfDetected, contribution. cbv zeta.
  repeat match goal with
         | |- context [detected ?r] => destruct (detected r)
         end; lra.
Qed.

(** C8, amended.  Each history-dependent amount rule has its own guard and
    contributes 0 to the raw score of the amount analyzer when its guard
    fails: ratio-to-average for a user with fewer than 5 transactions,
    exceeds-historical-max for a user with fewer than 3 transactions, and
    the z-score for a standard deviation of 0.  The raw score is the sum of
    the seven rule contributions capped at 0.40. *)
Theorem C8_insufficient_history cfg e amount stats :
  ((totalTransactions stats < 5)%Z ->
   contribution (AmountAnalyzer.checkUnusualAmount cfg amount stats) = 0)
  /\ ((totalTransactions stats < 3)%Z ->
      contribution (AmountAnalyzer.checkExceedsMax amount stats) = 0)
  /\ (standardDeviation stats == 0 ->
      contribution (AmountAnalyzer.zScoreRule amount stats) = 0)
  /\ forall u t c h w,
       fst (AmountAnalyzer.analyze cfg e u t amount c (Some {| history_userId := u;
                                                               transactions := h;
                                                               statistics := stats |}) w)
       = Returned
           {| method := AMOUNT;
              score := Js.min (AmountAnalyzer.uncappedScore cfg e amount stats) 0.40;
              weight := amountWeight cfg;
              contributedScore :=
                Js.min (AmountAnalyzer.uncappedScore cfg e amount stats) 0.40 * amountWeight cfg;
              scoreIsNaN := false;
              details := DetailsOther |}
       /\ AmountAnalyzer.uncappedScore cfg e amount stats
          == contribution (AmountAnalyzer.checkUnusualAmount cfg amount stats)
             + contribution (AmountAnalyzer.checkExceedsMax amount stats)
             + contribution (AmountAnalyzer.checkAbsoluteLarge cfg amount)
             + contribution (AmountAnalyzer.checkRoundNumber amount)
             + contribution (AmountAnalyzer.checkBelowReportingThreshold amount)
             + contribution (AmountAnalyzer.zScoreRule amount stats)
             + contribution (AmountAnalyzer.newAccountLarge e amount stats).
Proof.
  split; [|split; [|split]].
  - intros Hn. unfold AmountAnalyzer.checkUnusualAmount.
    apply Z.ltb_lt in Hn. rewrite Hn. reflexivity.
  - intros Hn. unfold AmountAnalyzer.checkExceedsMax.
    apply Z.ltb_lt in Hn. rewrite Hn. reflexivity.
  - intros Hs. unfold AmountAnalyzer.zScoreRule.
    assert (E : (standardDeviation stats >? 0) = false) by (apply gtb_false; lra).
    rewrite E. reflexivity.
  - intros u t c h w. split; [reflexivity | apply amount_uncapped_sum].
Qed.

Lemma C8_witness :
  (totalTransactions youngStatistics < 5)%Z
  /\ standardDeviation youngStatistics == 0
  /\ contribution (AmountAnalyzer.checkUnusualAmount defaultConfig 300 youngStatistics) = 0
  /\ contribution (AmountAnalyzer.zScoreRule 300 youngStatistics) = 0.
Proof.
  assert (Hn : (totalTransactions youngStatistics < 5)%Z) by reflexivity.
  assert (Hs : standardDeviation youngStatistics == 0) by reflexivity.
  destruct (C8_insufficient_history defaultConfig exampleEnv 300 youngStatistics)
    as (Hratio & _ & Hz & _).
  split; [exact Hn|]. split; [exact Hs|]. split; [exact (Hratio Hn) | exact (Hz Hs)].
Defined.

Lemma validateEvent_rejects event :
  invalidPayload event -> EventConsumer.validateEvent event = false.
Proof.
  unfold invalidPayload, EventConsumer.validateEvent. cbv zeta.
  set (payload := EventConsumer.field (Some event) "payload").
  intros Hbad.
  destruct (EventConsumer.falsy (Some event) || EventConsumer.falsy payload)%bool; [reflexivity|].
  destruct Hbad as [H|[H|[H|(n & H & Hn)]]]; rewrite H; simpl.
  - reflexivity.
  - destruct (_ || _)%bool; reflexivity.
  - destruct (_ || _)%bool; [reflexivity|].
    destruct (_ || _)%bool; [reflexivity|].
    destruct (match EventConsumer.field payload "amount" with
              | Some (JNumber n) => n <=? 0
              | _ => true
              end); reflexivity.
  - destruct (_ || _)%bool; [reflexivity|].
    destruct (_ || _)%bool; [reflexivity|].
    assert (E : (n <=? 0) = true) by (apply leb_true; assumption).
    rewrite E. reflexivity.
Qed.

(** C9. For every inbound message that is malformed JSON (or has no
    buffer), or whose payload fails validation because transactionId, userId
    or recipientId is missing or the amount is not positive, the consumer
    logs a warning and returns: the handler is not invoked and nothing is
    thrown, so the message is skipped and not retried. *)
Theorem C9_poison_pill_is_skipped JSON_parse messageHandler value :
  malformed JSON_parse value \/ invalid JSON_parse value ->
  let outcome := EventConsumer.handleMessage JSON_parse messageHandler value in
  In LogWarn (logged outcome) /\ dispatched outcome = [] /\ thrown outcome = false.
Proof.
  intros Hbad. cbv zeta. unfold EventConsumer.handleMessage, EventConsumer.parseMessage.
  destruct Hbad as [[-> | (rawValue & -> & ->)] | (rawValue & event & -> & -> & Hinvalid)].
  - simpl. auto.
  - simpl. auto.
  - destruct (EventConsumer.falsy (Some event)); [simpl; auto|].
    rewrite (validateEvent_rejects event Hinvalid). simpl. auto.
Qed.

Lemma C9_witness :
  (malformed exampleParse (Some "{not json") \/ invalid exampleParse (Some "{not json"))
  /\ (malformed exampleParse (Some "negative amount")
      \/ invalid exampleParse (Some "negative amount"))
  /\ dispatched (EventConsumer.handleMessage exampleParse (Some (fun _ => true))
                   (Some "{not json")) = []
  /\ dispatched (EventConsumer.handleMessage exampleParse (Some (fun _ => true))
                   (Some "negative amount")) = [].
Proof.
  assert (H1 : malformed exampleParse (Some "{not json") \/ invalid exampleParse (Some "{not json")).
  { left. right. exists "{not json". split; reflexivity. }
  assert (H2 : malformed exampleParse (Some "negative amount")
               \/ invalid exampleParse (Some "negative amount")).
  { right. eexists "negative amount", _. split; [reflexivity|]. split; [reflexivity|].
    right. right. right. exists (-5). split; [reflexivity | vm_compute; discriminate]. }
  split; [exact H1|]. split; [exact H2|]. split.
  - exact (proj1 (proj2 (C9_poison_pill_is_skipped exampleParse (Some (fun _ => true)) _ H1))).
  - exact (proj1 (proj2 (C9_poison_pill_is_skipped exampleParse (Some (fun _ => true)) _ H2))).
Defined.

(** C10, as the claim states it, fails on the blocklist short-circuit: the
    factor the recipient analyzer returns for a blocklisted recipient has
    score 1, weight 0.30 and contributedScore 1, which is not their
    product. *)
Lemma C10_counterexample :
  exists f w',
    RecipientAnalyzer.analyze defaultConfig exampleExternals exampleEnv
      "user-1" "tx-1" "recipient-1" "acct-dst" None [] blockedWorld = (Returned f, w')
    /\ score f == 1 /\ weight f == 0.30 /\ contributedScore f == 1
    /\ ~ contributedScore f == score f * weight f.
Proof.
  eexists _, _. split; [vm_compute; reflexivity|].
  repeat split; vm_compute; discriminate.
Qed.

(** Under positive velocity limits, only a factor of the geographic
    analyzer can have a score that is NaN. *)
Lemma produced_number cfg X e f :
  config_wf cfg -> produced cfg X e f -> scoreIsNaN f = true -> method f = GEOGRAPHIC.
Proof.
  intros Hwf [u t a c h w f0 w' E | u t a r w f0 w' E | u t l h k w f0 w' E
         | u t r a h k w f0 w' E | u t fp ua k h w f0 w' E | u t ts h ph pd w f0 w' E
         | t features w p w' E].
  - rewrite (safe_result X _ _ _ _ _ (amount_number cfg X e u t a c h) E). discriminate.
  - rewrite (safe_result X _ _ _ _ _
               (velocity_number cfg X u t a r (wf_maxFiveMin _ Hwf) (wf_maxHour _ Hwf)
                  (wf_maxDay _ Hwf)) E).
    discriminate.
  - intros _. exact (proj2 (safe_result X _ _ _ _ _ (geographic_flag cfg X e u t l h k) E)).
  - rewrite (safe_result X _ _ _ _ _ (recipient_number cfg X e u t r a h k) E). discriminate.
  - rewrite (safe_result X _ _ _ _ _ (device_number cfg X e u t fp ua k h) E). discriminate.
  - rewrite (safe_result X _ _ _ _ _ (time_number cfg X e u t ts h ph pd) E). discriminate.
  - simpl. discriminate.
Qed.

(** C10, amended.  Under a configuration with non-negative weights and
    positive velocity limits, every RiskFactor produced by the six
    rule-based analyzers or by the ML scorer whose rawScore is a number has
    non-negative rawScore, weight and contributedScore, and its
    contributedScore equals rawScore x weight, except for the blocklist
    short-circuit factors of the recipient and device analyzers, whose
    rawScore and contributedScore are both 1 whatever the weight.  Only a
    factor of the geographic analyzer can have a rawScore that is not a
    number. *)
Theorem C10_factor_invariant cfg X e f :
  config_wf cfg ->
  produced cfg X e f ->
  (forall s, rawScoreOf f = Js.Num s ->
     0 <= s /\ 0 <= weight f /\ 0 <= contributedScore f
     /\ (contributedScore f == s * weight f
         \/ ((method f = RECIPIENT \/ method f = DEVICE)
             /\ details f = DetailsBlocked /\ s == 1 /\ contributedScore f == 1)))
  /\ (rawScoreOf f = Js.NaN -> method f = GEOGRAPHIC).
Proof.
  intros Hwf Hp.
  pose proof (produced_number cfg X e f Hwf Hp) as Hgeo.
  assert (Hok : factor_ok f).
  { destruct Hp as
      [u t a c h w f w' E | u t a r w f w' E | u t l h k w f w' E | u t r a h k w f w' E
      | u t fp ua k h w f w' E | u t ts h ph pd w f w' E | t features w p w' E].
    - exact (safe_result X _ _ _ _ _ (amount_safe cfg X e u t a c h) E Hwf).
    - exact (safe_result X _ _ _ _ _ (velocity_safe cfg X u t a r) E Hwf).
    - exact (safe_result X _ _ _ _ _ (geographic_safe cfg X e u t l h k) E Hwf).
    - exact (safe_result X _ _ _ _ _ (recipient_safe cfg X e u t r a h k) E Hwf).
    - exact (safe_result X _ _ _ _ _ (device_safe cfg X e u t fp ua k h) E Hwf).
    - exact (safe_result X _ _ _ _ _ (time_safe cfg X e u t ts h ph pd) E Hwf).
    - apply modelFactor_ok.
      destruct (predict_guarded X t features w I) as (o & w'' & E' & _ & Ho).
      rewrite E in E'. inversion E'; subst. exact Ho. }
  unfold rawScoreOf.
  destruct (scoreIsNaN f).
  - split; [intros s [=] | intros _; apply Hgeo; reflexivity].
  - split; [|intros [=]]. intros s [= <-]. exact Hok.
Qed.

Lemma C10_witness :
  config_wf defaultConfig
  /\ exists f,
       produced defaultConfig exampleExternals exampleEnv f
       /\ method f = RECIPIENT /\ rawScoreOf f = Js.Num 1.0
       /\ 0 <= weight f /\ 0 <= contributedScore f.
Proof.
  assert (Hwf : config_wf defaultConfig) by (constructor; vm_compute; congruence).
  split; [exact Hwf|].
  assert (Hp : produced defaultConfig exampleExternals exampleEnv
                 (RecipientAnalyzer.blocked defaultConfig)).
  { apply (produced_recipient defaultConfig exampleExternals exampleEnv
             "user-1" "tx-1" "recipient-1" "acct-dst" None [] blockedWorld
             (RecipientAnalyzer.blocked defaultConfig) blockedWorld).
    vm_compute. reflexivity. }
  exists (RecipientAnalyzer.blocked defaultConfig). split; [exact Hp|]. split; [reflexivity|].
  split; [reflexivity|].
  destruct (proj1 (C10_factor_invariant defaultConfig exampleExternals exampleEnv _ Hwf Hp)
              1.0 eq_refl) as (_ & H2 & H3 & _).
  auto.
Defined.

(** * Further properties *)

(** ** middleware/requestLogger.ts *)

Arguments RequestLogger.isSensitive : simpl never.

(** Structural induction on JSON values, through arrays and objects. *)
Lemma LogValue_nested_ind (P : LogValue -> Prop) :
  P LUndefined -> P LNull -> (forall b, P (LBool b)) -> (forall n, P (LNumber n)) ->
  (forall s, P (LString s)) ->
  (forall items, List.Forall P items -> P (LArray items)) ->
  (forall o fields, List.Forall (fun entry => P (snd entry)) fields -> P (LObject o fields)) ->
  forall v, P v.
Proof.
  intros Hundef Hnull Hbool Hnum Hstr Harr Hobj.
  fix IH 1. intros [| | b | n | s | items | o fields].
  - exact Hundef.
  - exact Hnull.
  - apply Hbool.
  - apply Hnum.
  - apply Hstr.
  - apply Harr. induction items as [|x xs IHxs]; constructor; [apply IH | exact IHxs].
  - apply Hobj. induction fields as [|[k x] xs IHxs]; constructor; [apply IH | exact IHxs].
Qed.

Lemma proto_not_sensitive : RequestLogger.isSensitive "__proto__" = false.
Proof. vm_compute. reflexivity. Qed.

(** X1.  After [redactSensitiveData], no key that contains one of the
    sensitive field names (in any letter case) holds anything but the
    string [[REDACTED]], at any depth of nested objects and arrays. *)
Theorem X1_redaction_hides_sensitive_values v :
  exposesSensitive (RequestLogger.redactSensitiveData v) = false.
Proof.
  induction v as [| | | | | items IH | o fields IH] using LogValue_nested_ind;
    simpl; try reflexivity.
  - induction IH as [|x xs Hx _ IHxs]; simpl; [reflexivity|]. rewrite Hx, IHxs. reflexivity.
  - induction IH as [|[k x] xs Hx _ IHxs]; simpl; [reflexivity|].
    rewrite existsb_app, IHxs, orb_false_r. simpl in Hx.
    destruct (String.eqb k "__proto__"); [reflexivity|].
    destruct (RequestLogger.isSensitive k) eqn:Ek; [simpl; rewrite Ek; reflexivity|].
    destruct x; simpl; rewrite Ek, ?orb_false_r; simpl; try reflexivity; exact Hx.
Qed.

(** X2.  [redactSensitiveData] changes nothing else in plain data: a value
    made of primitives, arrays and ordinary objects that has no sensitive
    key and no own [__proto__] property at any depth is returned as an
    equal structure. *)
Theorem X2_redaction_keeps_plain_values v :
  plainData v = true -> hasSensitiveKey v = false ->
  RequestLogger.redactSensitiveData v = v.
Proof.
  induction v as [| | | | | items IH | o fields IH] using LogValue_nested_ind;
    simpl; try reflexivity.
  - intros Hp H. f_equal. induction IH as [|x xs Hx _ IHxs]; simpl in *; [reflexivity|].
    apply andb_true_iff in Hp. destruct Hp as [Hp1 Hp2].
    apply orb_false_iff in H. destruct H as [H1 H2]. rewrite Hx, IHxs by assumption. reflexivity.
  - intros Hp H. apply andb_true_iff in Hp. destruct Hp as [-> Hp]. f_equal.
    induction IH as [|[k x] xs Hx _ IHxs]; simpl in *; [reflexivity|].
    apply andb_true_iff in Hp. destruct Hp as [Hp1 Hp2].
    apply andb_true_iff in Hp1. destruct Hp1 as [Hk Hv]. apply negb_true_iff in Hk.
    apply orb_false_iff in H. destruct H as [H1 H2].
    apply orb_false_iff in H1. destruct H1 as [Hs Hh].
    rewrite IHxs by assumption. rewrite Hk, Hs.
    destruct (RequestLogger.isObject x); [rewrite Hx by assumption|]; reflexivity.
Qed.

Lemma X2_witness :
  plainData plainContext = true /\ hasSensitiveKey plainContext = false
  /\ RequestLogger.redactSensitiveData plainContext = plainContext.
Proof.
  assert (Hp : plainData plainContext = true) by (vm_compute; reflexivity).
  assert (H : hasSensitiveKey plainContext = false) by (vm_compute; reflexivity).
  split; [exact Hp|]. split; [exact H | exact (X2_redaction_keeps_plain_values plainContext Hp H)].
Defined.

(** Outside plain data the redaction does change values that have no
    sensitive key: an [Error] comes back as an empty object, and an own
    [__proto__] property is dropped.  A key written with the Kelvin sign is
    a sensitive one. *)
Example redaction_outside_plain_data :
  RequestLogger.redactSensitiveData thrownError = LObject true []
  /\ hasSensitiveKey protoContext = false
  /\ RequestLogger.redactSensitiveData protoContext
     = LObject true [("userId", LString "user-1")]
  /\ hasSensitiveKey kelvinContext = true.
Proof. repeat split; vm_compute; reflexivity. Qed.

(** X3.  Redacting twice is redacting once: the mark [[REDACTED]] is
    itself left alone by a second pass. *)
Theorem X3_redaction_is_idempotent v :
  RequestLogger.redactSensitiveData (RequestLogger.redactSensitiveData v)
  = RequestLogger.redactSensitiveData v.
Proof.
  induction v as [| | | | | items IH | o fields IH] using LogValue_nested_ind;
    simpl; try reflexivity.
  - f_equal. rewrite List.map_map. induction IH as [|x xs Hx _ IHxs]; simpl; [reflexivity|].
    rewrite Hx, IHxs. reflexivity.
  - f_equal. induction IH as [|[k x] xs Hx _ IHxs]; simpl; [reflexivity|].
    rewrite List.flat_map_app, IHxs. f_equal. simpl in Hx.
    destruct (String.eqb k "__proto__") eqn:Ep; [reflexivity|].
    destruct (RequestLogger.isSensitive k) eqn:Ek; [simpl; rewrite Ep, Ek; reflexivity|].
    destruct x; simpl; rewrite Ep, Ek; simpl; try reflexivity.
    + simpl in Hx. rewrite Hx. reflexivity.
    + simpl in Hx. rewrite Hx. reflexivity.
Qed.

(** *** Strings *)

Lemma length_repeat c n : String.length (Js.repeat c n) = n.
Proof. induction n; simpl; congruence. Qed.

Lemma length_append (s1 s2 : string) :
  String.length (s1 ++ s2) = (String.length s1 + String.length s2)%nat.
Proof. induction s1 as [|c s IH]; [reflexivity | simpl; f_equal; exact IH]. Qed.

Lemma substring_all (s : string) : String.substring 0 (String.length s) s = s.
Proof. induction s as [|c s IH]; simpl; [reflexivity | f_equal; exact IH]. Qed.

Lemma length_substring_prefix (s : string) (k : nat) :
  (k <= String.length s)%nat -> String.length (String.substring 0 k s) = k.
Proof.
  revert k. induction s as [|c s IH]; intros [|k] Hk; simpl in *; try reflexivity; try lia.
  f_equal. apply IH. lia.
Qed.

Lemma length_substring_suffix (s : string) (k : nat) :
  (k <= String.length s)%nat ->
  String.length (String.substring k (String.length s - k) s) = (String.length s - k)%nat.
Proof.
  revert k. induction s as [|c s IH]; intros [|k] Hk; simpl in *; try reflexivity; try lia.
  - f_equal. rewrite substring_all. reflexivity.
  - apply IH. lia.
Qed.

(** A string is its first [k] characters followed by the rest. *)
Lemma substring_split (s : string) (k : nat) :
  (k <= String.length s)%nat ->
  s = (String.substring 0 k s ++ String.substring k (String.length s - k) s)%string.
Proof.
  revert k. induction s as [|c s IH]; intros [|k] Hk; simpl in *; try reflexivity; try lia.
  - rewrite substring_all. reflexivity.
  - change (String c s = String c (String.substring 0 k s
                                   ++ String.substring k (String.length s - k) s)%string).
    f_equal. apply IH. lia.
Qed.

(** X4.  With a positive number of visible characters,
    [maskSensitiveValue] keeps the length of the value; a value no longer
    than [visibleChars] is replaced by stars altogether, and a longer one
    keeps exactly its last [visibleChars] characters after one star for
    each character before them. *)
Theorem X4_mask_shows_only_the_tail value visibleChars :
  (0 < visibleChars)%nat ->
  String.length (RequestLogger.maskSensitiveValue value visibleChars) = String.length value
  /\ ((String.length value <= visibleChars)%nat ->
      RequestLogger.maskSensitiveValue value visibleChars = Js.repeat "*" (String.length value))
  /\ ((visibleChars < String.length value)%nat ->
      exists hidden shown,
        value = (hidden ++ shown)%string /\ String.length shown = visibleChars
        /\ RequestLogger.maskSensitiveValue value visibleChars
           = (Js.repeat "*" (String.length hidden) ++ shown)%string).
Proof.
  intros Hpos. unfold RequestLogger.maskSensitiveValue.
  destruct (String.length value <=? visibleChars)%nat eqn:E.
  - apply Nat.leb_le in E. rewrite length_repeat. split; [reflexivity|]. split; [reflexivity|]. lia.
  - apply Nat.leb_gt in E.
    assert (Hk : (String.length value - visibleChars <= String.length value)%nat) by lia.
    pose proof (substring_split value _ Hk) as Hsplit.
    pose proof (length_substring_prefix value _ Hk) as L1.
    pose proof (length_substring_suffix value _ Hk) as L2.
    replace (String.length value - (String.length value - visibleChars))%nat
      with visibleChars in * by lia.
    assert (Hslice : Js.sliceLast value visibleChars
                     = String.substring (String.length value - visibleChars) visibleChars value).
    { unfold Js.sliceLast. destruct visibleChars; [lia | reflexivity]. }
    rewrite Hslice. split; [|split; [lia|]].
    + rewrite length_append, length_repeat, L2. lia.
    + intros _. eexists _, _. split; [exact Hsplit|]. split; [exact L2|].
      rewrite L1. reflexivity.
Qed.

Lemma X4_witness :
  (0 < 4)%nat
  /\ String.length (RequestLogger.maskSensitiveValue "4111111111111111" 4)
     = String.length "4111111111111111".
Proof.
  assert (H : (0 < 4)%nat) by lia.
  split; [exact H | exact (proj1 (X4_mask_shows_only_the_tail "4111111111111111" 4 H))].
Defined.

(** X5.  With [visibleChars = 0] the mask hides nothing: [value.slice(-0)]
    is the whole value, so a non-empty value comes back in full after as
    many stars as it has characters. *)
Theorem X5_mask_with_zero_visible_shows_all value :
  value <> "" ->
  RequestLogger.maskSensitiveValue value 0
  = (Js.repeat "*" (String.length value) ++ value)%string.
Proof.
  intros Hne. unfold RequestLogger.maskSensitiveValue.
  destruct value as [|c r]; [congruence|]. simpl. reflexivity.
Qed.

Lemma X5_witness :
  "secret" <> "" /\ RequestLogger.maskSensitiveValue "secret" 0 = "******secret".
Proof.
  assert (H : "secret" <> "") by discriminate.
  split; [exact H | exact (X5_mask_with_zero_visible_shows_all "secret" H)].
Defined.

Lemma index_beforeFirst (c : ascii) (s : string) :
  String.index 0 (String c "") (Js.beforeFirst c s) = None.
Proof.
  induction s as [|d r IH]; simpl; [reflexivity|].
  destruct (Ascii.eqb d c) eqn:E; [reflexivity|].
  simpl. destruct (ascii_dec c d) as [->|Hne].
  - rewrite Ascii.eqb_refl in E. discriminate.
  - rewrite IH. reflexivity.
Qed.

Lemma beforeFirst_prefix (c : ascii) (s : string) :
  exists rest, s = (Js.beforeFirst c s ++ rest)%string.
Proof.
  induction s as [|d r [rest IH]]; simpl.
  - exists "". reflexivity.
  - destruct (Ascii.eqb d c).
    + exists (String d r). reflexivity.
    + exists rest. change (String d r = String d (Js.beforeFirst c r ++ rest)%string).
      f_equal. exact IH.
Qed.

Lemma beforeFirst_absent (c : ascii) (s : string) :
  String.index 0 (String c "") s = None -> Js.beforeFirst c s = s.
Proof.
  induction s as [|d r IH]; simpl; [reflexivity|].
  destruct (ascii_dec c d) as [->|Hne]; [destruct r; intros H; discriminate H|].
  destruct (String.index 0 (String c "") r); [discriminate|]. intros _.
  destruct (Ascii.eqb d c) eqn:E.
  - apply Ascii.eqb_eq in E. congruence.
  - f_equal. apply IH. reflexivity.
Qed.

(** X6.  The URL in the request log data never contains a [?]: it is
    the prefix of the request URL before the query string, and the whole
    URL when there is none. *)
Theorem X6_logged_url_has_no_query method url statusCode responseTime ip correlationId :
  let data := RequestLogger.createRequestLogData method url statusCode responseTime ip
                correlationId in
  Js.includes (log_url data) "?" = false
  /\ (exists query, url = (log_url data ++ query)%string)
  /\ (Js.includes url "?" = false -> log_url data = url).
Proof.
  simpl. unfold Js.includes. rewrite index_beforeFirst.
  split; [reflexivity|]. split; [apply beforeFirst_prefix|].
  intros H. apply beforeFirst_absent.
  destruct (String.index 0 "?" url); [discriminate | reflexivity].
Qed.

(** ** services/DeviceAnalyzer.ts: what the log shows of a fingerprint *)

(** X7.  [maskFingerprint] shows at most eight characters of a
    fingerprint: one of up to eight characters becomes [****], a longer one
    its first four and last four characters around [****]; the result never
    exceeds twelve characters. *)
Theorem X7_maskFingerprint_shape fingerprint :
  (String.length (DeviceAnalyzer.maskFingerprint fingerprint) <= 12)%nat
  /\ ((String.length fingerprint <= 8)%nat -> DeviceAnalyzer.maskFingerprint fingerprint = "****")
  /\ ((8 < String.length fingerprint)%nat ->
      exists first middle last,
        fingerprint = (first ++ middle ++ last)%string
        /\ String.length first = 4%nat /\ String.length last = 4%nat
        /\ DeviceAnalyzer.maskFingerprint fingerprint = (first ++ "****" ++ last)%string).
Proof.
  unfold DeviceAnalyzer.maskFingerprint, Js.substringFrom.
  destruct (String.length fingerprint <=? 8)%nat eqn:E.
  - apply Nat.leb_le in E. split; [simpl; lia|]. split; [reflexivity | lia].
  - apply Nat.leb_gt in E.
    set (n := String.length fingerprint) in *.
    assert (H4 : (4 <= n)%nat) by lia.
    pose proof (substring_split fingerprint 4 H4) as Hsplit.
    pose proof (length_substring_prefix fingerprint 4 H4) as L1.
    set (rest := String.substring 4 (n - 4) fingerprint) in *.
    assert (Lrest : String.length rest = (n - 4)%nat)
      by (apply length_substring_suffix; assumption).
    assert (Hk : (n - 8 <= String.length rest)%nat) by lia.
    pose proof (substring_split rest _ Hk) as Hsplit2.
    pose proof (length_substring_prefix rest _ Hk) as L2.
    pose proof (length_substring_suffix rest _ Hk) as L3.
    rewrite Lrest in Hsplit2, L3.
    replace (n - 4 - (n - 8))%nat with 4%nat in * by lia.
    assert (Hlast : String.substring (n - 4) (n - (n - 4)) fingerprint
                    = String.substring (n - 8) 4 rest).
    { replace (n - (n - 4))%nat with 4%nat by lia.
      apply String.get_correct. intros p.
      destruct (Nat.ltb p 4) eqn:Hp.
      - apply Nat.ltb_lt in Hp.
        rewrite !substring_correct1 by assumption.
        unfold rest. rewrite substring_correct1 by lia.
        f_equal. lia.
      - apply Nat.ltb_ge in Hp. rewrite !substring_correct2 by assumption. reflexivity. }
    rewrite Hlast.
    split; [|split; [lia|]].
    + rewrite !length_append, L1, L3. simpl. lia.
    + intros _. exists (String.substring 0 4 fingerprint), (String.substring 0 (n - 8) rest),
        (String.substring (n - 8) 4 rest).
      split; [|split; [assumption|split; [assumption|reflexivity]]].
      rewrite <- Hsplit2. exact Hsplit.
Qed.

(** ** middleware/errorHandler.ts *)

(** X8.  What [errorHandler] lets out.  An error that is not an
    [AppError] is always answered with status 500, code [INTERNAL_ERROR] and
    the generic message, and logged at level error; in production every
    500 response carries the generic message; an [AppError] with another
    status is answered with its own status, code and message in every
    environment; the log line always carries the error's own message. *)
Theorem X8_errorHandler_hides_internal_errors NODE_ENV err correlationId :
  let log := fst (ErrorHandler.errorHandler NODE_ENV err correlationId) in
  let response := snd (ErrorHandler.errorHandler NODE_ENV err correlationId) in
  (NODE_ENV = Some "production" -> response_status response = 500%Z ->
   response_message response = ErrorHandler.unexpected)
  /\ (forall message, err = OtherError message ->
      response_status response = 500%Z /\ response_code response = "INTERNAL_ERROR"
      /\ response_message response = ErrorHandler.unexpected
      /\ errorLog_level log = LogError)
  /\ (forall message statusCode code isOperational,
      err = AppError message statusCode code isOperational -> statusCode <> 500%Z ->
      response_status response = statusCode /\ response_code response = code
      /\ response_message response = message)
  /\ errorLog_message log = ErrorHandler.messageOf err.
Proof.
  destruct err as [message statusCode code isOperational | message]; simpl.
  - split; [|split; [|split]].
    + intros -> Hs. destruct isOperational; simpl in *; rewrite Hs; reflexivity.
    + intros m Hm. discriminate.
    + intros m s c o Herr Hs. injection Herr as <- <- <- <-.
      assert (E : (statusCode =? 500)%Z = false) by (apply Z.eqb_neq; assumption).
      destruct isOperational; simpl; rewrite E; auto.
    + destruct isOperational; reflexivity.
  - split; [|split; [|split]].
    + intros _ _. destruct NODE_ENV as [env|]; [destruct (String.eqb env "production")|]; reflexivity.
    + intros m _. destruct NODE_ENV as [env|]; [destruct (String.eqb env "production")|]; auto.
    + intros m s c o Herr. discriminate.
    + reflexivity.
Qed.

(** ** models/UserRiskProfile.ts *)

(** X9.  The risk level [updateRiskScore] stores for the final score of
    an analysis agrees with the decision taken under the thresholds 0.50
    and 0.80 whenever that score is a number: LOW and MEDIUM go with
    APPROVE, HIGH with SUSPICIOUS and CRITICAL with REJECT.  For a score
    that is NaN the two part: the level is CRITICAL, the decision
    APPROVE. *)
Theorem X9_riskLevel_matches_decision cfg now this analysisId transaction factors modelVersion
    correlationId :
  suspiciousMin cfg == 0.50 -> rejectMin cfg == 0.80 ->
  let r := FraudDetectionService.calculateFinalDecision cfg analysisId transaction
             factors modelVersion correlationId in
  let profile := fst (UserRiskProfile.updateRiskScore now (scoreOf r) this) in
  UserRiskProfile.currentRiskScore profile = scoreOf r
  /\ match scoreOf r with
     | Js.Num _ =>
         match UserRiskProfile.riskLevel profile with
         | LevelLOW | LevelMEDIUM => decision r = APPROVE
         | LevelHIGH => decision r = SUSPICIOUS
         | LevelCRITICAL => decision r = REJECT
         end
     | Js.NaN => UserRiskProfile.riskLevel profile = LevelCRITICAL /\ decision r = APPROVE
     end.
Proof.
  intros Hs Hr. cbv zeta. split; [reflexivity|].
  unfold scoreOf, FraudDetectionService.calculateFinalDecision, UserRiskProfile.updateRiskScore,
    UserRiskProfile.calculateRiskLevel.
  cbn [fst finalScore finalScoreIsNaN decision UserRiskProfile.riskLevel].
  destruct (existsb scoreIsNaN factors); [split; reflexivity|].
  cbn [negb andb Js.numberLtb].
  change (fun a b : Q => negb (Qle_bool b a)) with Js.ltb.
  set (s := Js.min _ 1.0).
  change (negb (Qle_bool 0.25 s)) with (s <? 0.25).
  change (negb (Qle_bool 0.50 s)) with (s <? 0.50).
  change (negb (Qle_bool 0.80 s)) with (s <? 0.80).
  destruct (s <? 0.25) eqn:E1.
  { apply ltb_true in E1.
    assert (H1 : (s >=? rejectMin cfg) = false) by (apply geb_false; lra).
    assert (H2 : (s >=? suspiciousMin cfg) = false) by (apply geb_false; lra).
    rewrite H1, H2. reflexivity. }
  destruct (s <? 0.50) eqn:E2.
  { apply ltb_true in E2.
    assert (H1 : (s >=? rejectMin cfg) = false) by (apply geb_false; lra).
    assert (H2 : (s >=? suspiciousMin cfg) = false) by (apply geb_false; lra).
    rewrite H1, H2. reflexivity. }
  apply ltb_false in E2.
  destruct (s <? 0.80) eqn:E3.
  { apply ltb_true in E3.
    assert (H1 : (s >=? rejectMin cfg) = false) by (apply geb_false; lra).
    assert (H2 : (s >=? suspiciousMin cfg) = true) by (apply geb_true; lra).
    rewrite H1, H2. reflexivity. }
  apply ltb_false in E3.
  assert (H1 : (s >=? rejectMin cfg) = true) by (apply geb_true; lra).
  rewrite H1. reflexivity.
Qed.

Lemma X9_witness :
  suspiciousMin defaultConfig == 0.50 /\ rejectMin defaultConfig == 0.80
  /\ forall now this factors,
       let r := FraudDetectionService.calculateFinalDecision defaultConfig
                  "analysis-1" exampleTransaction factors "v" None in
       match scoreOf r with
       | Js.Num _ =>
           match UserRiskProfile.riskLevel
                   (fst (UserRiskProfile.updateRiskScore now (scoreOf r) this)) with
           | LevelLOW | LevelMEDIUM => decision r = APPROVE
           | LevelHIGH => decision r = SUSPICIOUS
           | LevelCRITICAL => decision r = REJECT
           end
       | Js.NaN =>
           UserRiskProfile.riskLevel
             (fst (UserRiskProfile.updateRiskScore now (scoreOf r) this)) = LevelCRITICAL
           /\ decision r = APPROVE
       end.
Proof.
  assert (Hs : suspiciousMin defaultConfig == 0.50) by reflexivity.
  assert (Hr : rejectMin defaultConfig == 0.80) by reflexivity.
  split; [exact Hs|]. split; [exact Hr|]. intros now this factors.
  exact (proj2 (X9_riskLevel_matches_decision defaultConfig now this "analysis-1"
                  exampleTransaction factors "v" None Hs Hr)).
Defined.

Lemma arrayIncludes_In xs x : Js.arrayIncludes xs x = true <-> In x xs.
Proof.
  unfold Js.arrayIncludes. rewrite existsb_exists. split.
  - intros (y & Hin & E). apply String.eqb_eq in E. subst. assumption.
  - intros Hin. exists x. split; [assumption | apply String.eqb_refl].
Qed.

(** X10.  [addKnownDevice] keeps the device list a duplicate-free set
    with its counter in step: afterwards the fingerprint is in the list, a
    list without duplicates stays so, a counter equal to the length of the
    list stays so, and adding the same fingerprint again changes nothing
    and does not save. *)
Theorem X10_addKnownDevice_keeps_the_list_sound deviceFingerprint this :
  let this' := fst (UserRiskProfile.addKnownDevice deviceFingerprint this) in
  In deviceFingerprint (UserRiskProfile.knownDevices this')
  /\ (List.NoDup (UserRiskProfile.knownDevices this) ->
      List.NoDup (UserRiskProfile.knownDevices this'))
  /\ (UserRiskProfile.uniqueDevices this
        = Z.of_nat (length (UserRiskProfile.knownDevices this)) ->
      UserRiskProfile.uniqueDevices this'
        = Z.of_nat (length (UserRiskProfile.knownDevices this')))
  /\ UserRiskProfile.addKnownDevice deviceFingerprint this' = (this', false).
Proof.
  cbv zeta. remember (fst (UserRiskProfile.addKnownDevice deviceFingerprint this)) as this'.
  unfold UserRiskProfile.addKnownDevice in Heqthis'.
  destruct (Js.arrayIncludes (UserRiskProfile.knownDevices this) deviceFingerprint) eqn:E;
    simpl in Heqthis'; subst this'.
  - apply arrayIncludes_In in E as Hin. split; [assumption|]. split; [auto|]. split; [auto|].
    unfold UserRiskProfile.addKnownDevice. rewrite E. reflexivity.
  - simpl. split; [apply in_or_app; right; left; reflexivity|]. split; [|split; [reflexivity|]].
    + intros Hnd. apply List.NoDup_app; [assumption | |].
      * constructor; [intros [] | constructor].
      * intros x Hx [<-|[]]. apply arrayIncludes_In in Hx. congruence.
    + unfold UserRiskProfile.addKnownDevice. simpl.
      assert (Hin : Js.arrayIncludes (UserRiskProfile.knownDevices this ++ [deviceFingerprint])%list
                      deviceFingerprint = true)
        by (apply arrayIncludes_In, in_or_app; right; left; reflexivity).
      rewrite Hin. reflexivity.
Qed.

(** ** services/DeviceAnalyzer.ts and services/CacheService.ts: cached records *)

Lemma max_min_clamp x : 0 <= Js.max 0 (Js.min 1 x) <= 1.
Proof.
  unfold Js.max, Js.min. split.
  - apply Q.le_max_l.
  - apply Q.max_lub; [lra | apply Q.le_min_l].
Qed.

Lemma max_min_inside x : 0 <= x <= 1 -> Js.max 0 (Js.min 1 x) == x.
Proof.
  intros [H0 H1]. unfold Js.max, Js.min.
  rewrite Q.min_r by assumption. apply Q.max_r. assumption.
Qed.

(** X11.  [updateDeviceTrust] never fails.  When the cache holds a
    record for the device, the record it leaves has a trust score within
    [0, 1] (the sum of the old score and the delta when that sum is within
    the bounds), one more transaction and the same flag; when there is no
    record, or Redis is not connected, the state is unchanged. *)
Theorem X11_updateDeviceTrust_clamps X fingerprint trustDelta w :
  exists w',
    DeviceAnalyzer.updateDeviceTrust X fingerprint trustDelta w = (Returned tt, w')
    /\ match fst (CacheService.getDeviceInfo X fingerprint w) with
       | Returned (Some info) =>
           exists info',
             fst (CacheService.getDeviceInfo X fingerprint w') = Returned (Some info')
             /\ 0 <= trustScore info' <= 1
             /\ (0 <= trustScore info + trustDelta <= 1 ->
                 trustScore info' == trustScore info + trustDelta)
             /\ device_transactionCount info' = (device_transactionCount info + 1)%Z
             /\ isFlagged info' = isFlagged info
       | _ => w' = w
       end.
Proof.
  unfold DeviceAnalyzer.updateDeviceTrust, CacheService.getDeviceInfo, CacheService.setDeviceInfo,
    bind, get, ret, modify.
  destruct (redisConnected w) eqn:Hr; simpl; [|eauto].
  destruct (deviceKeys w !! CacheService.hashValue X fingerprint) as [info|] eqn:Hk; simpl;
    rewrite ?Hr; simpl; [|eauto].
  eexists. split; [reflexivity|]. simpl. rewrite Hr. simpl. rewrite lookup_insert_eq.
  eexists. split; [reflexivity|]. simpl.
  split; [apply max_min_clamp|]. split; [apply max_min_inside|]. auto.
Qed.

(** X12.  The blocklist cache, with Redis connected: an entry added by
    [addToBlocklistCache] is what [isInBlocklist] returns for its type and
    value, [removeFromBlocklistCache] makes the lookup return nothing
    again, and neither touches the answer for any other key (a key being
    the type and the 16-character hash prefix of the value). *)
Theorem X12_blocklist_cache_round_trip X entry w :
  redisConnected w = true ->
  let type := entry_type entry in
  let value := entry_value entry in
  let w1 := snd (CacheService.addToBlocklistCache X entry w) in
  let w2 := snd (CacheService.removeFromBlocklistCache X type value w1) in
  fst (CacheService.isInBlocklist X type value w1) = Returned (Some entry)
  /\ fst (CacheService.isInBlocklist X type value w2) = Returned None
  /\ (forall type' value',
        (type', CacheService.hashValue X value') <> (type, CacheService.hashValue X value) ->
        fst (CacheService.isInBlocklist X type' value' w1)
          = fst (CacheService.isInBlocklist X type' value' w)
        /\ fst (CacheService.isInBlocklist X type' value' w2)
          = fst (CacheService.isInBlocklist X type' value' w)).
Proof.
  intros Hr. cbv zeta.
  unfold CacheService.addToBlocklistCache, CacheService.removeFromBlocklistCache,
    CacheService.isInBlocklist, bind, get, ret, modify.
  rewrite Hr. simpl. rewrite Hr. simpl. rewrite Hr. simpl.
  split; [rewrite lookup_insert_eq; reflexivity|].
  split; [rewrite lookup_delete_eq; reflexivity|].
  intros type' value' Hne. rewrite lookup_delete_ne by congruence.
  rewrite lookup_insert_ne by congruence. auto.
Qed.

Lemma X12_witness :
  redisConnected emptyWorld = true
  /\ fst (CacheService.isInBlocklist exampleExternals "RECIPIENT" "recipient-1"
            (snd (CacheService.addToBlocklistCache exampleExternals blockedEntry emptyWorld)))
     = Returned (Some blockedEntry).
Proof.
  assert (H : redisConnected emptyWorld = true) by reflexivity.
  split; [exact H|].
  exact (proj1 (X12_blocklist_cache_round_trip exampleExternals blockedEntry emptyWorld H)).
Defined.

(** ** services/RecipientAnalyzer.ts: the blocklist lookup *)




(** ** services/VelocityAnalyzer.ts *)

Lemma getVelocity_run userId window w :
  CacheService.getVelocity userId window w
  = (Returned (if redisConnected w
               then (default 0%Z (velocityCountKeys w !! (userId, window)),
                     default 0 (velocityAmountKeys w !! (userId, window)))
               else (0%Z, 0)), w).
Proof.
  unfold CacheService.getVelocity, bind, get, ret. destruct (redisConnected w); reflexivity.
Qed.

Lemma incrementVelocity_run userId window amount w :
  CacheService.incrementVelocity userId window amount w
  = if redisConnected w
    then (Returned ((default 0%Z (velocityCountKeys w !! (userId, window)) + 1)%Z,
                    default 0 (velocityAmountKeys w !! (userId, window)) + amount),
          with_velocityKeys
            (fun m => <[(userId, window) :=
                          (default 0%Z (velocityCountKeys w !! (userId, window)) + 1)%Z]> m)
            (fun m => <[(userId, window) :=
                          default 0 (velocityAmountKeys w !! (userId, window)) + amount]> m) w)
    else (Returned (0%Z, 0), w).
Proof.
  unfold CacheService.incrementVelocity, bind, get, ret, modify.
  destruct (redisConnected w); reflexivity.
Qed.

(** The counters read by [getVelocityData]. *)
Lemma getVelocityData_run userId w :
  exists vd,
    VelocityAnalyzer.getVelocityData userId w = (Returned vd, w)
    /\ uniqueRecipientsFiveMin vd = 0%Z
    /\ (redisConnected w = false ->
        transactionsFiveMin vd = 0%Z /\ transactionsOneHour vd = 0%Z
        /\ transactionsTwentyFourHours vd = 0%Z).
Proof.
  unfold VelocityAnalyzer.getVelocityData.
  rewrite (bind_returned _ _ _ _ _ (getVelocity_run userId W5m w)).
  rewrite (bind_returned _ _ _ _ _ (getVelocity_run userId W1h w)).
  rewrite (bind_returned _ _ _ _ _ (getVelocity_run userId W24h w)).
  eexists. split; [reflexivity|]. split; [reflexivity|].
  intros ->. simpl. auto.
Qed.

(** What [incrementVelocity] leaves in Redis. *)
Lemma velocity_incrementVelocity_run userId amount w :
  exists w',
    VelocityAnalyzer.incrementVelocity userId amount w = (Returned tt, w')
    /\ sameBlocklist w w'
    /\ (redisConnected w = false -> w' = w)
    /\ (redisConnected w = true ->
        forall window,
          velocityCountKeys w' !! (userId, window)
            = Some (default 0%Z (velocityCountKeys w !! (userId, window)) + 1)%Z
          /\ velocityAmountKeys w' !! (userId, window)
            = Some (default 0 (velocityAmountKeys w !! (userId, window)) + amount))
    /\ (forall other window, other <> userId ->
          velocityCountKeys w' !! (other, window) = velocityCountKeys w !! (other, window)
          /\ velocityAmountKeys w' !! (other, window) = velocityAmountKeys w !! (other, window)).
Proof.
  unfold VelocityAnalyzer.incrementVelocity, sameBlocklist.
  destruct (redisConnected w) eqn:Hr.
  - pose proof (incrementVelocity_run userId W5m amount w) as E1. rewrite Hr in E1.
    rewrite (bind_returned _ _ _ _ _ E1). clear E1.
    match goal with |- context [bind _ _ ?w1] => set (w1' := w1) end.
    pose proof (incrementVelocity_run userId W1h amount w1') as E2.
    change (redisConnected w1') with (redisConnected w) in E2. rewrite Hr in E2.
    rewrite (bind_returned _ _ _ _ _ E2). clear E2.
    match goal with |- context [bind _ _ ?w2] => set (w2' := w2) end.
    pose proof (incrementVelocity_run userId W24h amount w2') as E3.
    change (redisConnected w2') with (redisConnected w) in E3. rewrite Hr in E3.
    rewrite (bind_returned _ _ _ _ _ E3). clear E3.
    eexists. split; [reflexivity|]. split; [simpl; auto|]. split; [discriminate|]. split.
    + intros _ window. unfold w2', w1'. simpl.
      destruct window; simpl;
        repeat first [ rewrite lookup_insert_eq | rewrite lookup_insert_ne by congruence ];
        auto.
    + intros other window Hne. unfold w2', w1'. simpl.
      repeat rewrite lookup_insert_ne by congruence. auto.
  - pose proof (incrementVelocity_run userId W5m amount w) as E1. rewrite Hr in E1.
    rewrite (bind_returned _ _ _ _ _ E1).
    pose proof (incrementVelocity_run userId W1h amount w) as E2. rewrite Hr in E2.
    rewrite (bind_returned _ _ _ _ _ E2).
    pose proof (incrementVelocity_run userId W24h amount w) as E3. rewrite Hr in E3.
    rewrite (bind_returned _ _ _ _ _ E3).
    exists w. split; [reflexivity|]. split; [auto|]. split; [reflexivity|].
    split; [discriminate | auto].
Qed.

(** X14.  With Redis connected, one run of the velocity analyzer counts
    the transaction in all three windows of its user: afterwards
    [getVelocity] returns, for each window, one more transaction and the
    amount added to the total; the counters of every other user read as
    before. *)
Theorem X14_velocity_counts_the_transaction cfg userId transactionId amount recipientId w :
  redisConnected w = true ->
  exists f w',
    VelocityAnalyzer.analyze cfg userId transactionId amount recipientId w = (Returned f, w')
    /\ (forall window,
          fst (CacheService.getVelocity userId window w')
          = Returned ((default 0%Z (velocityCountKeys w !! (userId, window)) + 1)%Z,
                      default 0 (velocityAmountKeys w !! (userId, window)) + amount))
    /\ (forall other window, other <> userId ->
          fst (CacheService.getVelocity other window w')
          = fst (CacheService.getVelocity other window w)).
Proof.
  intros Hr. unfold VelocityAnalyzer.analyze.
  destruct (getVelocityData_run userId w) as (vd & E1 & _).
  destruct (velocity_incrementVelocity_run userId amount w)
    as (w' & E2 & (Hr' & _) & _ & Hinc & Hother).
  rewrite Hr in Hr'.
  eexists _, w'. split; [|split].
  - apply tryCatch_returned.
    rewrite (bind_returned _ _ _ _ _ E1), (bind_returned _ _ _ _ _ E2). reflexivity.
  - intros window. rewrite getVelocity_run, Hr'. simpl.
    destruct (Hinc Hr window) as [-> ->]. reflexivity.
  - intros other window Hne. rewrite !getVelocity_run, Hr, Hr'. simpl.
    destruct (Hother other window Hne) as [-> ->]. reflexivity.
Qed.

Lemma X14_witness :
  redisConnected busyWorld = true
  /\ exists f w',
       VelocityAnalyzer.analyze defaultConfig "user-1" "tx-1" 110 "recipient-1" busyWorld
       = (Returned f, w')
       /\ fst (CacheService.getVelocity "user-1" W5m w')
          = Returned ((default 0%Z (velocityCountKeys busyWorld !! ("user-1", W5m)) + 1)%Z,
                      default 0 (velocityAmountKeys busyWorld !! ("user-1", W5m)) + 110).
Proof.
  assert (Hr : redisConnected busyWorld = true) by reflexivity.
  split; [exact Hr|].
  destruct (X14_velocity_counts_the_transaction defaultConfig "user-1" "tx-1" 110 "recipient-1"
              busyWorld Hr) as (f & w' & E & Hcount & _).
  exists f, w'. split; [exact E | exact (Hcount W5m)].
Defined.

(** X15.  Without Redis the velocity analyzer fails open: under positive
    limits it returns a VELOCITY factor of score 0 and contribution 0, and
    the state is unchanged, so nothing is counted. *)
Theorem X15_velocity_fails_open cfg userId transactionId amount recipientId w :
  redisConnected w = false ->
  (0 < maxTransfersPerFiveMin cfg)%Z -> (0 < maxTransfersPerHour cfg)%Z ->
  (0 < maxTransfersPerDay cfg)%Z ->
  exists f,
    VelocityAnalyzer.analyze cfg userId transactionId amount recipientId w = (Returned f, w)
    /\ method f = VELOCITY /\ score f == 0 /\ contributedScore f == 0.
Proof.
  intros Hr H5 H1 H24. unfold VelocityAnalyzer.analyze.
  destruct (getVelocityData_run userId w) as (vd & E1 & Hu & Hz).
  destruct (Hz Hr) as (Z5 & Z1 & Z24).
  destruct (velocity_incrementVelocity_run userId amount w) as (w' & E2 & _ & Hsame & _).
  rewrite (Hsame Hr) in E2.
  eexists. split.
  - apply tryCatch_returned.
    rewrite (bind_returned _ _ _ _ _ E1), (bind_returned _ _ _ _ _ E2). reflexivity.
  - assert (Hs : VelocityAnalyzer.uncappedScore cfg vd amount recipientId = 0).
    { unfold VelocityAnalyzer.uncappedScore, VelocityAnalyzer.windowRule,
        VelocityAnalyzer.checkAmountSpike, VelocityAnalyzer.checkRapidDiverseTransfers.
      rewrite Z5, Z1, Z24, Hu.
      assert (E5 : (0 >=? maxTransfersPerFiveMin cfg)%Z = false) by lia.
      assert (E1' : (0 >=? maxTransfersPerHour cfg)%Z = false) by lia.
      assert (E24 : (0 >=? maxTransfersPerDay cfg)%Z = false) by lia.
      rewrite E5, E1', E24. reflexivity. }
    simpl. rewrite Hs. split; [reflexivity|]. split; reflexivity.
Qed.

Lemma X15_witness :
  redisConnected cachelessWorld = false
  /\ (0 < maxTransfersPerFiveMin defaultConfig)%Z /\ (0 < maxTransfersPerHour defaultConfig)%Z
  /\ (0 < maxTransfersPerDay defaultConfig)%Z
  /\ exists f,
       VelocityAnalyzer.analyze defaultConfig "user-1" "tx-1" 110 "recipient-1" cachelessWorld
       = (Returned f, cachelessWorld)
       /\ method f = VELOCITY /\ score f == 0 /\ contributedScore f == 0.
Proof.
  assert (Hr : redisConnected cachelessWorld = false) by reflexivity.
  assert (H5 : (0 < maxTransfersPerFiveMin defaultConfig)%Z) by reflexivity.
  assert (H1 : (0 < maxTransfersPerHour defaultConfig)%Z) by reflexivity.
  assert (H24 : (0 < maxTransfersPerDay defaultConfig)%Z) by reflexivity.
  split; [exact Hr|]. split; [exact H5|]. split; [exact H1|]. split; [exact H24|].
  exact (X15_velocity_fails_open defaultConfig "user-1" "tx-1" 110 "recipient-1" cachelessWorld
           Hr H5 H1 H24).
Defined.

(** ** services/TimeAnalyzer.ts *)

Lemma arrayIncludesZ_In xs n : Js.arrayIncludesZ xs n = true <-> In n xs.
Proof.
  unfold Js.arrayIncludesZ. rewrite existsb_exists. split.
  - intros (y & Hin & E). apply Z.eqb_eq in E. subst. assumption.
  - intros Hin. exists n. split; [assumption | apply Z.eqb_refl].
Qed.

Lemma fold_minDistance hour preferredHours start k :
  (k <= fold_left (fun minDistance prefHour =>
                     Z.min minDistance
                       (Z.min (Z.abs (hour - prefHour)) (24 - Z.abs (hour - prefHour))))
                  preferredHours start)%Z
  <-> (k <= start)%Z /\ forall p, In p preferredHours -> (k <= hourDistance hour p)%Z.
Proof.
  revert start. induction preferredHours as [|p ps IH]; intros start; simpl.
  - split; [intros H; split; [assumption | intros p []] | intros [H _]; assumption].
  - rewrite IH. unfold hourDistance. split.
    + intros [H1 H2]. split; [lia|]. intros q [<-|Hq]; [lia | auto].
    + intros [H1 H2]. split; [|auto]. specialize (H2 p (or_introl eq_refl)). lia.
Qed.

(** [getMinHourDistance] is the least clock distance to a preferred hour. *)
Lemma getMinHourDistance_ge hour preferredHours k :
  (k <= 24)%Z ->
  (k <= TimeAnalyzer.getMinHourDistance hour preferredHours)%Z
  <-> forall p, In p preferredHours -> (k <= hourDistance hour p)%Z.
Proof.
  intros Hk. unfold TimeAnalyzer.getMinHourDistance. cbv zeta.
  rewrite fold_minDistance. tauto.
Qed.

(** X16.  The unusual-hour rule goes by the distance on the 24-hour
    clock to the nearest preferred hour: with some preferred hour, the rule
    scores 0.10 when every preferred hour is at least 6 hours away, 0.05
    when every one is at least 3 hours away and one is closer than 6, and
    nothing when one is closer than 3. *)
Theorem X16_unusual_hour_goes_by_clock_distance hour preferredHours :
  preferredHours <> [] ->
  ((forall p, In p preferredHours -> (6 <= hourDistance hour p)%Z) ->
   TimeAnalyzer.checkUnusualHour hour preferredHours = hit 0.10)
  /\ ((forall p, In p preferredHours -> (3 <= hourDistance hour p)%Z) ->
      (exists p, In p preferredHours /\ (hourDistance hour p < 6)%Z) ->
      TimeAnalyzer.checkUnusualHour hour preferredHours = hit 0.05)
  /\ ((exists p, In p preferredHours /\ (hourDistance hour p < 3)%Z) ->
      TimeAnalyzer.checkUnusualHour hour preferredHours = notDetected).
Proof.
  intros Hne.
  assert (Hself : hourDistance hour hour = 0%Z) by (unfold hourDistance; lia).
  assert (Hout : (forall p, In p preferredHours -> (3 <= hourDistance hour p)%Z) ->
                 Js.arrayIncludesZ preferredHours hour = false).
  { intros Hall. destruct (Js.arrayIncludesZ preferredHours hour) eqn:E; [|reflexivity].
    apply arrayIncludesZ_In in E. specialize (Hall hour E). lia. }
  unfold TimeAnalyzer.checkUnusualHour.
  destruct preferredHours as [|p0 ps]; [congruence|].
  set (l := p0 :: ps) in *.
  split; [|split].
  - intros Hall. rewrite Hout by (intros p Hp; specialize (Hall p Hp); lia). simpl.
    assert (E : (TimeAnalyzer.getMinHourDistance hour l >=? 6)%Z = true).
    { apply Z.geb_le. apply getMinHourDistance_ge; [lia | assumption]. }
    rewrite E. reflexivity.
  - intros Hall (p & Hp & Hlt). rewrite Hout by assumption. simpl.
    assert (E6 : (TimeAnalyzer.getMinHourDistance hour l >=? 6)%Z = false).
    { destruct (TimeAnalyzer.getMinHourDistance hour l >=? 6)%Z eqn:E; [|reflexivity].
      apply Z.geb_le in E.
      pose proof (proj1 (getMinHourDistance_ge hour l 6 ltac:(lia)) E p Hp). lia. }
    assert (E3 : (TimeAnalyzer.getMinHourDistance hour l >=? 3)%Z = true).
    { apply Z.geb_le. apply getMinHourDistance_ge; [lia | assumption]. }
    rewrite E6, E3. reflexivity.
  - intros (p & Hp & Hlt).
    destruct (Js.arrayIncludesZ l hour); simpl; [reflexivity|].
    assert (E6 : (TimeAnalyzer.getMinHourDistance hour l >=? 6)%Z = false).
    { destruct (TimeAnalyzer.getMinHourDistance hour l >=? 6)%Z eqn:E; [|reflexivity].
      apply Z.geb_le in E.
      pose proof (proj1 (getMinHourDistance_ge hour l 6 ltac:(lia)) E p Hp). lia. }
    assert (E3 : (TimeAnalyzer.getMinHourDistance hour l >=? 3)%Z = false).
    { destruct (TimeAnalyzer.getMinHourDistance hour l >=? 3)%Z eqn:E; [|reflexivity].
      apply Z.geb_le in E.
      pose proof (proj1 (getMinHourDistance_ge hour l 3 ltac:(lia)) E p Hp). lia. }
    rewrite E6, E3. reflexivity.
Qed.

Lemma X16_witness :
  [9; 10; 11]%Z <> []
  /\ TimeAnalyzer.checkUnusualHour 3 [9; 10; 11]%Z = hit 0.10
  /\ TimeAnalyzer.checkUnusualHour 23 [9; 10; 11]%Z = hit 0.10.
Proof.
  assert (Hne : [9; 10; 11]%Z <> []) by discriminate.
  split; [exact Hne|]. split.
  - apply (proj1 (X16_unusual_hour_goes_by_clock_distance 3 [9; 10; 11]%Z Hne)).
    intros p [<-|[<-|[<-|[]]]]; vm_compute; discriminate.
  - apply (proj1 (X16_unusual_hour_goes_by_clock_distance 23 [9; 10; 11]%Z Hne)).
    intros p [<-|[<-|[<-|[]]]]; vm_compute; discriminate.
Defined.

Lemma filter_nil_forall {A} (P : A -> bool) (l : list A) :
  List.filter P l = [] -> forall x, In x l -> P x = false.
Proof.
  induction l as [|y ys IH]; simpl; intros H x Hin; [contradiction|].
  destruct (P y) eqn:E; [discriminate|].
  destruct Hin as [<-|Hin]; [assumption | auto].
Qed.

(** Every transaction falls on exactly one of the seven days. *)
Lemma dayCounts_total (slotOf : Z -> Z) (txs : list HistoryTransaction) :
  (forall tx, In tx txs -> (0 <= slotOf (tx_timestamp tx) < 7)%Z) ->
  list_sum (List.map (fun slot =>
                        length (List.filter (fun tx => (slotOf (tx_timestamp tx) =? slot)%Z) txs))
                     [0; 1; 2; 3; 4; 5; 6]%Z)
  = length txs.
Proof.
  induction txs as [|tx txs IH]; intros Hrange; [reflexivity|].
  assert (Hd : (0 <= slotOf (tx_timestamp tx) < 7)%Z) by (apply Hrange; left; reflexivity).
  specialize (IH (fun t Ht => Hrange t (or_intror Ht))).
  simpl in *.
  assert (Hcase : slotOf (tx_timestamp tx) = 0%Z \/ slotOf (tx_timestamp tx) = 1%Z
                  \/ slotOf (tx_timestamp tx) = 2%Z \/ slotOf (tx_timestamp tx) = 3%Z
                  \/ slotOf (tx_timestamp tx) = 4%Z \/ slotOf (tx_timestamp tx) = 5%Z
                  \/ slotOf (tx_timestamp tx) = 6%Z) by lia.
  destruct Hcase as [E|[E|[E|[E|[E|[E|E]]]]]]; rewrite E; simpl; lia.
Qed.

(** X17.  A history of at least ten transactions always yields some
    preferred day: seven days share the transactions, so one of them holds
    at least the 5 percent that [buildPreferredDays] asks for.  The day of
    a timestamp lies in 0..6. *)
Theorem X17_preferred_days_are_never_empty X userHistory :
  (10 <= length (transactions userHistory))%nat ->
  (forall tx, In tx (transactions userHistory) -> (0 <= getDay X (tx_timestamp tx) < 7)%Z) ->
  TimeAnalyzer.buildPreferredDays X (Some userHistory) <> [].
Proof.
  intros Hlen Hrange Hnil. unfold TimeAnalyzer.buildPreferredDays in Hnil.
  assert (E : (length (transactions userHistory) <? 10)%nat = false) by (apply Nat.ltb_ge; lia).
  rewrite E in Hnil. unfold TimeAnalyzer.preferredSlots in Hnil. cbv zeta in Hnil.
  pose proof (filter_nil_forall _ _ Hnil) as Hall. clear Hnil.
  pose proof (dayCounts_total (getDay X) (transactions userHistory) Hrange) as Hsum.
  set (n := length (transactions userHistory)) in *.
  set (count := fun slot : Z =>
         length (List.filter (fun tx => (getDay X (tx_timestamp tx) =? slot)%Z)
                             (transactions userHistory))) in *.
  assert (Hsmall : forall slot, In slot [0; 1; 2; 3; 4; 5; 6]%Z -> (20 * count slot < n)%nat).
  { intros slot Hin. specialize (Hall slot Hin). apply geb_false in Hall.
    unfold Qlt in Hall. simpl in Hall. fold (count slot) in Hall. lia. }
  simpl in Hsum.
  pose proof (Hsmall 0%Z ltac:(simpl; tauto)) as H0.
  pose proof (Hsmall 1%Z ltac:(simpl; tauto)) as H1.
  pose proof (Hsmall 2%Z ltac:(simpl; tauto)) as H2.
  pose proof (Hsmall 3%Z ltac:(simpl; tauto)) as H3.
  pose proof (Hsmall 4%Z ltac:(simpl; tauto)) as H4.
  pose proof (Hsmall 5%Z ltac:(simpl; tauto)) as H5.
  pose proof (Hsmall 6%Z ltac:(simpl; tauto)) as H6.
  lia.
Qed.

Lemma X17_witness :
  (10 <= length (transactions regularHistory))%nat
  /\ TimeAnalyzer.buildPreferredDays exampleExternals (Some regularHistory) <> [].
Proof.
  assert (Hlen : (10 <= length (transactions regularHistory))%nat) by (simpl; lia).
  assert (Hrange : forall tx, In tx (transactions regularHistory) ->
                     (0 <= getDay exampleExternals (tx_timestamp tx) < 7)%Z).
  { intros tx _. simpl. apply Z.mod_pos_bound. lia. }
  split; [exact Hlen|].
  exact (X17_preferred_days_are_never_empty exampleExternals regularHistory Hlen Hrange).
Defined.

(** ** services/MLModelService.ts *)

(** X18.  [loadModel] never fails and always leaves the service loaded,
    and [reloadModel] ends in the same state.  The version it reports is
    the rule-based one when the model file is missing, the configured one
    when the file is there and passes the hash check (or no check is asked
    for), and otherwise the fallback: rule-based, prefixed with
    [fallback-] when a fallback file exists. *)
Theorem X18_loadModel_never_fails cfg X w :
  exists w',
    MLModelService.loadModel cfg X w = (Returned tt, w')
    /\ MLModelService.reloadModel cfg X w = (Returned tt, w')
    /\ isLoaded w' = true
    /\ (fileExists X (modelPath cfg) = false -> loadedModelVersion w' = RuleBasedModel.version)
    /\ (fileExists X (modelPath cfg) = true ->
        (modelHashValidation cfg
         && match expectedModelHash cfg with Some h => Js.truthy h | None => false end
         && negb (modelHashMatches X))%bool = false ->
        loadedModelVersion w' = ml_modelVersion cfg)
    /\ (fileExists X (modelPath cfg) = true ->
        (modelHashValidation cfg
         && match expectedModelHash cfg with Some h => Js.truthy h | None => false end
         && negb (modelHashMatches X))%bool = true ->
        loadedModelVersion w'
        = if (Js.truthy (fallbackModelPath cfg) && fileExists X (fallbackModelPath cfg))%bool
          then ("fallback-" ++ RuleBasedModel.version)%string
          else RuleBasedModel.version).
Proof.
  unfold MLModelService.reloadModel, MLModelService.loadModel, tryCatch, bind, modify, throw, ret.
  destruct (fileExists X (modelPath cfg)); simpl.
  - destruct (modelHashValidation cfg); simpl.
    + destruct (match expectedModelHash cfg with Some h => Js.truthy h | None => false end); simpl.
      * destruct (modelHashMatches X); simpl.
        -- eexists. repeat split; try reflexivity; discriminate.
        -- destruct (Js.truthy (fallbackModelPath cfg) && fileExists X (fallbackModelPath cfg))%bool;
             simpl; eexists; repeat split; try reflexivity; discriminate.
      * eexists. repeat split; try reflexivity; discriminate.
    + eexists. repeat split; try reflexivity; discriminate.
  - eexists. repeat split; try reflexivity; discriminate.
Qed.

(** X19.  [predict] throws before a model is loaded and otherwise
    returns the rule-based prediction whatever version is loaded: the score
    of [RuleBasedModel.predict] on the 26 features, between 0 and 0.95,
    with confidence 0.7 and the loaded version, the state unchanged.  The
    model factor built from it contributes at most 0.285. *)
Theorem X19_predict_is_rule_based transactionId features w :
  (isLoaded w = false ->
   MLModelService.predict transactionId features w = (Thrown, w))
  /\ (isLoaded w = true ->
      exists p,
        MLModelService.predict transactionId features w = (Returned p, w)
        /\ prediction_score p
           = fst (RuleBasedModel.predict (MLModelService.featuresToArray features))
        /\ length (MLModelService.featuresToArray features) = 26%nat
        /\ 0 <= prediction_score p <= 0.95
        /\ prediction_confidence p == 0.7
        /\ prediction_modelVersion p = loadedModelVersion w
        /\ contributedScore (FraudDetectionService.modelFactor p) <= 0.285).
Proof.
  split; intros Hl.
  - unfold MLModelService.predict, bind, get, throw. rewrite Hl. reflexivity.
  - pose proof (ruleBased_score_bounds (MLModelService.featuresToArray features)) as Hb.
    eexists. split.
    { unfold MLModelService.predict, bind, get, tryCatch, ret. rewrite Hl. reflexivity. }
    unfold FraudDetectionService.modelFactor.
    cbn [contributedScore prediction_score prediction_confidence prediction_modelVersion].
    split; [reflexivity|]. split; [reflexivity|]. split; [exact Hb|].
    split; [reflexivity|]. split; [reflexivity|]. lra.
Qed.

(** ** kafka/EventConsumer.ts *)

Lemma string_truthy s : Js.truthy s = true <-> s <> "".
Proof.
  unfold Js.truthy. destruct (String.eqb s "") eqn:E; simpl.
  - apply String.eqb_eq in E. split; [discriminate | congruence].
  - apply String.eqb_neq in E. split; auto.
Qed.

Arguments EventConsumer.field : simpl never.

(** X20.  [validateEvent] accepts exactly the events that carry a
    payload whose [transactionId], [userId] and [recipientId] are non-empty
    strings and whose [amount] is a positive number; no other field is
    looked at. *)
Theorem X20_validateEvent_accepts event :
  EventConsumer.validateEvent event = true <-> validPayload event.
Proof.
  unfold EventConsumer.validateEvent, validPayload. split.
  - destruct (EventConsumer.falsy (Some event) || _)%bool eqn:E0; [discriminate|].
    apply orb_false_iff in E0. destruct E0 as [_ Hp].
    destruct (EventConsumer.field (Some event) "payload") as [payload|] eqn:Fp;
      [|simpl in Hp; discriminate].
    destruct (EventConsumer.field (Some payload) "transactionId") as [[|?|?|tid|?|?]|] eqn:Ft;
      simpl; rewrite ?orb_true_r; try discriminate.
    destruct (Js.truthy tid) eqn:Tt; simpl; [|discriminate].
    destruct (EventConsumer.field (Some payload) "userId") as [[|?|?|uid|?|?]|] eqn:Fu;
      simpl; rewrite ?orb_true_r; try discriminate.
    destruct (Js.truthy uid) eqn:Tu; simpl; [|discriminate].
    destruct (EventConsumer.field (Some payload) "amount") as [[|?|amt|?|?|?]|] eqn:Fa;
      simpl; try discriminate.
    destruct (amt <=? 0) eqn:Ta; [discriminate|].
    destruct (EventConsumer.field (Some payload) "recipientId") as [[|?|?|rid|?|?]|] eqn:Fr;
      simpl; rewrite ?orb_true_r; try discriminate.
    destruct (Js.truthy rid) eqn:Tr; simpl; [|discriminate].
    intros _. exists payload, tid, uid, rid, amt.
    apply string_truthy in Tt, Tu, Tr. apply leb_false in Ta. auto 12.
  - intros (payload & tid & uid & rid & amt & Fp & Ft & Nt & Fu & Nu & Fr & Nr & Fa & Pa).
    apply string_truthy in Nt, Nu, Nr.
    assert (Ta : (amt <=? 0) = false) by (apply leb_false; assumption).
    assert (Hev : EventConsumer.falsy (Some event) = false).
    { destruct event; unfold EventConsumer.field in Fp; try discriminate. reflexivity. }
    assert (Hpl : EventConsumer.falsy (Some payload) = false).
    { destruct payload; unfold EventConsumer.field in Ft; try discriminate. reflexivity. }
    rewrite Fp, Hev, Hpl. simpl. rewrite Ft, Fu, Fa, Fr. simpl. rewrite Nt, Nu, Nr, Ta.
    reflexivity.
Qed.

(** X21.  A message that parses and passes validation is handed to the
    message handler exactly once, with no warning logged; [handleMessage]
    throws, so that the message is retried, exactly when the handler
    fails. *)
Theorem X21_valid_message_is_dispatched JSON_parse handler rawValue event :
  JSON_parse rawValue = Some event ->
  EventConsumer.validateEvent event = true ->
  let handled := EventConsumer.handleMessage JSON_parse (Some handler) (Some rawValue) in
  dispatched handled = [event]
  /\ thrown handled = negb (handler event)
  /\ ~ In LogWarn (logged handled).
Proof.
  intros Hparse Hvalid. cbv zeta.
  unfold EventConsumer.handleMessage, EventConsumer.parseMessage. rewrite Hparse.
  assert (Hev : EventConsumer.falsy (Some event) = false).
  { unfold EventConsumer.validateEvent in Hvalid.
    destruct (EventConsumer.falsy (Some event)); [discriminate | reflexivity]. }
  rewrite Hev, Hvalid. simpl.
  destruct (handler event); simpl; repeat split; try reflexivity;
    intros [H|[H|[]]]; discriminate.
Qed.

Lemma X21_witness :
  validParse "valid" = Some validEvent
  /\ EventConsumer.validateEvent validEvent = true
  /\ dispatched (EventConsumer.handleMessage validParse (Some (fun _ => false)) (Some "valid"))
     = [validEvent]
  /\ thrown (EventConsumer.handleMessage validParse (Some (fun _ => false)) (Some "valid"))
     = true.
Proof.
  assert (Hparse : validParse "valid" = Some validEvent) by reflexivity.
  assert (Hvalid : EventConsumer.validateEvent validEvent = true) by (vm_compute; reflexivity).
  split; [exact Hparse|]. split; [exact Hvalid|].
  destruct (X21_valid_message_is_dispatched validParse (fun _ => false) "valid" validEvent
              Hparse Hvalid) as (Hd & Ht & _).
  split; [exact Hd | exact Ht].
Defined.

(** ** The caps of the scorers *)

Section Caps.
Variable cfg : Config.
Variable X : Externals.
Variable e : Env.

Lemma capped_min m s c w cs n d :
  c == cap m ->
  capped {| method := m; score := Js.min s c; weight := w; contributedScore := cs;
            scoreIsNaN := n; details := d |}.
Proof. intros Hc. left. simpl. rewrite <- Hc. apply Q.le_min_r. Qed.

Lemma capped_unavailable m w :
  capped {| method := m; score := 0; weight := w; contributedScore := 0;
            scoreIsNaN := false; details := DetailsError |}.
Proof. left. simpl. destruct m; simpl; lra. Qed.

Lemma amount_capped u t a c h :
  safe X anyWorld (AmountAnalyzer.analyze cfg e u t a c h) capped.
Proof.
  unfold AmountAnalyzer.analyze. apply safe_tryCatch; [apply invariant_True | |].
  - apply guarded_of_safe, safe_ret. apply capped_min. reflexivity.
  - apply safe_ret, capped_unavailable.
Qed.

Lemma geographic_capped u t l h k :
  safe X anyWorld (GeographicAnalyzer.analyze cfg e u t l h k) capped.
Proof.
  unfold GeographicAnalyzer.analyze. apply safe_tryCatch; [apply invariant_True | |].
  - apply guarded_of_safe, safe_ret. apply capped_min. reflexivity.
  - apply safe_ret, capped_unavailable.
Qed.

Lemma time_capped u t ts h ph pd :
  safe X anyWorld (TimeAnalyzer.analyze cfg X e u t ts h ph pd) capped.
Proof.
  unfold TimeAnalyzer.analyze. apply safe_tryCatch; [apply invariant_True | |].
  - apply guarded_of_safe, safe_ret. apply capped_min. reflexivity.
  - apply safe_ret, capped_unavailable.
Qed.

Lemma velocity_capped u t a r :
  safe X anyWorld (VelocityAnalyzer.analyze cfg u t a r) capped.
Proof.
  unfold VelocityAnalyzer.analyze. apply safe_tryCatch; [apply invariant_True | |].
  - apply guarded_of_safe.
    eapply safe_bind with (R := fun _ => True); [apply invariant_True | |].
    + unfold VelocityAnalyzer.getVelocityData.
      repeat (eapply safe_bind; [apply invariant_True | apply getVelocity_safe | intros ? _]).
      apply safe_ret. exact I.
    + intros vd _.
      eapply safe_bind with (R := fun _ => True); [apply invariant_True | |].
      * unfold VelocityAnalyzer.incrementVelocity.
        repeat (eapply safe_bind; [apply invariant_True | apply incrementVelocity_safe | intros ? _]).
        apply safe_ret. exact I.
      * intros _ _. apply safe_ret. apply capped_min. reflexivity.
  - apply safe_ret, capped_unavailable.
Qed.

Lemma recipient_capped u t r a h k :
  safe X anyWorld (RecipientAnalyzer.analyze cfg X e u t r a h k) capped.
Proof.
  unfold RecipientAnalyzer.analyze.
  apply safe_tryCatch; [apply invariant_True | |].
  - apply guarded_of_safe.
    eapply safe_bind with (R := fun _ => True);
      [apply invariant_True | apply recipient_checkBlocklist_safe | intros b _].
    destruct b; [apply safe_ret; right; simpl; split; [reflexivity | lra]|].
    eapply safe_bind with (R := fun _ => True);
      [apply invariant_True | apply getRecipientInfo_safe | intros cached _].
    eapply safe_bind with (R := fun _ => True); [apply invariant_True | |].
    + destruct cached as [info|]; [apply safe_ret; exact I|].
      eapply safe_bind with (R := fun _ => True); [apply invariant_True | |].
      * destruct (RecipientAnalyzer.computeRecipientInfo cfg r h);
          [apply setRecipientInfo_safe | apply safe_ret; exact I].
      * intros _ _. apply safe_ret. exact I.
    + intros info _. apply safe_ret. apply capped_min. reflexivity.
  - apply safe_ret, capped_unavailable.
Qed.

Lemma scoreDevice_capped u fp ua k h :
  guarded X anyWorld (DeviceAnalyzer.scoreDevice cfg X u fp ua k h) capped.
Proof.
  unfold DeviceAnalyzer.scoreDevice. cbv zeta.
  eapply guarded_bind with (R := fun _ => True);
    [apply invariant_True
    | eapply guarded_weaken; [apply checkNewDevice_guarded | auto]
    | intros r1 _].
  eapply guarded_bind with (R := fun _ => True); [apply invariant_True | |].
  { apply guarded_of_safe.
    destruct (DeviceAnalyzer.truthyOpt fp); [|apply safe_ret; exact I].
    eapply safe_bind with (R := fun _ => True);
      [apply invariant_True | apply getDeviceInfo_safe | intros cached _].
    destruct cached; [apply safe_ret; exact I|].
    eapply safe_bind with (R := fun _ => True);
      [apply invariant_True | apply setDeviceInfo_safe | intros _ _].
    apply safe_ret. exact I. }
  intros deviceInfo _.
  eapply guarded_bind with (R := fun _ => True);
    [apply invariant_True
    | eapply guarded_weaken; [apply checkDevicePattern_guarded | auto]
    | intros r2 _].
  eapply guarded_bind with (R := fun _ => True);
    [apply invariant_True | apply lengthOf_guarded | intros _ _].
  apply guarded_of_safe, safe_ret. apply capped_min. reflexivity.
Qed.

Lemma device_capped u t fp ua k h :
  safe X anyWorld (DeviceAnalyzer.analyze cfg X e u t fp ua k h) capped.
Proof.
  unfold DeviceAnalyzer.analyze.
  apply safe_tryCatch; [apply invariant_True | |].
  - destruct (negb (DeviceAnalyzer.truthyOpt fp) && negb (DeviceAnalyzer.truthyOpt ua))%bool.
    + apply guarded_of_safe, safe_ret. left. simpl. lra.
    + eapply guarded_bind with (R := fun _ => True); [apply invariant_True | |].
      * apply guarded_of_safe. destruct (DeviceAnalyzer.truthyOpt fp).
        -- apply device_checkBlocklist_safe.
        -- apply safe_ret. exact I.
      * intros b _. destruct b.
        -- apply guarded_of_safe, safe_ret. right. simpl. split; [reflexivity | lra].
        -- apply scoreDevice_capped.
  - apply safe_ret, capped_unavailable.
Qed.

Lemma model_capped t features w p w' :
  MLModelService.predict t features w = (Returned p, w') ->
  capped (FraudDetectionService.modelFactor p).
Proof.
  intros E. left. unfold FraudDetectionService.modelFactor. cbn [score method cap].
  revert E. unfold MLModelService.predict, bind, get, tryCatch, ret, throw.
  destruct (isLoaded w); cbn [negb]; [|discriminate].
  intros E. assert (Hp : prediction_score p
                        = fst (RuleBasedModel.predict (MLModelService.featuresToArray features)))
    by (injection E as <- _; reflexivity).
  rewrite Hp. apply ruleBased_score_bounds.
Qed.

End Caps.

(** X22.  Every factor a scorer hands to the orchestrator with a score
    that is a number respects the cap of its method (velocity 0.45,
    geographic 0.50, amount 0.40, recipient 0.45, time 0.25, device 0.40,
    model 0.95), except for the blocklist factors of the recipient and
    device analyzers, whose score is 1.  (A score that is NaN escapes the
    cap of [Math.min].) *)
Theorem X22_scores_are_capped cfg X e f :
  produced cfg X e f ->
  forall s, rawScoreOf f = Js.Num s ->
    s <= cap (method f) \/ (details f = DetailsBlocked /\ s == 1).
Proof.
  intros Hp s. unfold rawScoreOf. destruct (scoreIsNaN f); [discriminate|].
  intros [= <-]. change (capped f).
  destruct Hp as [u t a c h w f0 w' E | u t a r w f0 w' E | u t l h k w f0 w' E
         | u t r a h k w f0 w' E | u t fp ua k h w f0 w' E | u t ts h ph pd w f0 w' E
         | t features w p w' E].
  - exact (safe_result X _ _ _ _ _ (amount_capped cfg X e u t a c h) E).
  - exact (safe_result X _ _ _ _ _ (velocity_capped cfg X u t a r) E).
  - exact (safe_result X _ _ _ _ _ (geographic_capped cfg X e u t l h k) E).
  - exact (safe_result X _ _ _ _ _ (recipient_capped cfg X e u t r a h k) E).
  - exact (safe_result X _ _ _ _ _ (device_capped cfg X e u t fp ua k h) E).
  - exact (safe_result X _ _ _ _ _ (time_capped cfg X e u t ts h ph pd) E).
  - exact (model_capped t features w p w' E).
Qed.

Lemma X22_witness :
  exists f,
    produced defaultConfig exampleExternals exampleEnv f
    /\ method f = VELOCITY
    /\ exists s, rawScoreOf f = Js.Num s /\ s <= 0.45.
Proof.
  destruct (VelocityAnalyzer.analyze defaultConfig "user-1" "tx-1" 110 "recipient-1" busyWorld)
    as [[f|] w'] eqn:Hrun; [|vm_compute in Hrun; discriminate].
  assert (Hp : produced defaultConfig exampleExternals exampleEnv f)
    by (eapply produced_velocity; exact Hrun).
  assert (Hm : method f = VELOCITY /\ details f <> DetailsBlocked /\ scoreIsNaN f = false).
  { vm_compute in Hrun. injection Hrun as <- _. repeat split. discriminate. }
  destruct Hm as (Hm & Hd & Hn).
  assert (Hs : rawScoreOf f = Js.Num (score f)) by (unfold rawScoreOf; rewrite Hn; reflexivity).
  exists f. split; [exact Hp|]. split; [exact Hm|]. exists (score f). split; [exact Hs|].
  pose proof (X22_scores_are_capped defaultConfig exampleExternals exampleEnv f Hp (score f) Hs)
    as Hcap.
  rewrite Hm in Hcap. destruct Hcap as [Hcap | [Hb _]]; [exact Hcap | contradiction].
Defined.

(** ** services/FraudDetectionService.ts: what a run leaves behind *)

Section Trace.
Variable cfg : Config.
Variable X : Externals.
Variable e : Env.

Lemma saveAnalysis_trace r w :
  exists w',
    FraudDetectionService.saveAnalysis X r w = (Returned tt, w')
    /\ fraud_analyses w' = (fraud_analyses w ++ (if accepted X w r then [r] else []))%list
    /\ sent w' = sent w /\ producerConnected w' = producerConnected w
    /\ redisConnected w' = redisConnected w /\ analysisKeys w' = analysisKeys w
    /\ dbReachable w' = dbReachable w.
Proof.
  unfold FraudDetectionService.saveAnalysis, tryCatch, FraudAnalysisModel.create,
    bind, get, throw, ret, modify, accepted.
  destruct (dbReachable w) eqn:Hd; simpl.
  - destruct (FraudAnalysisModel.validScore X r); simpl.
    + destruct (FraudAnalysisModel.fitsColumns X r); simpl.
      * destruct (existsb _ (fraud_analyses w)); simpl.
        -- eexists. split; [reflexivity|]. rewrite app_nil_r. auto 10.
        -- eexists. split; [reflexivity|]. simpl. auto 10.
      * eexists. split; [reflexivity|]. rewrite app_nil_r. auto 10.
    + eexists. split; [reflexivity|]. rewrite app_nil_r. auto 10.
  - eexists. split; [reflexivity|]. rewrite app_nil_r. auto 10.
Qed.

Lemma publishResult_trace r c w :
  coherent r ->
  exists w',
    FraudDetectionService.publishResult e r c w = (Returned tt, w')
    /\ sent w' = (sent w ++ (if producerConnected w then outbound e r c else []))%list
    /\ fraud_analyses w' = fraud_analyses w /\ producerConnected w' = producerConnected w
    /\ redisConnected w' = redisConnected w /\ analysisKeys w' = analysisKeys w
    /\ dbReachable w' = dbReachable w.
Proof.
  intros Hc. unfold coherent in Hc.
  unfold FraudDetectionService.publishResult, outbound,
    EventPublisher.publishFraudSuspected, EventPublisher.publishManualReviewRequired,
    EventPublisher.publishAnalysisComplete, EventPublisher.publish.
  destruct (decision r); simpl.
  - rewrite (Hc eq_refl). unfold bind, get, ret, modify.
    destruct (producerConnected w) eqn:Hp; simpl;
      (eexists; split; [reflexivity|]; simpl; rewrite ?Hp, ?app_nil_r; auto 10).
  - unfold bind, get, ret, modify.
    destruct (producerConnected w) eqn:Hp; simpl; rewrite ?Hp; simpl;
      (eexists; split; [reflexivity|]; simpl; rewrite ?Hp, ?app_nil_r, <- ?app_assoc; auto 10).
  - unfold bind, get, ret, modify.
    destruct (producerConnected w) eqn:Hp; simpl;
      (eexists; split; [reflexivity|]; simpl; rewrite ?Hp, ?app_nil_r; auto 10).
Qed.

Lemma cacheAnalysis_trace t m w :
  exists w',
    CacheService.cacheAnalysis t m w = (Returned tt, w')
    /\ analysisKeys w' = (if redisConnected w then <[t := m]> (analysisKeys w) else analysisKeys w)
    /\ sent w' = sent w /\ fraud_analyses w' = fraud_analyses w
    /\ producerConnected w' = producerConnected w
    /\ redisConnected w' = redisConnected w /\ dbReachable w' = dbReachable w.
Proof.
  unfold CacheService.cacheAnalysis, bind, get, ret, modify.
  destruct (redisConnected w) eqn:Hr; simpl;
    (eexists; split; [reflexivity|]; simpl; rewrite ?Hr; auto 10).
Qed.

(** Steps 6 to 8 after an analysis: persist, publish, mark. *)
Lemma processTransaction_finish event w r w1 :
  unmarked w (payload_transactionId (payload event)) ->
  FraudDetectionService.analyzeTransaction cfg X e (payload event) (correlationId event) w
  = (Returned r, w1) ->
  stable X w w1 -> coherent r ->
  transactionId r = payload_transactionId (payload event) ->
  exists w',
    FraudDetectionService.processTransaction cfg X e event w
    = (Returned (Some (FraudDetectionService.withAnalysisTime r (finishedAt e - now e)%Z)), w')
    /\ trace X e (correlationId event) r w w'.
Proof.
  intros Hfresh E1 S1 Hc Htid.
  destruct (saveAnalysis_trace r w1) as (w2 & E2 & Ha2 & Hs2 & Hp2 & Hr2 & Hk2 & Hd2).
  destruct (publishResult_trace r (correlationId event) w2 Hc)
    as (w3 & E3 & Hs3 & Ha3 & Hp3 & Hr3 & Hk3 & Hd3).
  destruct (cacheAnalysis_trace (payload_transactionId (payload event)) (markerOf r) w3)
    as (w4 & E4 & Hk4 & Hs4 & Ha4 & Hp4 & Hr4 & Hd4).
  destruct S1 as [Sr Sd Sp Sk _ Sa Ss _].
  exists w4. split.
  - unfold FraudDetectionService.processTransaction. apply tryCatch_returned.
    rewrite (bind_returned _ _ _ _ _ (getCachedAnalysis_run _ w)).
    assert (Hnone : (if redisConnected w
                     then analysisKeys w !! payload_transactionId (payload event)
                     else None) = None)
      by (destruct Hfresh as [-> | ->]; [reflexivity | destruct (redisConnected w); reflexivity]).
    rewrite Hnone.
    rewrite (bind_returned _ _ _ _ _ E1), (bind_returned _ _ _ _ _ E2),
      (bind_returned _ _ _ _ _ E3).
    unfold markerOf in E4. rewrite (bind_returned _ _ _ _ _ E4).
    reflexivity.
  - constructor.
    + congruence.
    + congruence.
    + congruence.
    + rewrite Ha4, Ha3, Ha2, Sa. unfold accepted. rewrite Sd, Sa. reflexivity.
    + rewrite Hs4, Hs3, Hs2, Ss, Hp2, Sp. reflexivity.
    + rewrite Hk4, Hr3, Hr2, Sr, Hk3, Hk2, Sk, Htid. reflexivity.
Qed.

(** An event without a visible marker is analysed; the run leaves the
    trace of the analysis. *)
Lemma processTransaction_trace event w :
  unmarked w (payload_transactionId (payload event)) ->
  exists factors version w',
    let r := FraudDetectionService.calculateFinalDecision cfg (analysisId e) (payload event)
               factors version (correlationId event) in
    FraudDetectionService.processTransaction cfg X e event w
    = (Returned (Some (FraudDetectionService.withAnalysisTime r (finishedAt e - now e)%Z)), w')
    /\ Forall (factor_sound cfg) factors
    /\ trace X e (correlationId event) r w w'.
Proof.
  intros Hfresh.
  destruct (analyzeTransaction_safe cfg X e anyWorld (fun _ => True) (payload event)
              (correlationId event) (invariant_True X) (recipient_any cfg X e _ _ _ _) w I)
    as (r & w1 & E1 & S1 & factors & version & -> & Hall & _).
  destruct (processTransaction_finish event w _ w1 Hfresh E1 S1
              (calculateFinalDecision_coherent cfg _ _ _ _ _) eq_refl) as (w' & E & T).
  exists factors, version, w'. cbv zeta. auto.
Qed.

End Trace.


Lemma existsb_transactionId rows t :
  existsb (fun r => String.eqb (transactionId r) t) rows = false
  <-> forall row, In row rows -> transactionId row <> t.
Proof.
  induction rows as [|r rs IH]; simpl.
  - split; [intros _ row [] | reflexivity].
  - rewrite orb_false_iff, IH. split.
    + intros [H1 H2] row [<-|Hin]; [apply String.eqb_neq; assumption | auto].
    + intros H. split; [apply String.eqb_neq; auto | auto].
Qed.



(** X24.  [processTransaction] never throws: in every state it returns,
    with no analysis exactly when the idempotency marker of the transaction
    is visible, and with the analysis of the run otherwise, whatever fails
    in Redis, the database or the producer. *)
Theorem X24_processTransaction_never_throws cfg X e event w :
  exists outcome w',
    FraudDetectionService.processTransaction cfg X e event w = (Returned outcome, w')
    /\ (outcome = None <-> marked w (payload_transactionId (payload event))).
Proof.
  destruct (marked_or_unmarked w (payload_transactionId (payload event))) as [Hm|Hu].
  - exists None, w. split; [apply processTransaction_marked; assumption | tauto].
  - destruct (processTransaction_trace cfg X e event w Hu) as (factors & version & w' & E & _).
    cbv zeta in E. eexists _, w'. split; [exact E|]. split; [discriminate|].
    intros (Hr & m & Hm). destruct Hu as [Hu|Hu]; congruence.
Qed.

(** X25.  A run never stores a second row for a transaction: when the
    rows of [fraud_analyses] have pairwise different transaction ids before
    [processTransaction], they still have afterwards, also when the marker
    was lost and the event is analysed again. *)
Theorem X25_transaction_rows_stay_unique cfg X e event w :
  List.NoDup (List.map transactionId (fraud_analyses w)) ->
  List.NoDup (List.map transactionId
                (fraud_analyses (snd (FraudDetectionService.processTransaction cfg X e event w)))).
Proof.
  intros Hnd.
  destruct (marked_or_unmarked w (payload_transactionId (payload event))) as [Hm|Hu].
  - rewrite (processTransaction_marked cfg X e event w Hm). exact Hnd.
  - destruct (processTransaction_trace cfg X e event w Hu) as (factors & version & w' & E & _ & T).
    cbv zeta in E, T. rewrite E. simpl. rewrite (trace_analyses _ _ _ _ _ _ T).
    destruct (accepted X w _) eqn:Hacc; [|rewrite app_nil_r; exact Hnd].
    rewrite List.map_app. apply List.NoDup_app; [exact Hnd | |].
    + simpl. constructor; [intros [] | constructor].
    + intros t Hin [<-|[]]. unfold accepted in Hacc.
      apply andb_true_iff in Hacc. destruct Hacc as [_ Hex]. apply negb_true_iff in Hex.
      apply List.in_map_iff in Hin. destruct Hin as (row & Hrow & Hin).
      pose proof (proj1 (existsb_transactionId _ _) Hex row Hin) as Hne. congruence.
Qed.

Lemma X25_witness :
  List.NoDup (List.map transactionId (fraud_analyses emptyWorld))
  /\ List.NoDup (List.map transactionId (fraud_analyses (snd (storableRun emptyWorld)))).
Proof.
  assert (Hnd : List.NoDup (List.map transactionId (fraud_analyses emptyWorld)))
    by (simpl; constructor).
  split; [exact Hnd|].
  exact (X25_transaction_rows_stay_unique defaultConfig exampleExternals storableEnv
           storableEvent emptyWorld Hnd).
Defined.

(** X26.  With Redis connected, the marker an analysed event leaves is
    the decision and the final score of its analysis: [getCachedAnalysis]
    returns exactly these for the transaction afterwards. *)
Theorem X26_marker_records_the_decision cfg X e event w :
  redisConnected w = true ->
  unmarked w (payload_transactionId (payload event)) ->
  exists result w',
    FraudDetectionService.processTransaction cfg X e event w = (Returned (Some result), w')
    /\ CacheService.getCachedAnalysis (payload_transactionId (payload event)) w'
       = (Returned (Some {| cached_decision := decision result;
                            cached_score := finalScore result;
                            cached_scoreIsNull := finalScoreIsNaN result |}), w').
Proof.
  intros Hr Hu.
  destruct (processTransaction_trace cfg X e event w Hu) as (factors & version & w' & E & _ & T).
  cbv zeta in E, T. eexists _, w'. split; [exact E|].
  rewrite getCachedAnalysis_run, (trace_redis _ _ _ _ _ _ T), Hr, (trace_marker _ _ _ _ _ _ T), Hr.
  simpl. rewrite lookup_insert_eq. reflexivity.
Qed.

Lemma X26_witness :
  redisConnected emptyWorld = true
  /\ unmarked emptyWorld (payload_transactionId (payload exampleEvent))
  /\ exists result w',
       exampleRun emptyWorld = (Returned (Some result), w')
       /\ CacheService.getCachedAnalysis "tx-1" w'
          = (Returned (Some {| cached_decision := decision result;
                               cached_score := finalScore result;
                               cached_scoreIsNull := finalScoreIsNaN result |}), w').
Proof.
  assert (Hr : redisConnected emptyWorld = true) by reflexivity.
  assert (Hfresh : unmarked emptyWorld (payload_transactionId (payload exampleEvent)))
    by (right; vm_compute; reflexivity).
  split; [exact Hr|]. split; [exact Hfresh|].
  exact (X26_marker_records_the_decision defaultConfig exampleExternals exampleEnv exampleEvent
           emptyWorld Hr Hfresh).
Defined.

(** X27.  An analysis made while the producer is disconnected is not
    published, and a redelivery does not make up for it: the run sends
    nothing and still writes the marker, so that the redelivered event
    returns at once, with the state unchanged and nothing sent. *)
Theorem X27_offline_producer_drops_the_event cfg X e e' event w :
  producerConnected w = false ->
  redisConnected w = true ->
  unmarked w (payload_transactionId (payload event)) ->
  exists result w',
    FraudDetectionService.processTransaction cfg X e event w = (Returned (Some result), w')
    /\ sent w' = sent w
    /\ FraudDetectionService.processTransaction cfg X e' event w' = (Returned None, w').
Proof.
  intros Hp Hr Hu.
  destruct (processTransaction_trace cfg X e event w Hu) as (factors & version & w' & E & _ & T).
  cbv zeta in E, T. eexists _, w'. split; [exact E|]. split.
  - rewrite (trace_sent _ _ _ _ _ _ T), Hp. apply app_nil_r.
  - apply processTransaction_marked. split.
    + rewrite (trace_redis _ _ _ _ _ _ T). exact Hr.
    + rewrite (trace_marker _ _ _ _ _ _ T), Hr. simpl. eexists. apply lookup_insert_eq.
Qed.

Lemma X27_witness :
  producerConnected offlineWorld = false
  /\ redisConnected offlineWorld = true
  /\ unmarked offlineWorld (payload_transactionId (payload exampleEvent))
  /\ exists result w',
       exampleRun offlineWorld = (Returned (Some result), w')
       /\ sent w' = sent offlineWorld
       /\ exampleRun w' = (Returned None, w').
Proof.
  assert (Hp : producerConnected offlineWorld = false) by reflexivity.
  assert (Hr : redisConnected offlineWorld = true) by reflexivity.
  assert (Hfresh : unmarked offlineWorld (payload_transactionId (payload exampleEvent)))
    by (right; vm_compute; reflexivity).
  split; [exact Hp|]. split; [exact Hr|]. split; [exact Hfresh|].
  exact (X27_offline_producer_drops_the_event defaultConfig exampleExternals exampleEnv
           exampleEnv exampleEvent offlineWorld Hp Hr Hfresh).
Defined.

(** ** services/DeviceAnalyzer.ts in the pipeline *)

Section Device.
Variable cfg : Config.
Variable X : Externals.
Variable e : Env.



(** With [knownDevices] undefined the scoring of a device always throws. *)
Lemma scoreDevice_undefined u fp ua h :
  guarded X anyWorld (DeviceAnalyzer.scoreDevice cfg X u fp ua DevicesUndefined h)
    (fun _ => False).
Proof.
  unfold DeviceAnalyzer.scoreDevice. cbv zeta.
  eapply guarded_bind with (R := fun _ => True);
    [apply invariant_True
    | eapply guarded_weaken; [apply checkNewDevice_guarded | auto]
    | intros r1 _].
  eapply guarded_bind with (R := fun _ => True); [apply invariant_True | |].
  { apply guarded_of_safe.
    destruct (DeviceAnalyzer.truthyOpt fp); [|apply safe_ret; exact I].
    eapply safe_bind with (R := fun _ => True);
      [apply invariant_True | apply getDeviceInfo_safe | intros cached _].
    destruct cached; [apply safe_ret; exact I|].
    eapply safe_bind with (R := fun _ => True);
      [apply invariant_True | apply setDeviceInfo_safe | intros _ _].
    apply safe_ret. exact I. }
  intros deviceInfo _.
  eapply guarded_bind with (R := fun _ => True);
    [apply invariant_True
    | eapply guarded_weaken; [apply checkDevicePattern_guarded | auto]
    | intros r2 _].
  eapply guarded_bind with (R := fun _ => False);
    [apply invariant_True | | intros _ []].
  simpl. apply guarded_throw.
Qed.

Lemma device_undefined u t fp ua h w :
  (DeviceAnalyzer.truthyOpt fp || DeviceAnalyzer.truthyOpt ua)%bool = true ->
  exists f w',
    DeviceAnalyzer.analyze cfg X e u t fp ua DevicesUndefined h w = (Returned f, w')
    /\ stable X w w'
    /\ (f = DeviceAnalyzer.blocked cfg \/ f = DeviceAnalyzer.unavailable cfg).
Proof.
  intros Hsome.
  destruct (device_safe cfg X e u t fp ua DevicesUndefined h w I) as (f & w' & E & S & _).
  exists f, w'. split; [exact E|]. split; [exact S|].
  revert E. unfold DeviceAnalyzer.analyze, tryCatch.
  assert (Hno : (negb (DeviceAnalyzer.truthyOpt fp) && negb (DeviceAnalyzer.truthyOpt ua))%bool
                = false).
  { destruct (DeviceAnalyzer.truthyOpt fp), (DeviceAnalyzer.truthyOpt ua);
      simpl in *; congruence. }
  rewrite Hno. unfold bind at 1.
  destruct ((if DeviceAnalyzer.truthyOpt fp
             then DeviceAnalyzer.checkBlocklist X e (default "" fp)
             else ret false) w) as [[b|] w1].
  - destruct b.
    + unfold ret. intros E. left. congruence.
    + destruct (scoreDevice_undefined u fp ua h w1 I) as (o & w2 & E2 & _ & Ho).
      rewrite E2. destruct o as [f'|]; [contradiction|].
      unfold ret. intros E. right. congruence.
  - unfold ret. intros E. right. congruence.
Qed.


(** The velocity analyzer touches nothing a blocklist lookup reads. *)
Lemma velocity_frame u t a r w :
  exists f w',
    VelocityAnalyzer.analyze cfg u t a r w = (Returned f, w')
    /\ stable X w w' /\ factor_sound cfg f /\ sameBlocklist w w'.
Proof.
  destruct (velocity_safe cfg X u t a r w I) as (f & w' & E & S & Hf).
  exists f, w'. split; [exact E|]. split; [exact S|]. split; [exact Hf|].
  destruct (getVelocityData_run u w) as (vd & E1 & _).
  destruct (velocity_incrementVelocity_run u a w) as (w2 & E2 & Hfr & _).
  revert E. unfold VelocityAnalyzer.analyze.
  erewrite tryCatch_returned;
    [|rewrite (bind_returned _ _ _ _ _ E1), (bind_returned _ _ _ _ _ E2); reflexivity].
  intros E. injection E as _ <-. exact Hfr.
Qed.

(** The scoring steps, with what is known of the device factor: the
    device analyzer runs after the amount and velocity analyzers, in a
    state whose blocklist is the one the run started with. *)
Lemma analyzeTransaction_device (Dq : RiskFactor -> Prop) transaction correlationId w :
  (forall w1, sameBlocklist w w1 ->
     exists f w2,
       DeviceAnalyzer.analyze cfg X e (payload_userId transaction)
         (payload_transactionId transaction)
         (option_map fingerprint (device transaction))
         (device transaction ≫= userAgent)
         (match device transaction ≫= deviceId with
          | Some deviceId => DevicesString deviceId
          | None => DevicesUndefined
          end)
         HistoryArray w1 = (Returned f, w2)
       /\ stable X w1 w2 /\ Dq f) ->
  exists r w',
    FraudDetectionService.analyzeTransaction cfg X e transaction correlationId w
    = (Returned r, w')
    /\ stable X w w'
    /\ exists factors version,
         r = FraudDetectionService.calculateFinalDecision cfg (analysisId e) transaction
               factors version correlationId
         /\ Forall (factor_sound cfg) factors
         /\ exists f, In f factors /\ Dq f.
Proof.
  intros Hdevice. unfold FraudDetectionService.analyzeTransaction.
  assert (E0 : exists h, CacheService.getUserHistory (payload_userId transaction) w
                         = (Returned h, w)).
  { unfold CacheService.getUserHistory, bind, get, ret.
    destruct (redisConnected w); simpl; eauto. }
  destruct E0 as (h & E0). rewrite (bind_returned _ _ _ _ _ E0). cbv zeta.
  destruct (amount_safe cfg X e (payload_userId transaction) (payload_transactionId transaction)
              (amount transaction) (currency transaction) h w I) as (f1 & w1 & E1 & _ & H1).
  assert (Hw1 : w1 = w).
  { revert E1. unfold AmountAnalyzer.analyze, tryCatch, ret. intros E1. congruence. }
  subst w1.
  rewrite (bind_returned _ _ _ _ _ (safeAnalyze_returned _ "AMOUNT" _ _ _ E1)).
  destruct (velocity_frame (payload_userId transaction) (payload_transactionId transaction)
              (amount transaction) (recipientId transaction) w)
    as (f2 & w2 & E2 & S2 & H2 & Hfr).
  rewrite (bind_returned _ _ _ _ _ (safeAnalyze_returned _ "VELOCITY" _ _ _ E2)).
  destruct (Hdevice w2 Hfr) as (f3 & w3 & E3 & S3 & H3).
  assert (H3s : factor_sound cfg f3).
  { destruct (device_safe cfg X e (payload_userId transaction)
                (payload_transactionId transaction)
                (option_map fingerprint (device transaction))
                (device transaction ≫= userAgent)
                (match device transaction ≫= deviceId with
                 | Some deviceId => DevicesString deviceId
                 | None => DevicesUndefined
                 end) HistoryArray w2 I) as (f3' & w3' & E3' & _ & Hs).
    rewrite E3 in E3'. injection E3' as <- _. exact Hs. }
  rewrite (bind_returned _ _ _ _ _ (safeAnalyze_returned _ "DEVICE" _ _ _ E3)).
  eassert (Htail : safe X anyWorld _
                (fun r => exists factors version,
                     r = FraudDetectionService.calculateFinalDecision cfg (analysisId e)
                           transaction factors version correlationId
                     /\ Forall (factor_sound cfg) factors
                     /\ exists f, In f factors /\ Dq f)); cycle 1.
  { destruct (Htail w3 I) as (r & w' & E & S & Hr).
    exists r, w'. split; [exact E|]. split; [|exact Hr].
    eapply stable_trans; [exact S2|]. eapply stable_trans; [exact S3 | exact S]. }
  eapply safe_bind;
    [apply invariant_True
    | apply safeAnalyze_safe; [apply invariant_True | apply geographic_safe]
    | intros o4 (f4 & -> & H4)].
  eapply safe_bind;
    [apply invariant_True
    | apply safeAnalyze_safe; [apply invariant_True | apply recipient_safe]
    | intros o5 (f5 & -> & H5)].
  eapply safe_bind;
    [apply invariant_True
    | apply safeAnalyze_safe; [apply invariant_True | apply time_safe]
    | intros o6 (f6 & -> & H6)].
  apply prediction_safe; [apply invariant_True|]. intros p Hp.
  apply safe_ret. simpl.
  eexists _, _. split; [reflexivity|]. split.
  - repeat (apply List.Forall_cons; [assumption|]).
    apply List.Forall_cons; [intros _; apply modelFactor_ok; assumption | apply List.Forall_nil].
  - exists f3. split; [simpl; auto 10 | exact H3].
Qed.

End Device.



(** X29.  The orchestrator calls the device analyzer with one argument
    more than it takes, so that [deviceId] arrives as [knownDevices].  For
    an event whose device has a fingerprint and no [deviceId], the device
    rules therefore never score: the analysis carries the DEVICE factor of
    the error path (score 0, contribution 0) unless the device is
    blocklisted, in which case it carries the blocked factor. *)
Theorem X29_device_without_deviceId_is_not_scored cfg X e event d w :
  device (payload event) = Some d ->
  deviceId d = None ->
  Js.truthy (fingerprint d) = true ->
  unmarked w (payload_transactionId (payload event)) ->
  exists result w',
    FraudDetectionService.processTransaction cfg X e event w = (Returned (Some result), w')
    /\ (In (DeviceAnalyzer.unavailable cfg) (riskFactors result)
        \/ In (DeviceAnalyzer.blocked cfg) (riskFactors result)).
Proof.
  intros Hd Hid Hfp Hfresh.
  destruct (analyzeTransaction_device cfg X e
              (fun f => f = DeviceAnalyzer.blocked cfg \/ f = DeviceAnalyzer.unavailable cfg)
              (payload event) (correlationId event) w)
    as (r & w1 & E1 & S1 & factors & version & -> & Hall & f & Hin & Hf).
  { intros w1 _. rewrite Hd. simpl. rewrite Hid.
    apply device_undefined. unfold DeviceAnalyzer.truthyOpt at 1. simpl. rewrite Hfp.
    reflexivity. }
  destruct (processTransaction_finish cfg X e event w _ w1 Hfresh E1 S1
              (calculateFinalDecision_coherent cfg _ _ _ _ _) eq_refl) as (w' & E & _).
  eexists _, w'. split; [exact E|]. simpl. destruct Hf as [-> | ->]; auto.
Qed.

Lemma X29_witness :
  device (payload deviceEvent) = Some exampleDevice
  /\ deviceId exampleDevice = None
  /\ Js.truthy (fingerprint exampleDevice) = true
  /\ unmarked emptyWorld (payload_transactionId (payload deviceEvent))
  /\ exists result w',
       FraudDetectionService.processTransaction defaultConfig exampleExternals exampleEnv
         deviceEvent emptyWorld = (Returned (Some result), w')
       /\ (In (DeviceAnalyzer.unavailable defaultConfig) (riskFactors result)
           \/ In (DeviceAnalyzer.blocked defaultConfig) (riskFactors result)).
Proof.
  assert (Hfresh : unmarked emptyWorld (payload_transactionId (payload deviceEvent)))
    by (right; vm_compute; reflexivity).
  split; [reflexivity|]. split; [reflexivity|]. split; [reflexivity|]. split; [exact Hfresh|].
  exact (X29_device_without_deviceId_is_not_scored defaultConfig exampleExternals exampleEnv
           deviceEvent exampleDevice emptyWorld eq_refl eq_refl eq_refl Hfresh).
Defined.

(** X30.  A transaction whose country is the name of a member that every
    object inherits from [Object.prototype] ([constructor], [toString],
    [__proto__], ...) is taken for a high-risk country without a score: the
    geographic factor has a score that is NaN, so has the analysis, and NaN
    passes neither threshold.  The transaction is approved without manual
    review and published as FraudAnalysisComplete to a connected producer,
    whatever the other analyzers found, a blocklisted recipient or device
    included. *)
Theorem X30_inherited_country_is_approved cfg X e event w :
  inheritedCountry (payload event) = true ->
  unmarked w (payload_transactionId (payload event)) ->
  exists result w',
    FraudDetectionService.processTransaction cfg X e event w = (Returned (Some result), w')
    /\ (exists f, In f (riskFactors result) /\ method f = GEOGRAPHIC /\ rawScoreOf f = Js.NaN)
    /\ scoreOf result = Js.NaN
    /\ decision result = APPROVE /\ requiresManualReview result = false
    /\ (producerConnected w = true ->
        List.map (fun m => (topic m, eventType m)) (sent w')
        = (List.map (fun m => (topic m, eventType m)) (sent w)
           ++ [(fraudAnalysis, FraudAnalysisComplete)])%list).
Proof.
  intros Hcountry Hfresh.
  destruct (processTransaction_trace cfg X e event w Hfresh)
    as (factors & version & w' & E & _ & T).
  cbv zeta in E, T.
  destruct (processTransaction_collected cfg X e event w _ w' E)
    as (factors' & p & w1 & Hc & Heq).
  assert (Hsame : factors = factors') by exact (f_equal riskFactors Heq).
  subst factors'.
  destruct (collected_geographic cfg X e _ _ _ _ _ Hc) as (f & Hin & Hgeo & Hf).
  rewrite Hcountry in Hf.
  assert (Hnum : existsb scoreIsNaN factors = true)
    by (apply existsb_exists; exists f; split; assumption).
  destruct (calculateFinalDecision_NaN cfg (analysisId e) (payload event) version
              (correlationId event) factors Hnum) as [Hd Hm].
  eexists _, w'. split; [exact E|].
  split; [|split; [|split; [exact Hd|split; [exact Hm|]]]].
  - exists f. split; [exact Hin|]. split; [exact Hgeo|].
    unfold rawScoreOf. rewrite Hf. reflexivity.
  - unfold scoreOf.
    change (finalScoreIsNaN (FraudDetectionService.withAnalysisTime _ _))
      with (existsb scoreIsNaN factors).
    rewrite Hnum. reflexivity.
  - intros Hp. rewrite (trace_sent _ _ _ _ _ _ T), Hp, List.map_app.
    unfold outbound. rewrite Hd. reflexivity.
Qed.

Lemma X30_witness :
  inheritedCountry (payload memberCountryEvent) = true
  /\ unmarked blockedWorld (payload_transactionId (payload memberCountryEvent))
  /\ blocklisted exampleExternals blockedWorld
       (recipientId (payload memberCountryEvent))
       (destinationAccountId (payload memberCountryEvent))
  /\ exists result w',
       FraudDetectionService.processTransaction defaultConfig exampleExternals exampleEnv
         memberCountryEvent blockedWorld = (Returned (Some result), w')
       /\ scoreOf result = Js.NaN
       /\ decision result = APPROVE /\ requiresManualReview result = false.
Proof.
  assert (Hfresh : unmarked blockedWorld (payload_transactionId (payload memberCountryEvent)))
    by (right; vm_compute; reflexivity).
  split; [reflexivity|]. split; [exact Hfresh|]. split.
  { left. split; [reflexivity|]. exists blockedEntry.
    split; [vm_compute; reflexivity | reflexivity]. }
  destruct (X30_inherited_country_is_approved defaultConfig exampleExternals exampleEnv
              memberCountryEvent blockedWorld eq_refl Hfresh)
    as (result & w' & E & _ & Hs & Hd & Hm & _).
  exists result, w'. auto.
Defined.
